(** * A shallow embedding of [azure.identity._internal.aad_client_base]

    The development follows the Python module top to bottom:

    - Python values as the module sees them (decoded JSON bodies, form
      bodies, cache entries): [value], with insertion-ordered dictionaries;
    - the builtins and standard-library calls the module relies on
      ([int], [str.lower], [str.split], [repr], [json.dumps],
      [base64.urlsafe_b64encode]);
    - the token-cache store the client talks to ([msal.TokenCache]);
    - [AadClientBase] itself, method by method, with the client object
      threaded explicitly wherever the Python code mutates [self];
    - the module-level helpers [_merge_claims_challenge_and_capabilities],
      [_scrub_secrets] and [_raise_for_error].

    Python [str] is modelled by [string], read as a sequence of code
    points below 256; floating-point JSON numbers are outside the model. *)

From Stdlib Require Import String Ascii List ZArith Lia Bool.
From Stdlib Require Import DecimalString DecimalZ DecimalPos DecimalN.
Import ListNotations.

Local Open Scope string_scope.
Local Open Scope Z_scope.

Set Implicit Arguments.

(* ===================================================================== *)
(** * Exceptions and results *)
(* ===================================================================== *)

(** The exceptions that can leave the module.  [ClientAuthenticationError]
    is the typed authentication error of azure-core and carries its
    message; the others are raised by the interpreter or by [json]. *)
Inductive exn : Type :=
| ClientAuthenticationError (message : string)
| KeyError (key : string)
| ValueError
| TypeError
| AttributeError
| JSONDecodeError.

Inductive result (A : Type) : Type :=
| Ok (a : A)
| Raise (e : exn).

Arguments Ok {A} a.
Arguments Raise {A} e.

Definition bind {A B} (m : result A) (k : A -> result B) : result B :=
  match m with
  | Ok a => k a
  | Raise e => Raise e
  end.

Notation "'do' x <- m ; k" := (bind m (fun x => k))
  (at level 10, x name, m at level 100, k at level 200).
Notation "'do' ' p <- m ; k" := (bind m (fun x => let 'p := x in k))
  (at level 10, p strict pattern, m at level 100, k at level 200).


Definition is_auth_error {A} (m : result A) : bool :=
  match m with Raise (ClientAuthenticationError _) => true | _ => false end.

(* ===================================================================== *)
(** * Python values *)
(* ===================================================================== *)

Unset Elimination Schemes.

(** What [json.loads] produces and [json.dumps] consumes, floats apart.  A
    [VDict] lists its items in insertion order, as a Python [dict] does. *)
Inductive value : Type :=
| VNone
| VBool (b : bool)
| VInt (n : Z)
| VStr (s : string)
| VList (l : list value)
| VDict (d : list (string * value)).

Set Elimination Schemes.

Abbreviation dict := (list (string * value)).

Section ValueInd.
Variable P : value -> Prop.
Hypothesis HNone : P VNone.
Hypothesis HBool : forall b, P (VBool b).
Hypothesis HInt : forall n, P (VInt n).
Hypothesis HStr : forall s, P (VStr s).
Hypothesis HList : forall l, Forall P l -> P (VList l).
Hypothesis HDict : forall d, Forall (fun kv => P (snd kv)) d -> P (VDict d).

Fixpoint value_ind (v : value) : P v :=
  match v with
  | VNone => HNone
  | VBool b => HBool b
  | VInt n => HInt n
  | VStr s => HStr s
  | VList l =>
      HList ((fix go (l : list value) : Forall P l :=
                match l with
                | [] => Forall_nil _
                | x :: r => Forall_cons _ (value_ind x) (go r)
                end) l)
  | VDict d =>
      HDict ((fix go (d : dict) : Forall (fun kv => P (snd kv)) d :=
                match d with
                | [] => Forall_nil _
                | kv :: r => Forall_cons _ (value_ind (snd kv)) (go r)
                end) d)
  end.
End ValueInd.

(** ** Dictionaries

    A Python [dict] with string keys, as the list of its items in
    insertion order: [d.get(k)], [d[k] = v] (an existing key keeps its
    position, a new key goes last), [del d[k]] and [d.pop(k, None)],
    [d.update(e)]. *)
Module Assoc.
Section Assoc.
Variable V : Type.

Fixpoint get (k : string) (d : list (string * V)) : option V :=
  match d with
  | [] => None
  | (k', v) :: r => if String.eqb k k' then Some v else get k r
  end.

Definition mem (k : string) (d : list (string * V)) : bool :=
  match get k d with Some _ => true | None => false end.

Fixpoint set (k : string) (v : V) (d : list (string * V))
    : list (string * V) :=
  match d with
  | [] => [(k, v)]
  | (k', v') :: r =>
      if String.eqb k k' then (k, v) :: r else (k', v') :: set k v r
  end.

(** A dictionary never lists a key twice; [del] is written so that this
    need not be assumed of its argument. *)
Fixpoint del (k : string) (d : list (string * V)) : list (string * V) :=
  match d with
  | [] => []
  | (k', v') :: r => if String.eqb k k' then del k r else (k', v') :: del k r
  end.

(** [d.update(e)]: the items of [e] are assigned in order. *)
Definition update (d e : list (string * V)) : list (string * V) :=
  fold_left (fun acc kv => set (fst kv) (snd kv) acc) e d.

Definition keys (d : list (string * V)) : list string := map fst d.

(** The invariant of a Python dictionary: no key occurs twice. *)
Definition wf (d : list (string * V)) : Prop := NoDup (keys d).

End Assoc.
End Assoc.

Module Dict.

Abbreviation get := (@Assoc.get value).
Abbreviation mem := (@Assoc.mem value).
Abbreviation set := (@Assoc.set value).
Abbreviation del := (@Assoc.del value).
Abbreviation wf := (@Assoc.wf value).

(** [d.get(k, default)]. *)
Definition get_default (k : string) (default : value) (d : dict) : value :=
  match get k d with Some v => v | None => default end.

(** [d[k]], raising [KeyError] on a missing key. *)
Definition item (k : string) (d : dict) : result value :=
  match get k d with Some v => Ok v | None => Raise (KeyError k) end.

End Dict.

(* ===================================================================== *)
(** * Builtins *)
(* ===================================================================== *)

Module Py.

Definition code (c : ascii) : Z := Z.of_N (N_of_ascii c).
Definition chr (n : Z) : ascii := ascii_of_N (Z.to_N n).

(** The double quote. *)
Definition dquote : ascii := "034"%char.

(** [str.isspace] on one code point below 256. *)
Definition isspace (c : ascii) : bool :=
  let n := code c in
  ((9 <=? n) && (n <=? 13)) || ((28 <=? n) && (n <=? 32))
  || (n =? 133) || (n =? 160).

(** [str.lower] on one code point below 256: the ASCII capitals and the
    Latin-1 capitals (all of U+00C0..U+00DE but the multiplication sign). *)
Definition lower_char (c : ascii) : ascii :=
  let n := code c in
  if ((65 <=? n) && (n <=? 90))
     || ((192 <=? n) && (n <=? 222) && negb (n =? 215))
  then chr (n + 32) else c.

Fixpoint lower (s : string) : string :=
  match s with
  | EmptyString => EmptyString
  | String c r => String (lower_char c) (lower r)
  end.

(** [sep.join(parts)]. *)
Fixpoint join (sep : string) (parts : list string) : string :=
  match parts with
  | [] => ""
  | [p] => p
  | p :: r => p ++ sep ++ join sep r
  end.

(** [s.split()]: the maximal runs of non-space characters.  [cur] holds
    the characters of the current run, last one first. *)
Fixpoint split_ws (cur : list ascii) (s : string) : list string :=
  let flush (k : list string) :=
    match cur with
    | [] => k
    | _ => string_of_list_ascii (rev cur) :: k
    end in
  match s with
  | EmptyString => flush []
  | String c r =>
      if isspace c then flush (split_ws [] r) else split_ws (c :: cur) r
  end.

Definition split (s : string) : list string := split_ws [] s.

(** [s.split(sep)] for a one-character separator. *)
Fixpoint split_on (sep : ascii) (s : string) : list string :=
  match s with
  | EmptyString => [""]
  | String c r =>
      if Ascii.eqb c sep then "" :: split_on sep r
      else match split_on sep r with
           | p :: ps => String c p :: ps
           | [] => [String c ""]
           end
  end.

(** [sub in s]. *)
Fixpoint contains (sub s : string) : bool :=
  String.prefix sub s
  || match s with
     | EmptyString => false
     | String _ r => contains sub r
     end.

(** The white space [int] skips around a literal: the ASCII white space
    and, above it, NEL and the no-break space.  The separators U+001C to
    U+001F, which [str.isspace] accepts, are not among it. *)
Definition int_space (c : ascii) : bool :=
  let n := code c in
  ((9 <=? n) && (n <=? 13)) || (n =? 32) || (n =? 133) || (n =? 160).

(** A text without the white space [int] skips at its two ends. *)
Fixpoint lstrip (s : list ascii) : list ascii :=
  match s with
  | c :: r => if int_space c then lstrip r else s
  | [] => []
  end.

Definition strip (s : list ascii) : list ascii :=
  rev (lstrip (rev (lstrip s))).

Definition digit (c : ascii) : option Z :=
  let n := code c in
  if (48 <=? n) && (n <=? 57) then Some (n - 48) else None.

(** The digits of an [int] literal given as text: decimal digits, single
    underscores allowed between two digits. *)
Fixpoint digits (acc : Z) (after_digit : bool) (s : list ascii) : option Z :=
  match s with
  | [] => if after_digit then Some acc else None
  | c :: r =>
      match digit c with
      | Some d => digits (10 * acc + d) true r
      | None =>
          if Ascii.eqb c "_" && after_digit then digits acc false r
          else None
      end
  end.

Definition int_of_str (s : string) : option Z :=
  match strip (list_ascii_of_string s) with
  | "-"%char :: r => option_map Z.opp (digits 0 false r)
  | "+"%char :: r => digits 0 false r
  | r => digits 0 false r
  end.

(** [int(v)].  The interpreter's bound on the length of a literal (4300
    digits unless configured otherwise) is left out: a longer literal is
    read here and refused there. *)
Definition int (v : value) : result Z :=
  match v with
  | VInt n => Ok n
  | VBool b => Ok (if b then 1 else 0)
  | VStr s =>
      match int_of_str s with Some n => Ok n | None => Raise ValueError end
  | VNone | VList _ | VDict _ => Raise TypeError
  end.

(** Truth value of an object, as [if v], [not v] and [v or w] test it. *)
Definition truthy (v : value) : bool :=
  match v with
  | VNone => false
  | VBool b => b
  | VInt n => negb (n =? 0)
  | VStr s => negb (String.eqb s "")
  | VList l => match l with [] => false | _ => true end
  | VDict d => match d with [] => false | _ => true end
  end.

(** [str(n)] for an integer. *)
Definition str_of_int (n : Z) : string :=
  NilZero.string_of_int (Z.to_int n).

Definition hex_digit (n : Z) : ascii :=
  if n <? 10 then chr (48 + n) else chr (87 + n).

(** Two lower-case hexadecimal digits of a code point below 256. *)
Definition hex2 (c : ascii) : string :=
  let n := code c in
  String (hex_digit (n / 16)) (String (hex_digit (n mod 16)) "").

Fixpoint contains_char (c : ascii) (s : string) : bool :=
  match s with
  | EmptyString => false
  | String c' r => Ascii.eqb c c' || contains_char c r
  end.

(** [repr] of a [str]: single quotes unless the text has a single quote
    and no double quote; the quote and the backslash are escaped, tab,
    newline and carriage return get their short escapes, and what
    [str.isprintable] rejects is written [\xhh]. *)
Definition printable (c : ascii) : bool :=
  let n := code c in
  ((32 <=? n) && (n <? 127)) || ((161 <=? n) && negb (n =? 173)).

Definition repr_char (quote : ascii) (c : ascii) : string :=
  if Ascii.eqb c quote || Ascii.eqb c "\" then String "\" (String c "")
  else if Ascii.eqb c "009" then "\t"
  else if Ascii.eqb c "010" then "\n"
  else if Ascii.eqb c "013" then "\r"
  else if printable c then String c ""
  else "\x" ++ hex2 c.

Fixpoint repr_chars (quote : ascii) (s : string) : string :=
  match s with
  | EmptyString => ""
  | String c r => repr_char quote c ++ repr_chars quote r
  end.

Definition repr_str (s : string) : string :=
  let quote :=
    if contains_char "'" s && negb (contains_char dquote s)
    then dquote else "'"%char in
  String quote (repr_chars quote s) ++ String quote "".

(** [repr(v)]. *)
Fixpoint repr (v : value) : string :=
  match v with
  | VNone => "None"
  | VBool true => "True"
  | VBool false => "False"
  | VInt n => str_of_int n
  | VStr s => repr_str s
  | VList l => "[" ++ join ", " (map repr l) ++ "]"
  | VDict d =>
      "{" ++ join ", " (map (fun kv => repr_str (fst kv) ++ ": "
                                       ++ repr (snd kv)) d) ++ "}"
  end.

(** [str(v)], which is what a [{}] field of [str.format] inserts. *)
Definition str (v : value) : string :=
  match v with
  | VStr s => s
  | _ => repr v
  end.

(** [v == s] for a string [s]. *)
Definition eq_str (v : value) (s : string) : bool :=
  match v with
  | VStr s' => String.eqb s' s
  | _ => false
  end.

End Py.

(* ===================================================================== *)
(** * [json.dumps] *)
(* ===================================================================== *)

Module Json.

(** One character of a string literal, as [json.dumps] writes it with
    its default [ensure_ascii=True]: the quote and the backslash are
    escaped, backspace, form feed, newline, carriage return and tab get
    their short escapes, and every other character outside [' '..'~'] is
    written [\u00hh]. *)
Definition escape_char (c : ascii) : string :=
  let n := Py.code c in
  if n =? 34 then String "\" (String Py.dquote "")
  else if n =? 92 then "\\"
  else if n =? 10 then "\n"
  else if n =? 13 then "\r"
  else if n =? 9 then "\t"
  else if n =? 8 then "\b"
  else if n =? 12 then "\f"
  else if (32 <=? n) && (n <=? 126) then String c ""
  else "\u00" ++ Py.hex2 c.

Fixpoint escape (s : string) : string :=
  match s with
  | EmptyString => ""
  | String c r => escape_char c ++ escape r
  end.

Definition dumps_str (s : string) : string :=
  String Py.dquote (escape s ++ String Py.dquote "").

(** [json.dumps(v)] with the default separators [", "] and [": "]. *)
Fixpoint dumps (v : value) : string :=
  match v with
  | VNone => "null"
  | VBool true => "true"
  | VBool false => "false"
  | VInt n => Py.str_of_int n
  | VStr s => dumps_str s
  | VList l => "[" ++ Py.join ", " (map dumps l) ++ "]"
  | VDict d =>
      "{" ++ Py.join ", " (map (fun kv => dumps_str (fst kv) ++ ": "
                                          ++ dumps (snd kv)) d) ++ "}"
  end.

(** ** A decoder

    [loads] reads the JSON texts of the values of this model, as
    [json.loads] does: objects, arrays, strings, integers, [true], [false]
    and [null], with insignificant white space.  Numbers with a fraction or
    an exponent and [\u] escapes above [00ff] have no counterpart among
    the values and are not read. *)

Definition is_ws (c : ascii) : bool :=
  let n := Py.code c in
  (n =? 32) || (n =? 9) || (n =? 10) || (n =? 13).

Fixpoint skip_ws (s : string) : string :=
  match s with
  | String c r => if is_ws c then skip_ws r else s
  | EmptyString => s
  end.

Definition hex_value (c : ascii) : option Z :=
  let n := Py.code c in
  if (48 <=? n) && (n <=? 57) then Some (n - 48)
  else if (97 <=? n) && (n <=? 102) then Some (n - 87)
  else if (65 <=? n) && (n <=? 70) then Some (n - 55)
  else None.

(** The character a one-letter escape stands for. *)
Definition unescape (e : ascii) : option ascii :=
  let n := Py.code e in
  if n =? 34 then Some e
  else if n =? 92 then Some e
  else if n =? 47 then Some e
  else if n =? 98 then Some (Py.chr 8)
  else if n =? 102 then Some (Py.chr 12)
  else if n =? 110 then Some (Py.chr 10)
  else if n =? 114 then Some (Py.chr 13)
  else if n =? 116 then Some (Py.chr 9)
  else None.

Definition cons_char (c : ascii) (r : option (string * string))
    : option (string * string) :=
  match r with
  | Some (s, rest) => Some (String c s, rest)
  | None => None
  end.

(** A string literal past its opening quote: the text, and what follows
    the closing quote. *)
Fixpoint string_p (s : string) : option (string * string) :=
  match s with
  | EmptyString => None
  | String c r =>
      if Ascii.eqb c Py.dquote then Some ("", r)
      else if Ascii.eqb c "\" then
        match r with
        | String e r' =>
            if Ascii.eqb e "u" then
              match r' with
              | String h1 (String h2 (String h3 (String h4 r''))) =>
                  match hex_value h1, hex_value h2, hex_value h3,
                        hex_value h4 with
                  | Some a, Some b, Some c, Some d =>
                      let n := ((a * 16 + b) * 16 + c) * 16 + d in
                      if n <? 256 then cons_char (Py.chr n) (string_p r'')
                      else None
                  | _, _, _, _ => None
                  end
              | _ => None
              end
            else
              match unescape e with
              | Some c' => cons_char c' (string_p r')
              | None => None
              end
        | EmptyString => None
        end
      else if Py.code c <? 32 then None
      else cons_char c (string_p r)
  end.

(** The longest run of decimal digits at the head of a text, as the
    number it writes and its length, and the rest of the text. *)
Fixpoint digits_p (acc : Z) (len : nat) (s : string) : Z * nat * string :=
  match s with
  | String c r =>
      match Py.digit c with
      | Some d => digits_p (10 * acc + d) (S len) r
      | None => (acc, len, s)
      end
  | EmptyString => (acc, len, s)
  end.

Definition starts_fraction (s : string) : bool :=
  match s with
  | String c _ =>
      let n := Py.code c in (n =? 46) || (n =? 101) || (n =? 69)
  | EmptyString => false
  end.

(** [s] starts with the character [c]. *)
Definition head_is (c : ascii) (s : string) : bool :=
  match s with
  | String c' _ => Ascii.eqb c' c
  | EmptyString => false
  end.

Definition behead (s : string) : string :=
  match s with
  | String _ r => r
  | EmptyString => s
  end.

(** An integer: digits without a superfluous leading zero, and neither a
    fraction nor an exponent after them. *)
Definition unsigned_p (s : string) : option (Z * string) :=
  let '(n, len, rest) := digits_p 0 0 s in
  match len with
  | O => None
  | S _ =>
      if starts_fraction rest then None
      else if head_is "0" s && negb (len =? 1)%nat then None
      else Some (n, rest)
  end.

Definition number_p (s : string) : option (Z * string) :=
  if head_is "-" s then
    match unsigned_p (behead s) with
    | Some (n, rest) => Some (- n, rest)
    | None => None
    end
  else unsigned_p s.

Fixpoint strip_prefix (p s : string) : option string :=
  match p, s with
  | EmptyString, _ => Some s
  | String a p', String b s' =>
      if Ascii.eqb a b then strip_prefix p' s' else None
  | String _ _, EmptyString => None
  end.

(** A literal name and the value it stands for. *)
Definition literal_p (name : string) (v : value) (s : string)
    : option (value * string) :=
  match strip_prefix name s with
  | Some rest => Some (v, rest)
  | None => None
  end.

(** The dictionary a sequence of members makes: a later member replaces
    an earlier one of the same name. *)
Definition dict_of_members (l : dict) : dict :=
  fold_left (fun acc kv => Dict.set (fst kv) (snd kv) acc) l [].

(** Values, the elements of an array past its first bracket, and the
    members of an object past its first brace; [fuel] bounds the number of
    nested calls. *)
Fixpoint value_p (fuel : nat) (s : string) : option (value * string) :=
  match fuel with
  | O => None
  | S fuel =>
      let s := skip_ws s in
      if head_is "{" s then
        let r := skip_ws (behead s) in
        if head_is "}" r then Some (VDict [], behead r)
        else
          match members_p fuel r with
          | Some (l, rest) => Some (VDict (dict_of_members l), rest)
          | None => None
          end
      else if head_is "[" s then
        let r := skip_ws (behead s) in
        if head_is "]" r then Some (VList [], behead r)
        else
          match elements_p fuel r with
          | Some (l, rest) => Some (VList l, rest)
          | None => None
          end
      else if head_is Py.dquote s then
        match string_p (behead s) with
        | Some (t, rest) => Some (VStr t, rest)
        | None => None
        end
      else if head_is "t" s then literal_p "true" (VBool true) s
      else if head_is "f" s then literal_p "false" (VBool false) s
      else if head_is "n" s then literal_p "null" VNone s
      else
        match number_p s with
        | Some (n, rest) => Some (VInt n, rest)
        | None => None
        end
  end
with elements_p (fuel : nat) (s : string) : option (list value * string) :=
  match fuel with
  | O => None
  | S fuel =>
      match value_p fuel s with
      | Some (v, r) =>
          let r := skip_ws r in
          if head_is "," r then
            match elements_p fuel (behead r) with
            | Some (l, rest) => Some (v :: l, rest)
            | None => None
            end
          else if head_is "]" r then Some ([v], behead r)
          else None
      | None => None
      end
  end
with members_p (fuel : nat) (s : string) : option (dict * string) :=
  match fuel with
  | O => None
  | S fuel =>
      let s := skip_ws s in
      if head_is Py.dquote s then
        match string_p (behead s) with
        | Some (k, r) =>
            let r := skip_ws r in
            if head_is ":" r then
              match value_p fuel (behead r) with
              | Some (v, r) =>
                  let r := skip_ws r in
                  if head_is "," r then
                    match members_p fuel (behead r) with
                    | Some (l, rest) => Some ((k, v) :: l, rest)
                    | None => None
                    end
                  else if head_is "}" r then Some ([(k, v)], behead r)
                  else None
              | None => None
              end
            else None
        | None => None
        end
      else None
  end.

(** [json.loads(s)]. *)
Definition loads (s : string) : result value :=
  match value_p (S (String.length s)) s with
  | Some (v, rest) =>
      match skip_ws rest with
      | EmptyString => Ok v
      | _ => Raise JSONDecodeError
      end
  | None => Raise JSONDecodeError
  end.

(** ** Well-formed values and their size *)

(** No dictionary of the value lists a key twice. *)
Fixpoint value_wf (v : value) : Prop :=
  match v with
  | VList l =>
      (fix go (l : list value) : Prop :=
         match l with
         | [] => True
         | x :: r => value_wf x /\ go r
         end) l
  | VDict d =>
      NoDup (map fst d)
      /\ (fix go (d : dict) : Prop :=
            match d with
            | [] => True
            | kv :: r => value_wf (snd kv) /\ go r
            end) d
  | _ => True
  end.

(** The number of nested calls reading a value takes. *)
Fixpoint size (v : value) : nat :=
  match v with
  | VList l =>
      S ((fix go (l : list value) : nat :=
            match l with
            | [] => O
            | x :: r => S (size x + go r)
            end) l)
  | VDict d =>
      S ((fix go (d : dict) : nat :=
            match d with
            | [] => O
            | kv :: r => S (size (snd kv) + go r)
            end) d)
  | _ => 1%nat
  end.

(** What may follow a value in a text: nothing, or a comma, a closing
    bracket or a closing brace. *)
Definition delimited (rest : string) : Prop :=
  rest = "" \/ head_is "," rest = true \/ head_is "]" rest = true
  \/ head_is "}" rest = true.

End Json.

(* ===================================================================== *)
(** * Bytes, UTF-8 and [base64.urlsafe_b64encode] *)
(* ===================================================================== *)

Abbreviation bytes := (list Byte.byte).

Module Bytes.

Definition to_Z (b : Byte.byte) : Z := Z.of_N (Byte.to_N b).

Definition of_Z (n : Z) : Byte.byte :=
  match Byte.of_N (Z.to_N n) with
  | Some b => b
  | None => Byte.x00
  end.

(** [s.encode("utf-8")] for code points below 256: one byte below 128,
    two bytes from 128 on. *)
Fixpoint encode_utf8 (s : string) : bytes :=
  match s with
  | EmptyString => []
  | String c r =>
      let n := Py.code c in
      if n <? 128 then of_Z n :: encode_utf8 r
      else of_Z (192 + n / 64) :: of_Z (128 + n mod 64) :: encode_utf8 r
  end.

(** [b.decode("utf-8")], for byte strings made of ASCII bytes, which is
    all the module ever decodes; any other byte is reported as the
    [UnicodeDecodeError] it might be, a [ValueError]. *)
Fixpoint decode_ascii (b : bytes) : result string :=
  match b with
  | [] => Ok ""
  | x :: r =>
      if to_Z x <? 128
      then do s <- decode_ascii r; Ok (String (ascii_of_byte x) s)
      else Raise ValueError
  end.

End Bytes.

Module Base64.

Import Bytes.

(** The URL-safe alphabet of RFC 4648 section 5. *)
Definition alphabet (n : Z) : Byte.byte :=
  if n <? 26 then of_Z (65 + n)
  else if n <? 52 then of_Z (71 + n)
  else if n <? 62 then of_Z (n - 4)
  else if n =? 62 then Byte.x2d
  else Byte.x5f.

(** The padding character ['=']. *)
Definition pad : Byte.byte := Byte.x3d.

Definition sextet1 (a : Z) : Z := Z.shiftr a 2.
Definition sextet2 (a b : Z) : Z :=
  Z.lor (Z.shiftl (Z.land a 3) 4) (Z.shiftr b 4).
Definition sextet3 (b c : Z) : Z :=
  Z.lor (Z.shiftl (Z.land b 15) 2) (Z.shiftr c 6).
Definition sextet4 (c : Z) : Z := Z.land c 63.

(** [base64.urlsafe_b64encode]: three bytes make four characters; a
    last group of one or two bytes is padded with ['='] to four. *)
Fixpoint urlsafe_b64encode (b : bytes) : bytes :=
  match b with
  | [] => []
  | [x] =>
      let a := to_Z x in
      [alphabet (sextet1 a); alphabet (sextet2 a 0); pad; pad]
  | [x; y] =>
      let a := to_Z x in
      let b := to_Z y in
      [alphabet (sextet1 a); alphabet (sextet2 a b);
       alphabet (sextet3 b 0); pad]
  | x :: y :: z :: r =>
      let a := to_Z x in
      let b := to_Z y in
      let c := to_Z z in
      alphabet (sextet1 a) :: alphabet (sextet2 a b)
      :: alphabet (sextet3 b c) :: alphabet (sextet4 c)
      :: urlsafe_b64encode r
  end.

(** ** Decoding

    The inverse a relying party applies to a segment: four characters of
    the alphabet give three bytes, and a last group may end in one or two
    padding characters. *)

Definition index (b : Byte.byte) : option Z :=
  let n := to_Z b in
  if (65 <=? n) && (n <=? 90) then Some (n - 65)
  else if (97 <=? n) && (n <=? 122) then Some (n - 71)
  else if (48 <=? n) && (n <=? 57) then Some (n + 4)
  else if n =? 45 then Some 62
  else if n =? 95 then Some 63
  else None.

Definition is_pad (b : Byte.byte) : bool := to_Z b =? 61.

Definition byte1 (i j : Z) : Byte.byte :=
  of_Z (Z.lor (Z.shiftl i 2) (Z.shiftr j 4)).
Definition byte2 (j k : Z) : Byte.byte :=
  of_Z (Z.lor (Z.shiftl (Z.land j 15) 4) (Z.shiftr k 2)).
Definition byte3 (k l : Z) : Byte.byte :=
  of_Z (Z.lor (Z.shiftl (Z.land k 3) 6) l).

Fixpoint urlsafe_b64decode (b : bytes) : option bytes :=
  match b with
  | [] => Some []
  | w :: x :: y :: z :: r =>
      match index w, index x with
      | Some i, Some j =>
          if is_pad z then
            match r with
            | [] =>
                if is_pad y then Some [byte1 i j]
                else
                  match index y with
                  | Some k => Some [byte1 i j; byte2 j k]
                  | None => None
                  end
            | _ => None
            end
          else
            match index y, index z, urlsafe_b64decode r with
            | Some k, Some l, Some rest =>
                Some (byte1 i j :: byte2 j k :: byte3 k l :: rest)
            | _, _, _ => None
            end
      | _, _ => None
      end
  | _ => None
  end.

(** RFC 7515 writes a segment without its padding. *)
Fixpoint unpadded (b : bytes) : bytes :=
  match b with
  | [] => []
  | x :: r => if is_pad x then [] else x :: unpadded r
  end.

End Base64.

(* ===================================================================== *)
(** * The token-cache store *)
(* ===================================================================== *)

(** [==] between two objects: structural, with [True == 1] and
    [False == 0], and dictionaries compared without regard to order. *)
Fixpoint py_eq (v w : value) {struct v} : bool :=
  match v, w with
  | VNone, VNone => true
  | VBool a, VBool b => Bool.eqb a b
  | VBool a, VInt n | VInt n, VBool a => (if a then 1 else 0) =? n
  | VInt n, VInt m => n =? m
  | VStr s, VStr t => String.eqb s t
  | VList l, VList m =>
      (fix go (l m : list value) {struct l} : bool :=
         match l, m with
         | [], [] => true
         | x :: l', y :: m' => py_eq x y && go l' m'
         | _, _ => false
         end) l m
  | VDict d, VDict e =>
      (length d =? length e)%nat
      && (fix go (d : dict) : bool :=
            match d with
            | [] => true
            | (k, x) :: d' =>
                match Dict.get k e with
                | Some y => py_eq x y && go d'
                | None => false
                end
            end) d
  | _, _ => false
  end.

(** The client keeps its tokens in an [msal.TokenCache], a library outside
    this repository.  The module below is a reference model of the part of
    it the client uses: the access-token and refresh-token tables, each a
    dictionary from an entry's key to the entry, with [search], [add],
    [remove_rt] and [update_rt] behaving as the library documents them.
    Account, id-token and application-metadata entries, which the client
    never reads, are left out. *)
Module TokenCache.

Inductive CredentialType := ACCESS_TOKEN | REFRESH_TOKEN.

Definition table := list (string * dict).

Record t := {
  access_tokens : table;
  refresh_tokens : table;
}.

(** [TokenCache()]. *)
Definition empty : t := {| access_tokens := []; refresh_tokens := [] |}.

Definition entries (ct : CredentialType) (c : t) : table :=
  match ct with
  | ACCESS_TOKEN => access_tokens c
  | REFRESH_TOKEN => refresh_tokens c
  end.

Definition with_entries (ct : CredentialType) (tb : table) (c : t) : t :=
  match ct with
  | ACCESS_TOKEN =>
      {| access_tokens := tb; refresh_tokens := refresh_tokens c |}
  | REFRESH_TOKEN =>
      {| access_tokens := access_tokens c; refresh_tokens := tb |}
  end.

(** [entry.get(k) or ""], for the string-valued fields keys are made of. *)
Definition field (k : string) (e : dict) : string :=
  match Dict.get k e with
  | Some (VStr s) => s
  | _ => ""
  end.

(** The key an entry is filed under: home account, environment,
    credential type, client, realm (access tokens only) and target,
    joined by ["-"] and lower-cased. *)
Definition key_of (ct : CredentialType) (e : dict) : string :=
  Py.lower
    (Py.join "-"
       [field "home_account_id" e;
        field "environment" e;
        match ct with
        | ACCESS_TOKEN => "AccessToken"
        | REFRESH_TOKEN => "RefreshToken"
        end;
        field "client_id" e;
        match ct with
        | ACCESS_TOKEN => field "realm" e
        | REFRESH_TOKEN => ""
        end;
        field "target" e]).

(** ** Searching *)

(** [is_subdict_of(query, entry)]: every item of the query is an item of
    the entry. *)
Definition is_subdict_of (query entry : dict) : bool :=
  forallb (fun kv =>
             match Dict.get (fst kv) entry with
             | Some v => py_eq v (snd kv)
             | None => false
             end) query.

Definition mem_str (s : string) (l : list string) : bool :=
  existsb (String.eqb s) l.

(** Every requested scope is among the entry's space-separated targets. *)
Definition target_matches (target : list string) (entry : dict) : bool :=
  forallb (fun s => mem_str s (Py.split (field "target" entry))) target.

Definition is_matching (target : list string) (query entry : dict) : bool :=
  is_subdict_of query entry && target_matches target entry.

(** [cache.search(credential_type, target=..., query=...)], entries in
    the order of the table. *)
Definition search (c : t) (ct : CredentialType)
    (target : list string) (query : dict) : list dict :=
  filter (is_matching target query) (map snd (entries ct c)).

(** ** Updating *)

(** [cache.remove_rt(rt_item)]. *)
Definition remove_rt (c : t) (rt_item : dict) : t :=
  with_entries REFRESH_TOKEN
    (Assoc.del (key_of REFRESH_TOKEN rt_item) (refresh_tokens c)) c.

(** [cache.update_rt(rt_item, new_rt)] at time [now]: the entry filed
    under the item's key becomes the item with its secret replaced. *)
Definition update_rt (c : t) (rt_item : dict) (new_rt : value) (now : Z)
    : t :=
  with_entries REFRESH_TOKEN
    (Assoc.set (key_of REFRESH_TOKEN rt_item)
       (Dict.set "last_modification_time" (VStr (Py.str_of_int now))
          (Dict.set "secret" new_rt rt_item))
       (refresh_tokens c)) c.

(** ** Adding the tokens of a response *)

(** The event handed to [cache.add]. *)
Record event := {
  ev_client_id : string;
  ev_response : dict;
  ev_scope : list string;
  ev_token_endpoint : string;
}.

Section Add.

(** What the store derives from the endpoint URL (environment and
    realm) and from the response (the home account), by URL and
    id-token parsing that is of no concern here. *)
Variable canonicalize : string -> string * string.
Variable home_account_id : dict -> value.

Fixpoint insert_sorted (s : string) (l : list string) : list string :=
  match l with
  | [] => [s]
  | x :: r => if String.leb s x then s :: l else x :: insert_sorted s r
  end.

(** [sorted(scopes)]. *)
Definition sorted (l : list string) : list string :=
  fold_right insert_sorted [] l.

(** The access-token entry of a response, when it carries a token; the
    lifetime is [expires_in] when given, else [expires_on - now] when
    that is given, else ten minutes. *)
Definition access_token_entry (ev : event) (now : Z)
    : result (option dict) :=
  let response := ev_response ev in
  let '(environment, realm) := canonicalize (ev_token_endpoint ev) in
  let access_token := Dict.get_default "access_token" VNone response in
  if Py.truthy access_token then
    do default_expires_in <-
      (let e := Dict.get_default "expires_on" VNone response in
       if Py.truthy e then do n <- Py.int e; Ok (n - now) else Ok 600);
    do expires_in <-
      Py.int (Dict.get_default "expires_in" (VInt default_expires_in)
                response);
    do ext_expires_in <-
      Py.int (Dict.get_default "ext_expires_in" (VInt expires_in)
                response);
    let entry :=
      [("credential_type", VStr "AccessToken");
       ("secret", access_token);
       ("home_account_id", home_account_id response);
       ("environment", VStr environment);
       ("client_id", VStr (ev_client_id ev));
       ("target", VStr (Py.join " " (sorted (ev_scope ev))));
       ("realm", VStr realm);
       ("token_type",
        Dict.get_default "token_type" (VStr "Bearer") response);
       ("cached_at", VStr (Py.str_of_int now));
       ("expires_on", VStr (Py.str_of_int (now + expires_in)));
       ("extended_expires_on",
        VStr (Py.str_of_int (now + ext_expires_in)))] in
    match Dict.get "refresh_in" response with
    | Some (VInt refresh_in) =>
        Ok (Some (Dict.set "refresh_on"
                    (VStr (Py.str_of_int (now + refresh_in))) entry))
    | Some (VBool b) =>
        Ok (Some (Dict.set "refresh_on"
                    (VStr (Py.str_of_int (now + if b then 1 else 0))) entry))
    | Some _ => Raise TypeError
    | None => Ok (Some entry)
    end
  else Ok None.

(** The refresh-token entry of a response, when it carries one. *)
Definition refresh_token_entry (ev : event) (now : Z) : option dict :=
  let response := ev_response ev in
  let '(environment, _) := canonicalize (ev_token_endpoint ev) in
  let refresh_token := Dict.get_default "refresh_token" VNone response in
  if Py.truthy refresh_token then
    let rt :=
      [("credential_type", VStr "RefreshToken");
       ("secret", refresh_token);
       ("home_account_id", home_account_id response);
       ("environment", VStr environment);
       ("client_id", VStr (ev_client_id ev));
       ("target", VStr (Py.join " " (sorted (ev_scope ev))));
       ("last_modification_time", VStr (Py.str_of_int now))] in
    Some (match Dict.get "foci" response with
          | Some f => Dict.set "family_id" f rt
          | None => rt
          end)
  else None.

(** [cache.add(event, now=now)].  The library decodes the [id_token] of
    the response, when there is one, before it writes anything, and fails
    on one that is malformed; that decoding belongs to [home_account_id]
    here and is taken to succeed. *)
Definition add (c : t) (ev : event) (now : Z) : result t :=
  do at_entry <- access_token_entry ev now;
  let c1 :=
    match at_entry with
    | Some e =>
        with_entries ACCESS_TOKEN
          (Assoc.set (key_of ACCESS_TOKEN e) e (access_tokens c)) c
    | None => c
    end in
  Ok (match refresh_token_entry ev now with
      | Some e =>
          with_entries REFRESH_TOKEN
            (Assoc.set (key_of REFRESH_TOKEN e) e (refresh_tokens c1)) c1
      | None => c1
      end).

End Add.

(** The invariant of the store: in both tables every entry is filed
    under its own key, and no key occurs twice. *)
Definition table_wf (ct : CredentialType) (tb : table) : Prop :=
  NoDup (map fst tb) /\ Forall (fun ke => fst ke = key_of ct (snd ke)) tb.

Definition wf (c : t) : Prop :=
  table_wf ACCESS_TOKEN (access_tokens c)
  /\ table_wf REFRESH_TOKEN (refresh_tokens c).

End TokenCache.

(* ===================================================================== *)
(** * Requests, responses and tokens *)
(* ===================================================================== *)

(** [azure.core.credentials.AccessTokenInfo]. *)
Record AccessTokenInfo := {
  token : value;
  expires_on : Z;
  token_type : value;
  refresh_on : option Z;
}.

(** [azure.core.pipeline.transport.HttpRequest], with a form body. *)
Record HttpRequest := {
  method : string;
  url : string;
  headers : list (string * string);
  body : dict;
}.

(** The keyword arguments the methods look at: [enable_cae], [tenant_id],
    [claims] and [client_secret]. *)
Record kwargs := {
  enable_cae : bool;
  tenant_id : option string;
  claims : option string;
  client_secret : option string;
}.

Definition no_kwargs : kwargs :=
  {| enable_cae := false; tenant_id := None; claims := None;
     client_secret := None |}.

(** [AadClientCertificate]: the two thumbprints and the two signing
    operations the client uses. *)
Record AadClientCertificate := {
  thumbprint : string;
  sha256_thumbprint : string;
  sign_ps256 : bytes -> bytes;
  sign_rs256 : bytes -> bytes;
}.

(** The credential of an on-behalf-of request: a secret, a certificate, or
    a dictionary whose ["client_assertion"] item is a callable, represented
    by what the call returns. *)
Inductive client_credential :=
| CredSecret (secret : string)
| CredCertificate (certificate : AadClientCertificate)
| CredAssertion (func : unit -> string).

Definition JWT_BEARER_ASSERTION : string :=
  "urn:ietf:params:oauth:client-assertion-type:jwt-bearer".

(* ===================================================================== *)
(** * Module-level helpers *)
(* ===================================================================== *)

(** [_scrub_secrets(response)]. *)
Definition _scrub_secrets (response : dict) : dict :=
  fold_left
    (fun response secret =>
       if Dict.mem secret response
       then Dict.set secret (VStr "***") response
       else response)
    ["access_token"; "refresh_token"] response.

(** [_raise_for_error(response, content)]: the content as the call leaves
    it, and the error raised if any. *)
Definition _raise_for_error (content : dict) : dict * result unit :=
  if negb (Dict.mem "error" content) then (content, Ok tt)
  else
    let content := _scrub_secrets content in
    let message :=
      match Dict.get "error_description" content with
      | Some description =>
          "Microsoft Entra ID error '("
          ++ Py.str (Dict.get_default "error" VNone content) ++ ") "
          ++ Py.str description ++ "'"
      | None =>
          "Microsoft Entra ID error '" ++ Py.str (VDict content) ++ "'"
      end in
    (content, Raise (ClientAuthenticationError message)).

Section ClaimsMerge.

(** [json.loads], of the standard library. *)
Variable json_loads : string -> result value.

(** [_merge_claims_challenge_and_capabilities(capabilities,
    claims_challenge)]. *)
Definition _merge_claims_challenge_and_capabilities
    (capabilities : list string) (claims_challenge : option string)
    : result (option string) :=
  match capabilities with
  | [] => Ok claims_challenge
  | _ =>
      do claims_dict <-
        match claims_challenge with
        | Some s => if String.eqb s "" then Ok (VDict []) else json_loads s
        | None => Ok (VDict [])
        end;
      match claims_dict with
      | VDict d =>
          (* claims_dict.setdefault("access_token", {}) *)
          let '(d, inner) :=
            match Dict.get "access_token" d with
            | Some v => (d, v)
            | None => (Dict.set "access_token" (VDict []) d, VDict [])
            end in
          match inner with
          | VDict a =>
              (* .update(xms_cc={"values": capabilities}) *)
              let a :=
                Dict.set "xms_cc"
                  (VDict [("values", VList (map VStr capabilities))]) a in
              Ok (Some (Json.dumps (VDict (Dict.set "access_token"
                                             (VDict a) d))))
          | _ => Raise AttributeError
          end
      | _ => Raise AttributeError
      end
  end.

End ClaimsMerge.

(* ===================================================================== *)
(** * [AadClientBase] *)
(* ===================================================================== *)

Section AadClientBase.

(** ** What the class takes from elsewhere

    The helpers of [.utils] and [.._persistent_cache], the pipeline a
    subclass builds, the body decoder of azure-core, the standard
    library's [json.loads], and the two derivations internal to the
    cache store. *)
Variable Pipeline : Type.
Variable CacheOptions : Type.
Variable HttpResponse : Type.

Variable normalize_authority : string -> result string.
Variable get_default_authority : string.
Variable resolve_tenant :
  string -> list string -> option string -> result string.
Variable _load_persistent_cache : CacheOptions -> bool -> TokenCache.t.
Variable _build_pipeline : option CacheOptions -> Pipeline.
Variable deserialize_from_http_generics : HttpResponse -> result dict.
Variable json_loads : string -> result value.
Variable canonicalize : string -> string * string.
Variable home_account_id : dict -> value.

(** [azure.core.pipeline.PipelineResponse]: the request, the body the
    decoding policy may have left in the context, and the raw response. *)
Record PipelineResponse := {
  http_request : HttpRequest;
  context_content : option dict;
  http_response : HttpResponse;
}.

(** The attributes of a client object.  [_cache] and [_cae_cache] hold
    the state of two cache objects: a caller who passes one and the same
    [TokenCache] as [cache] and as [cae_cache] makes the two attributes
    aliases of one object, which this record does not express. *)
Record AadClient := {
  _authority : string;
  _tenant_id : string;
  _client_id : string;
  _additionally_allowed_tenants : list string;
  _pipeline : Pipeline;
  _cache : option TokenCache.t;
  _cae_cache : option TokenCache.t;
  _cache_options : option CacheOptions;
  _custom_cache : bool;
  _is_adfs : bool;
}.

Definition is_some {A} (o : option A) : bool :=
  match o with Some _ => true | None => false end.

(** [__init__]. *)
Definition __init__
    (tenant_id : string) (client_id : string) (authority : option string)
    (cache cae_cache : option TokenCache.t)
    (additionally_allowed_tenants : option (list string))
    (cache_persistence_options : option CacheOptions)
    : result AadClient :=
  do authority <-
    match authority with
    | Some a =>
        if String.eqb a "" then Ok get_default_authority
        else normalize_authority a
    | None => Ok get_default_authority
    end;
  Ok {| _authority := authority;
        _tenant_id := tenant_id;
        _client_id := client_id;
        _additionally_allowed_tenants :=
          match additionally_allowed_tenants with
          | Some l => l
          | None => []
          end;
        _pipeline := _build_pipeline cache_persistence_options;
        _cache := cache;
        _cae_cache := cae_cache;
        _cache_options := cache_persistence_options;
        _custom_cache := is_some cache || is_some cae_cache;
        _is_adfs := String.eqb (Py.lower tenant_id) "adfs" |}.

Definition set_cache (self : AadClient) (is_cae : bool) (c : TokenCache.t)
    : AadClient :=
  {| _authority := _authority self;
     _tenant_id := _tenant_id self;
     _client_id := _client_id self;
     _additionally_allowed_tenants := _additionally_allowed_tenants self;
     _pipeline := _pipeline self;
     _cache := if is_cae then _cache self else Some c;
     _cae_cache := if is_cae then Some c else _cae_cache self;
     _cache_options := _cache_options self;
     _custom_cache := _custom_cache self;
     _is_adfs := _is_adfs self |}.

(** [_initialize_cache]: the new cache, and the client holding it. *)
Definition _initialize_cache (self : AadClient) (is_cae : bool)
    : TokenCache.t * AadClient :=
  let c :=
    match _cache_options self with
    | Some options => _load_persistent_cache options is_cae
    | None => TokenCache.empty
    end in
  (c, set_cache self is_cae c).

(** [_get_cache]. *)
Definition _get_cache (self : AadClient) (kw : kwargs)
    : TokenCache.t * AadClient :=
  match (if enable_cae kw then _cae_cache self else _cache self) with
  | Some cache => (cache, self)
  | None => _initialize_cache self (enable_cae kw)
  end.

(** ** Cache reads *)

(** The loop of [get_cached_access_token] over the entries found. *)
Fixpoint first_valid_token (entries : list dict) (now : Z)
    : result (option AccessTokenInfo) :=
  match entries with
  | [] => Ok None
  | token :: rest =>
      do e <- Dict.item "expires_on" token;
      do expires_on <- Py.int e;
      if expires_on >? now then
        do refresh_on <-
          match Dict.get "refresh_on" token with
          | Some r => do n <- Py.int r; Ok (Some n)
          | None => Ok None
          end;
        do secret <- Dict.item "secret" token;
        Ok (Some {| token := secret;
                    expires_on := expires_on;
                    token_type :=
                      Dict.get_default "token_type" (VStr "Bearer") token;
                    refresh_on := refresh_on |})
      else first_valid_token rest now
  end.

(** [get_cached_access_token], at clock reading [now]. *)
Definition get_cached_access_token
    (self : AadClient) (scopes : list string) (kw : kwargs) (now : Z)
    : result (option AccessTokenInfo) * AadClient :=
  match resolve_tenant (_tenant_id self)
          (_additionally_allowed_tenants self) (tenant_id kw) with
  | Raise e => (Raise e, self)
  | Ok tenant =>
      let '(cache, self) := _get_cache self kw in
      (first_valid_token
         (TokenCache.search cache TokenCache.ACCESS_TOKEN scopes
            [("client_id", VStr (_client_id self));
             ("realm", VStr tenant)])
         now,
       self)
  end.

(** [get_cached_refresh_tokens]. *)
Definition get_cached_refresh_tokens
    (self : AadClient) (scopes : list string) (kw : kwargs)
    : list dict * AadClient :=
  let '(cache, self) := _get_cache self kw in
  (TokenCache.search cache TokenCache.REFRESH_TOKEN scopes [], self).

(** ** The token endpoint *)

(** [_get_token_url]. *)
Definition _get_token_url (self : AadClient) (kw : kwargs)
    : result string :=
  do tenant <-
    resolve_tenant (_tenant_id self) (_additionally_allowed_tenants self)
      (tenant_id kw);
  Ok (Py.join "/" [_authority self; tenant; "oauth2/v2.0/token"]).

(** [_post]. *)
Definition _post (self : AadClient) (data : dict) (kw : kwargs)
    : result HttpRequest :=
  do url <- _get_token_url self kw;
  Ok {| method := "POST";
        url := url;
        headers := [("Content-Type", "application/x-www-form-urlencoded")];
        body := data |}.

(** ** Response processing

    [_process_response] works on two mutable objects, the selected cache
    and the decoded content, and may raise half-way: both are threaded
    through a state monad that keeps them when an exception leaves. *)

Record processing := {
  p_cache : TokenCache.t;
  p_content : dict;
}.

Definition M (A : Type) : Type := processing -> result A * processing.

Definition ret {A} (a : A) : M A := fun s => (Ok a, s).

Definition raise {A} (e : exn) : M A := fun s => (Raise e, s).

Definition lift {A} (r : result A) : M A := fun s => (r, s).

Definition mbind {A B} (m : M A) (k : A -> M B) : M B :=
  fun s =>
    match m s with
    | (Ok a, s') => k a s'
    | (Raise e, s') => (Raise e, s')
    end.

Notation "x <~ m ;; k" := (mbind m (fun x => k))
  (at level 61, m at next level, right associativity).
Notation "m ;; k" := (mbind m (fun _ => k))
  (at level 61, right associativity).

Definition get_content : M dict := fun s => (Ok (p_content s), s).

Definition get_cache : M TokenCache.t := fun s => (Ok (p_cache s), s).

Definition put_content (d : dict) : M unit :=
  fun s => (Ok tt, {| p_cache := p_cache s; p_content := d |}).

Definition put_cache (c : TokenCache.t) : M unit :=
  fun s => (Ok tt, {| p_cache := c; p_content := p_content s |}).

Definition when (b : bool) (m : M unit) : M unit :=
  if b then m else ret tt.

(** Lines 143 to 166: what a response to a refresh-token grant does to
    the cached refresh tokens.  [now] is the clock the store reads when
    it stamps an updated entry. *)
Definition process_refresh_grant (request_body : dict) (now : Z)
    : M unit :=
  content <~ get_content ;;
  when (Py.eq_str (Dict.get_default "grant_type" VNone request_body)
          "refresh_token")
    (when (Py.eq_str (Dict.get_default "error" VNone content)
             "invalid_grant")
       (* the request's refresh token is invalid: evict it *)
       (secret <~ lift (Dict.item "refresh_token" request_body) ;;
        cache <~ get_cache ;;
        let cache_entries :=
          TokenCache.search cache TokenCache.REFRESH_TOKEN []
            [("secret", secret)] in
        put_cache (fold_left TokenCache.remove_rt cache_entries cache)) ;;
     when (Dict.mem "refresh_token" content)
       (* a new refresh token came back: update the cache entry *)
       (secret <~ lift (Dict.item "refresh_token" request_body) ;;
        cache <~ get_cache ;;
        let cache_entries :=
          TokenCache.search cache TokenCache.REFRESH_TOKEN []
            [("secret", secret)] in
        match cache_entries with
        | [entry] =>
            new_rt <~ lift (Dict.item "refresh_token" content) ;;
            put_cache (TokenCache.update_rt cache entry new_rt now) ;;
            put_content (Dict.del "refresh_token" content)
        | _ => ret tt
        end)).

(** [_raise_for_error(response, content)] on the content in hand. *)
Definition raise_for_error : M unit :=
  content <~ get_content ;;
  let '(content, r) := _raise_for_error content in
  put_content content ;;
  lift r.

(** Lines 170 to 176: the expiry time, or the failure on a response
    that gives none. *)
Definition compute_expires_on (request_time : Z) : M Z :=
  content <~ get_content ;;
  match Dict.get "expires_on" content with
  | Some e => lift (Py.int e)
  | None =>
      match Dict.get "expires_in" content with
      | Some e => n <~ lift (Py.int e) ;; ret (request_time + n)
      | None =>
          let content := _scrub_secrets content in
          put_content content ;;
          raise (ClientAuthenticationError
                   ("Unexpected response from Microsoft Entra ID: "
                    ++ Py.str (VDict content)))
      end
  end.

(** Lines 178 to 186: the refresh time and the token. *)
Definition build_token (request_time expires_on : Z) : M AccessTokenInfo :=
  content <~ get_content ;;
  let literal := Dict.get_default "expires_in" VNone content in
  expires_in <~
    lift (Py.int (if Py.truthy literal then literal
                  else VInt (expires_on - request_time))) ;;
  when (negb (Dict.mem "refresh_in" content) && (expires_in >=? 7200))
    (* MSAL TokenCache expects refresh_in *)
    (put_content (Dict.set "refresh_in" (VInt (expires_in / 2)) content)) ;;
  content <~ get_content ;;
  refresh_on <~
    match Dict.get "refresh_in" content with
    | Some r => n <~ lift (Py.int r) ;; ret (Some (request_time + n))
    | None => ret None
    end ;;
  access_token <~ lift (Dict.item "access_token" content) ;;
  ret {| token := access_token;
         expires_on := expires_on;
         token_type :=
           Dict.get_default "token_type" (VStr "Bearer") content;
         refresh_on := refresh_on |}.

(** [body["scope"].split()]. *)
Definition request_scopes (request_body : dict) : result (list string) :=
  do scope <- Dict.item "scope" request_body;
  match scope with
  | VStr s => Ok (Py.split s)
  | _ => Raise AttributeError
  end.

(** Lines 188 to 197: the cache write. *)
Definition cache_add (self : AadClient) (request : HttpRequest)
    (request_time : Z) : M unit :=
  content <~ get_content ;;
  scope <~ lift (request_scopes (body request)) ;;
  cache <~ get_cache ;;
  cache <~
    lift (TokenCache.add canonicalize home_account_id cache
            {| TokenCache.ev_client_id := _client_id self;
               TokenCache.ev_response := content;
               TokenCache.ev_scope := scope;
               TokenCache.ev_token_endpoint := url request |}
            request_time) ;;
  put_cache cache.

Definition process (self : AadClient) (request : HttpRequest)
    (request_time now : Z) : M AccessTokenInfo :=
  process_refresh_grant (body request) now ;;
  raise_for_error ;;
  expires_on <~ compute_expires_on request_time ;;
  token <~ build_token request_time expires_on ;;
  (* caching is the final step *)
  cache_add self request request_time ;;
  ret token.

(** What a call of [_process_response] leaves behind: its result or
    exception, the client with its caches, and the content object. *)
Record outcome := {
  out_result : result AccessTokenInfo;
  out_self : AadClient;
  out_content : dict;
}.

(** [response.context.get(ContentDecodePolicy.CONTEXT_NAME) or
    ContentDecodePolicy.deserialize_from_http_generics(...)]. *)
Definition response_content (response : PipelineResponse) : result dict :=
  match context_content response with
  | Some ((_ :: _) as d) => Ok d
  | _ => deserialize_from_http_generics (http_response response)
  end.

(** [_process_response], with the store's clock reading [now]. *)
Definition _process_response
    (self : AadClient) (response : PipelineResponse) (request_time : Z)
    (kw : kwargs) (now : Z) : outcome :=
  match response_content response with
  | Raise e =>
      {| out_result := Raise e; out_self := self; out_content := [] |}
  | Ok content =>
      let '(cache, self) := _get_cache self kw in
      let '(r, s) :=
        process self (http_request response) request_time now
          {| p_cache := cache; p_content := content |} in
      {| out_result := r;
         out_self := set_cache self (enable_cae kw) (p_cache s);
         out_content := p_content s |}
  end.

(** The cache a call selects, as [_get_cache] would return it. *)
Definition selected_cache (self : AadClient) (kw : kwargs) : TokenCache.t :=
  fst (_get_cache self kw).

(** ** The client assertion *)

(** The JOSE header of [_get_client_certificate_assertion]. *)
Definition assertion_headers (self : AadClient)
    (certificate : AadClientCertificate) : dict :=
  let headers := [("typ", VStr "JWT")] in
  if _is_adfs self then
    (* backwards compatibility with older versions of ADFS *)
    Dict.set "x5t" (VStr (thumbprint certificate))
      (Dict.set "alg" (VStr "RS256") headers)
  else
    Dict.set "x5t#S256" (VStr (sha256_thumbprint certificate))
      (Dict.set "alg" (VStr "PS256") headers).

(** Its claims, with [now] for [int(time.time())] and [jti] for
    [str(uuid4())]. *)
Definition assertion_payload (self : AadClient) (kw : kwargs)
    (now : Z) (jti : string) : result dict :=
  do aud <- _get_token_url self kw;
  Ok [("jti", VStr jti);
      ("aud", VStr aud);
      ("iss", VStr (_client_id self));
      ("sub", VStr (_client_id self));
      ("nbf", VInt now);
      ("exp", VInt (now + 60 * 30))].

Definition dot : bytes := [Byte.x2e].

(** [_get_client_certificate_assertion]. *)
Definition _get_client_certificate_assertion
    (self : AadClient) (certificate : AadClientCertificate) (kw : kwargs)
    (now : Z) (jti : string) : result string :=
  let headers := assertion_headers self certificate in
  let jwt_header := Bytes.encode_utf8 (Json.dumps (VDict headers)) in
  do payload <- assertion_payload self kw now jti;
  let payload := Bytes.encode_utf8 (Json.dumps (VDict payload)) in
  let jws :=
    (Base64.urlsafe_b64encode jwt_header ++ dot
     ++ Base64.urlsafe_b64encode payload)%list in
  let signature :=
    if negb (_is_adfs self) then sign_ps256 certificate jws
    else sign_rs256 certificate jws in
  let jwt_bytes :=
    (jws ++ dot ++ Base64.urlsafe_b64encode signature)%list in
  Bytes.decode_ascii jwt_bytes.

(** ** Request builders *)

(** The [claims] form field the builders share:
    [_merge_claims_challenge_and_capabilities(["CP1"] if
    kwargs.get("enable_cae") else [], kwargs.get("claims"))], added to
    the form when it is a non-empty string. *)
Definition with_claims (kw : kwargs) (data : dict) : result dict :=
  do merged <-
    _merge_claims_challenge_and_capabilities json_loads
      (if enable_cae kw then ["CP1"] else []) (claims kw);
  match merged with
  | Some c => if String.eqb c "" then Ok data
              else Ok (Dict.set "claims" (VStr c) data)
  | None => Ok data
  end.

Definition with_secret (client_secret : option string) (data : dict)
    : dict :=
  match client_secret with
  | Some s => if String.eqb s "" then data
              else Dict.set "client_secret" (VStr s) data
  | None => data
  end.

(** [_get_auth_code_request]. *)
Definition _get_auth_code_request
    (self : AadClient) (scopes : list string) (code redirect_uri : string)
    (client_secret : option string) (kw : kwargs) : result HttpRequest :=
  let data :=
    [("client_id", VStr (_client_id self));
     ("code", VStr code);
     ("grant_type", VStr "authorization_code");
     ("redirect_uri", VStr redirect_uri);
     ("scope", VStr (Py.join " " scopes))] in
  do data <- with_claims kw data;
  _post self (with_secret client_secret data) kw.

(** [_get_jwt_assertion_request]. *)
Definition _get_jwt_assertion_request
    (self : AadClient) (scopes : list string) (assertion : string)
    (kw : kwargs) : result HttpRequest :=
  let data :=
    [("client_assertion", VStr assertion);
     ("client_assertion_type", VStr JWT_BEARER_ASSERTION);
     ("client_id", VStr (_client_id self));
     ("grant_type", VStr "client_credentials");
     ("scope", VStr (Py.join " " scopes))] in
  do data <- with_claims kw data;
  _post self data kw.

(** [_get_client_certificate_request]. *)
Definition _get_client_certificate_request
    (self : AadClient) (scopes : list string)
    (certificate : AadClientCertificate) (kw : kwargs) (now : Z)
    (jti : string) : result HttpRequest :=
  do assertion <-
    _get_client_certificate_assertion self certificate kw now jti;
  _get_jwt_assertion_request self scopes assertion kw.

(** [_get_client_secret_request]. *)
Definition _get_client_secret_request
    (self : AadClient) (scopes : list string) (secret : string)
    (kw : kwargs) : result HttpRequest :=
  let data :=
    [("client_id", VStr (_client_id self));
     ("client_secret", VStr secret);
     ("grant_type", VStr "client_credentials");
     ("scope", VStr (Py.join " " scopes))] in
  do data <- with_claims kw data;
  _post self data kw.

(** The credential part of the two on-behalf-of builders.  The
    certificate branch calls the signer with the certificate alone: no
    keyword argument of the request reaches it. *)
Definition with_client_credential
    (self : AadClient) (client_credential : client_credential)
    (now : Z) (jti : string) (data : dict) : result dict :=
  match client_credential with
  | CredCertificate certificate =>
      do assertion <-
        _get_client_certificate_assertion self certificate no_kwargs
          now jti;
      Ok (Dict.set "client_assertion_type" (VStr JWT_BEARER_ASSERTION)
            (Dict.set "client_assertion" (VStr assertion) data))
  | CredAssertion func =>
      Ok (Dict.set "client_assertion_type" (VStr JWT_BEARER_ASSERTION)
            (Dict.set "client_assertion" (VStr (func tt)) data))
  | CredSecret secret => Ok (Dict.set "client_secret" (VStr secret) data)
  end.

(** [_get_on_behalf_of_request]. *)
Definition _get_on_behalf_of_request
    (self : AadClient) (scopes : list string)
    (client_credential : client_credential) (user_assertion : string)
    (kw : kwargs) (now : Z) (jti : string) : result HttpRequest :=
  let data :=
    [("assertion", VStr user_assertion);
     ("client_id", VStr (_client_id self));
     ("grant_type", VStr "urn:ietf:params:oauth:grant-type:jwt-bearer");
     ("requested_token_use", VStr "on_behalf_of");
     ("scope", VStr (Py.join " " scopes))] in
  do data <- with_claims kw data;
  do data <- with_client_credential self client_credential now jti data;
  _post self data kw.

(** [_get_refresh_token_request]. *)
Definition _get_refresh_token_request
    (self : AadClient) (scopes : list string) (refresh_token : string)
    (kw : kwargs) : result HttpRequest :=
  let data :=
    [("grant_type", VStr "refresh_token");
     ("refresh_token", VStr refresh_token);
     ("scope", VStr (Py.join " " scopes));
     ("client_id", VStr (_client_id self));
     ("client_info", VInt 1)] in
  let data := with_secret (client_secret kw) data in
  do data <- with_claims kw data;
  _post self data kw.

(** [_get_refresh_token_on_behalf_of_request]. *)
Definition _get_refresh_token_on_behalf_of_request
    (self : AadClient) (scopes : list string)
    (client_credential : client_credential) (refresh_token : string)
    (kw : kwargs) (now : Z) (jti : string) : result HttpRequest :=
  let data :=
    [("grant_type", VStr "refresh_token");
     ("refresh_token", VStr refresh_token);
     ("scope", VStr (Py.join " " scopes));
     ("client_id", VStr (_client_id self));
     ("client_info", VInt 1)] in
  do data <- with_claims kw data;
  do data <- with_client_credential self client_credential now jti data;
  _post self data kw.

(** ** Pickling *)

(** The values the attributes of a client hold. *)
Inductive attr :=
| AStr (s : string)
| AStrList (l : list string)
| APipeline (p : Pipeline)
| ACache (c : option TokenCache.t)
| AOptions (o : option CacheOptions)
| ABool (b : bool).

Definition attrs := list (string * attr).

(** [self.__dict__], in the order [__init__] assigns the attributes. *)
Definition __dict__ (self : AadClient) : attrs :=
  [("_authority", AStr (_authority self));
   ("_tenant_id", AStr (_tenant_id self));
   ("_client_id", AStr (_client_id self));
   ("_additionally_allowed_tenants",
    AStrList (_additionally_allowed_tenants self));
   ("_pipeline", APipeline (_pipeline self));
   ("_cache", ACache (_cache self));
   ("_cae_cache", ACache (_cae_cache self));
   ("_cache_options", AOptions (_cache_options self));
   ("_custom_cache", ABool (_custom_cache self));
   ("_is_adfs", ABool (_is_adfs self))].

Definition attr_truthy (a : attr) : bool :=
  match a with
  | AStr s => negb (String.eqb s "")
  | AStrList l => match l with [] => false | _ => true end
  | APipeline _ => true
  | ACache c => is_some c
  | AOptions o => is_some o
  | ABool b => b
  end.

(** [__getstate__]. *)
Definition __getstate__ (self : AadClient) : attrs :=
  let state := __dict__ self in
  (* remove the non-picklable entries *)
  if negb (_custom_cache self)
  then Assoc.del "_cae_cache" (Assoc.del "_cache" state)
  else state.

(** [__setstate__], on the attribute dictionary of the object being
    restored. *)
Definition __setstate__ (self : attrs) (state : attrs) : result attrs :=
  let self := Assoc.update self state in
  match Assoc.get "_custom_cache" self with
  | None => Raise AttributeError
  | Some custom =>
      (* re-create the unpicklable entries *)
      if negb (attr_truthy custom)
      then Ok (Assoc.set "_cae_cache" (ACache None)
                 (Assoc.set "_cache" (ACache None) self))
      else Ok self
  end.

(** Reading a client object off its attribute dictionary. *)
Definition client_of_attrs (d : attrs) : option AadClient :=
  match Assoc.get "_authority" d, Assoc.get "_tenant_id" d,
        Assoc.get "_client_id" d,
        Assoc.get "_additionally_allowed_tenants" d,
        Assoc.get "_pipeline" d, Assoc.get "_cache" d,
        Assoc.get "_cae_cache" d, Assoc.get "_cache_options" d,
        Assoc.get "_custom_cache" d, Assoc.get "_is_adfs" d with
  | Some (AStr authority), Some (AStr tenant), Some (AStr client),
    Some (AStrList allowed), Some (APipeline pipeline), Some (ACache c),
    Some (ACache cae), Some (AOptions options), Some (ABool custom),
    Some (ABool adfs) =>
      Some {| _authority := authority;
              _tenant_id := tenant;
              _client_id := client;
              _additionally_allowed_tenants := allowed;
              _pipeline := pipeline;
              _cache := c;
              _cae_cache := cae;
              _cache_options := options;
              _custom_cache := custom;
              _is_adfs := adfs |}
  | _, _, _, _, _, _, _, _, _, _ => None
  end.

End AadClientBase.

(* ===================================================================== *)
(** * Compact JWTs, as a relying party reads them *)
(* ===================================================================== *)

Module Jwt.

(** The bytes of an ASCII text. *)
Definition bytes_of (s : string) : bytes :=
  map byte_of_ascii (list_ascii_of_string s).

(** The compact serialization of RFC 7515, section 3.1: the base64url
    texts of header, payload and signature, without padding, joined by
    dots. *)
Definition base64url (b : bytes) : bytes :=
  Base64.unpadded (Base64.urlsafe_b64encode b).

Definition compact (header payload : dict) (signature : bytes)
    : result string :=
  Bytes.decode_ascii
    (base64url (Bytes.encode_utf8 (Json.dumps (VDict header)))
     ++ [Byte.x2e]
     ++ base64url (Bytes.encode_utf8 (Json.dumps (VDict payload)))
     ++ [Byte.x2e]
     ++ base64url signature)%list.

(** The segments of a token. *)
Definition segments (jwt : string) : list string := Py.split_on "." jwt.

(** The JSON value a padded segment holds. *)
Definition decode_segment (segment : string) : option value :=
  match Base64.urlsafe_b64decode (bytes_of segment) with
  | Some b =>
      match Bytes.decode_ascii b with
      | Ok text =>
          match Json.loads text with
          | Ok v => Some v
          | Raise _ => None
          end
      | Raise _ => None
      end
  | None => None
  end.

Definition header_of (jwt : string) : option value :=
  match segments jwt with
  | [h; _; _] => decode_segment h
  | _ => None
  end.

Definition payload_of (jwt : string) : option value :=
  match segments jwt with
  | [_; p; _] => decode_segment p
  | _ => None
  end.

(** The member [k] of a decoded object. *)
Definition member (k : string) (v : option value) : option value :=
  match v with
  | Some (VDict d) => Dict.get k d
  | _ => None
  end.

End Jwt.

(* ===================================================================== *)
(** * The vocabulary of the properties *)
(* ===================================================================== *)

(** The request was a refresh-token grant. *)
Definition is_refresh_grant (request_body : dict) : bool :=
  Py.eq_str (Dict.get_default "grant_type" VNone request_body)
    "refresh_token".

(** The content reports the error [invalid_grant]. *)
Definition reports_invalid_grant (content : dict) : bool :=
  Py.eq_str (Dict.get_default "error" VNone content) "invalid_grant".

(** The entry's secret equals [secret]. *)
Definition secret_is (secret : value) (entry : dict) : bool :=
  match Dict.get "secret" entry with
  | Some v => py_eq v secret
  | None => false
  end.

(** The refresh-token entries of a cache whose secret equals [secret]. *)
Definition rt_matching (cache : TokenCache.t) (secret : value) : list dict :=
  filter (secret_is secret) (map snd (TokenCache.refresh_tokens cache)).

(** A form is usable by [_process_response]: a refresh-token grant names
    its refresh token, as every form the builders make does. *)
Definition form_ok (request_body : dict) : Prop :=
  is_refresh_grant request_body = true ->
  Dict.mem "refresh_token" request_body = true.

(** The message of the authentication error a content leads to, once its
    secrets are scrubbed: the one of [_raise_for_error] when the content
    has an [error], the one of the missing expiry otherwise. *)
Definition failure_message (scrubbed : dict) : string :=
  if Dict.mem "error" scrubbed then
    match Dict.get "error_description" scrubbed with
    | Some description =>
        "Microsoft Entra ID error '("
        ++ Py.str (Dict.get_default "error" VNone scrubbed) ++ ") "
        ++ Py.str description ++ "'"
    | None => "Microsoft Entra ID error '" ++ Py.str (VDict scrubbed) ++ "'"
    end
  else
    "Unexpected response from Microsoft Entra ID: "
    ++ Py.str (VDict scrubbed).

(** A secret-bearing field is absent or masked. *)
Definition masked (k : string) (content : dict) : Prop :=
  Dict.get k content = None \/ Dict.get k content = Some (VStr "***").

(** The lifetime [_process_response] computes: the literal [expires_in]
    when it is there and true, else [expires_on - request_time]. *)
Definition computed_expires_in (content : dict) (request_time : Z)
  : result Z :=
  do expires_on <-
    match Dict.get "expires_on" content with
    | Some e => Py.int e
    | None =>
        do n <- Py.int (Dict.get_default "expires_in" VNone content);
        Ok (request_time + n)
    end;
  let literal := Dict.get_default "expires_in" VNone content in
  Py.int (if Py.truthy literal then literal
          else VInt (expires_on - request_time)).

(** The cache once the entries of an invalid refresh token are evicted
    (lines 144 to 153). *)
Definition evicted (cache : TokenCache.t) (content : dict) (old : value)
  : TokenCache.t :=
  if reports_invalid_grant content then
    fold_left TokenCache.remove_rt
      (TokenCache.search cache TokenCache.REFRESH_TOKEN []
         [("secret", old)])
      cache
  else cache.

Section Tail.
Variables Pipeline CacheOptions : Type.
Variable canonicalize : string -> string * string.
Variable home_account_id : dict -> value.

(** What [_process_response] does after line 166. *)
Definition process_tail (self : AadClient Pipeline CacheOptions)
    (request : HttpRequest) (request_time : Z) : M AccessTokenInfo :=
  mbind raise_for_error (fun _ =>
  mbind (compute_expires_on request_time) (fun expires_on =>
  mbind (build_token request_time expires_on) (fun token =>
  mbind (cache_add canonicalize home_account_id self request request_time)
    (fun _ => ret token)))).

End Tail.

(** A step of the processing never fails with an authentication error. *)
Definition never_auth_error {A} (m : M A) : Prop :=
  forall s, is_auth_error (fst (m s)) = false.

(** The expiry time [_process_response] computes (lines 170 to 173). *)
Definition computed_expires_on (content : dict) (request_time : Z)
  : result Z :=
  match Dict.get "expires_on" content with
  | Some e => Py.int e
  | None =>
      do n <- Py.int (Dict.get_default "expires_in" VNone content);
      Ok (request_time + n)
  end.

(** The content with the [refresh_in] of lines 179 to 181. *)
Definition with_refresh_in (content : dict) (expires_in : Z) : dict :=
  if negb (Dict.mem "refresh_in" content) && (expires_in >=? 7200)
  then Dict.set "refresh_in" (VInt (expires_in / 2)) content
  else content.

(** The event of the cache write (lines 189 to 197). *)
Definition cache_event (client_id : string) (request : HttpRequest)
    (content : dict) (scope : list string) : TokenCache.event :=
  {| TokenCache.ev_client_id := client_id;
     TokenCache.ev_response := content;
     TokenCache.ev_scope := scope;
     TokenCache.ev_token_endpoint := url request |}.

Section Instances.
Variables Pipeline CacheOptions : Type.

(** A client object that has come to hold the caches [cache] and
    [cae_cache], its other attributes as they were. *)
Definition with_caches (self : AadClient Pipeline CacheOptions)
    (cache cae_cache : option TokenCache.t)
  : AadClient Pipeline CacheOptions :=
  {| _authority := _authority self;
     _tenant_id := _tenant_id self;
     _client_id := _client_id self;
     _additionally_allowed_tenants := _additionally_allowed_tenants self;
     _pipeline := _pipeline self;
     _cache := cache;
     _cae_cache := cae_cache;
     _cache_options := _cache_options self;
     _custom_cache := _custom_cache self;
     _is_adfs := _is_adfs self |}.

End Instances.

(** The object a claims challenge stands for: the empty object when the
    challenge is absent or empty, the decoded text when that is an
    object. *)
Definition challenge_object (json_loads : string -> result value)
    (claims_challenge : option string) : option dict :=
  match claims_challenge with
  | None => Some []
  | Some s =>
      if String.eqb s "" then Some []
      else
        match json_loads s with
        | Ok (VDict d) => Some d
        | _ => None
        end
  end.

(** The [access_token] member of a challenge, when it is an object; the
    empty object when there is none. *)
Definition access_token_claims (d : dict) : option dict :=
  match Dict.get "access_token" d with
  | None => Some []
  | Some (VDict a) => Some a
  | Some _ => None
  end.

(** The capabilities as [json] sees them. *)
Definition capability_values (capabilities : list string) : value :=
  VDict [("values", VList (map VStr capabilities))].

Section Written.
Variable canonicalize : string -> string * string.
Variable home_account_id : dict -> value.


End Written.
(* ===================================================================== *)
(** * The vocabulary of the decoder's correctness *)
(* ===================================================================== *)

(** Horner evaluation of a decimal numeral. *)
Fixpoint horner (acc : Z) (d : Decimal.uint) : Z :=
  match d with
  | Decimal.Nil => acc
  | Decimal.D0 l => horner (10 * acc + 0) l
  | Decimal.D1 l => horner (10 * acc + 1) l
  | Decimal.D2 l => horner (10 * acc + 2) l
  | Decimal.D3 l => horner (10 * acc + 3) l
  | Decimal.D4 l => horner (10 * acc + 4) l
  | Decimal.D5 l => horner (10 * acc + 5) l
  | Decimal.D6 l => horner (10 * acc + 6) l
  | Decimal.D7 l => horner (10 * acc + 7) l
  | Decimal.D8 l => horner (10 * acc + 8) l
  | Decimal.D9 l => horner (10 * acc + 9) l
  end.

(** The text does not go on with a digit. *)
Definition no_digit_ahead (rest : string) : Prop :=
  match rest with
  | String c _ => Py.digit c = None
  | EmptyString => True
  end.

(** What may follow an integer: neither a digit nor a fraction. *)
Definition int_follow (rest : string) : Prop :=
  no_digit_ahead rest /\ Json.starts_fraction rest = false.

(** The calls reading the elements of an array and the members of an
    object take. *)
Definition size_elements (l : list value) : nat :=
  fold_right (fun x n => S (Json.size x + n)) O l.

Definition size_members (d : dict) : nat :=
  fold_right (fun kv n => S (Json.size (snd kv) + n)) O d.

(** The first character of a value's text. *)
Definition value_start (c : ascii) : bool :=
  negb (Json.is_ws c) && negb (Ascii.eqb c "]") && negb (Ascii.eqb c "}")
  && negb (Ascii.eqb c ",").

(** The text starts a value. *)
Definition starts_value (s : string) : Prop :=
  match s with
  | String c _ => value_start c = true
  | EmptyString => False
  end.

(** The decoder reads the text of [v] back, whatever delimiter follows. *)
Definition reads (v : value) : Prop :=
  Json.value_wf v ->
  forall fuel rest,
    (Json.size v <= fuel)%nat -> Json.delimited rest ->
    Json.value_p fuel (Json.dumps v ++ rest) = Some (v, rest).

(* ===================================================================== *)
(** * The vocabulary of the base64 round trip *)
(* ===================================================================== *)

Module Base64Vocab.
Import Base64 Bytes.

(** Every byte, in order. *)
Definition all_bytes : bytes :=
  map (fun n => Bytes.of_Z (Z.of_nat n)) (seq 0 256).

(** The option holds [n]. *)
Definition opt_eqb (o : option Z) (n : Z) : bool :=
  match o with Some m => m =? n | None => false end.

(** The sextet [n] is written by a character of the alphabet that reads
    back as [n] and is neither the padding, nor a dot, nor beyond ASCII. *)
Definition good (n : Z) : bool :=
  opt_eqb (index (alphabet n)) n && negb (is_pad (alphabet n)) && (to_Z (alphabet n) <? 128) && negb (to_Z (alphabet n) =? 46).

(** Equality of bytes. *)
Definition byte_eqb (x y : Byte.byte) : bool := to_Z x =? to_Z y.

End Base64Vocab.



(* ===================================================================== *)
(** * Vocabulary of the statements about client assertions *)
(* ===================================================================== *)

(** The text a byte string of ASCII bytes decodes to. *)
Definition text_of (b : bytes) : string :=
  string_of_list_ascii (map ascii_of_byte b).

(** Every byte is below 128. *)
Definition all_ascii (b : bytes) : bool :=
  forallb (fun x => Bytes.to_Z x <? 128) b.

(** No byte is a full stop. *)
Definition no_dot (b : bytes) : bool :=
  forallb (fun x => negb (Bytes.to_Z x =? 46)) b.

(** Every character is below 128. *)
Fixpoint is_ascii (s : string) : bool :=
  match s with
  | EmptyString => true
  | String c r => (Py.code c <? 128) && is_ascii r
  end.

(** Three byte strings as the dot-separated text of their padded
    base64url encodings. *)
Definition three_segments (a b c : bytes) : string :=
  text_of (Base64.urlsafe_b64encode a) ++ "."
  ++ text_of (Base64.urlsafe_b64encode b) ++ "."
  ++ text_of (Base64.urlsafe_b64encode c).

Section AssertionVocab.
Context {Pipeline CacheOptions : Type}.

(** The signature [_get_client_certificate_assertion] computes for a
    payload: that of the first two segments, by the algorithm of the
    header. *)
Definition assertion_signature (self : AadClient Pipeline CacheOptions)
    (certificate : AadClientCertificate) (payload : dict) : bytes :=
  let jws :=
    (Base64.urlsafe_b64encode
       (Bytes.encode_utf8
          (Json.dumps (VDict (assertion_headers self certificate))))
     ++ dot
     ++ Base64.urlsafe_b64encode
          (Bytes.encode_utf8 (Json.dumps (VDict payload))))%list in
  if negb (_is_adfs self) then sign_ps256 certificate jws
  else sign_rs256 certificate jws.

End AssertionVocab.

(** A letter of ASCII as its small form; any other character as it is. *)
Definition ascii_fold (c : ascii) : ascii :=
  let n := Py.code c in
  if (65 <=? n) && (n <=? 90) then Py.chr (n + 32) else c.

(** Equality of two texts up to the case of their ASCII letters. *)
Fixpoint eq_ignore_case (s t : string) : bool :=
  match s, t with
  | EmptyString, EmptyString => true
  | String a s', String b t' =>
      Ascii.eqb (ascii_fold a) (ascii_fold b) && eq_ignore_case s' t'
  | _, _ => false
  end.


(* ===================================================================== *)
(** * Vocabulary of the statements about the cache lookup *)
(* ===================================================================== *)

(** A scope as a request names it: a non-empty text without white
    space. *)
Definition is_scope (s : string) : bool :=
  negb (String.eqb s "")
  && forallb (fun c => negb (Py.isspace c)) (list_ascii_of_string s).

(** The entry is past its expiry at [now], as the lookup reads it. *)
Definition expired_at (now : Z) (entry : dict) : bool :=
  match Dict.get "expires_on" entry with
  | Some e =>
      match Py.int e with
      | Ok n => negb (n >? now)
      | Raise _ => false
      end
  | None => false
  end.

(** The query of [get_cached_access_token]. *)
Definition lookup_query (client_id tenant : string) : dict :=
  [("client_id", VStr client_id); ("realm", VStr tenant)].

(** Every entry of a table is filed under [key], or does not match the
    lookup, or is past its expiry at [now]. *)
Definition others_expired (key : string) (scopes : list string)
    (query : dict) (now : Z) (tb : TokenCache.table) : bool :=
  forallb (fun ke =>
             String.eqb key (fst ke)
             || negb (TokenCache.is_matching scopes query (snd ke))
             || expired_at now (snd ke)) tb.

(** The two expiry fields of a response agree: when both are there,
    [expires_on] is [expires_in] after the request; when only
    [expires_on] is there, it is true. *)
Definition consistent_expiry (content : dict) (request_time : Z) : bool :=
  match Dict.get "expires_on" content, Dict.get "expires_in" content with
  | Some e, Some i =>
      match Py.int e, Py.int i with
      | Ok a, Ok b => a =? request_time + b
      | _, _ => false
      end
  | Some e, None => Py.truthy e
  | None, _ => true
  end.

Section Key.
Variable canonicalize : string -> string * string.
Variable home_account_id : dict -> value.

(** The key under which the store files the access token of a
    response. *)
Definition access_token_key (client_id : string) (request : HttpRequest)
    (content : dict) (scopes : list string) (request_time : Z) : string :=
  match TokenCache.access_token_entry canonicalize home_account_id
          (cache_event client_id request content scopes) request_time with
  | Ok (Some entry) => TokenCache.key_of TokenCache.ACCESS_TOKEN entry
  | _ => ""
  end.

End Key.

(** The lifetime the store gives the access token of a response. *)
Definition stored_expires_in (response : dict) (now : Z) : result Z :=
  do default_expires_in <-
    (let e := Dict.get_default "expires_on" VNone response in
     if Py.truthy e then do n <- Py.int e; Ok (n - now) else Ok 600);
  Py.int (Dict.get_default "expires_in" (VInt default_expires_in) response).

(* ===================================================================== *)
(** * A concrete environment *)
(* ===================================================================== *)

(** Concrete collaborators, used to run the client on examples. *)
Module Sample.

(** Modelled from the spec: [resolve_tenant] of [.utils] is not part of
    the module under study.  The tenant of a request is resolved from the
    default tenant and the allow-list of additional tenants: no override,
    or the default itself, gives the default; an override on the list, or
    any override when the list holds ["*"], is taken; anything else is an
    authentication error. *)
Definition resolve_tenant (default_tenant : string)
      (additionally_allowed_tenants : list string) (tenant_id : option string)
    : result string :=
  match tenant_id with
  | None => Ok default_tenant
  | Some t =>
      if String.eqb t default_tenant then Ok default_tenant
      else if TokenCache.mem_str "*" additionally_allowed_tenants
              || TokenCache.mem_str t additionally_allowed_tenants
      then Ok t
      else Raise (ClientAuthenticationError
                    "The current credential is not configured to acquire tokens for this tenant")
  end.

(** Environment and realm of an endpoint [https://host/tenant/...]. *)
Definition canonicalize (endpoint : string) : string * string :=
  match Py.split_on "/" endpoint with
  | _ :: _ :: host :: tenant :: _ => (Py.lower host, tenant)
  | _ => ("", "")
  end.

(** Responses without account information. *)
Definition home_account_id (response : dict) : value := VNone.

Definition authority : string := "https://login.microsoftonline.com".

(** A client of tenant [tenant], with neither cache nor persistence
    options supplied. *)
Definition client (tenant : string) : AadClient unit unit :=
  {| _authority := authority;
     _tenant_id := tenant;
     _client_id := "8f2b7a54-1c1d-4b8e-9d51-3f6c2a7e4b10";
     _additionally_allowed_tenants := ["fabrikam"];
     _pipeline := tt;
     _cache := None;
     _cae_cache := None;
     _cache_options := None;
     _custom_cache := false;
     _is_adfs := String.eqb (Py.lower tenant) "adfs" |}.

Definition with_cache (c : TokenCache.t) (self : AadClient unit unit)
    : AadClient unit unit :=
  set_cache self false c.

(** A certificate whose signatures are 256 bytes long, as those of a
    2048-bit RSA key are. *)
Definition certificate : AadClientCertificate :=
  {| thumbprint := "kQ3x0m1J9v0ZpX2cW5u8yB7dT4s=";
     sha256_thumbprint := "R0Zr3dWGjeIDk1kQmH5Vwd0WVvtMI2Wb0XQOy2p1pBc=";
     sign_ps256 := fun _ => repeat Byte.x5a 256;
     sign_rs256 := fun _ => repeat Byte.xa5 256 |}.

Definition jti : string := "0b0f6a2e-5d0c-4c57-9f3e-2a9d6c1e7b44".

Definition endpoint (tenant : string) : string :=
  authority ++ "/" ++ tenant ++ "/oauth2/v2.0/token".

(** The response to a request with form [form], sent to the endpoint of
    [tenant], whose decoded body is [content]. *)
Definition response (tenant : string) (form content : dict)
    : PipelineResponse unit :=
  {| http_request :=
       {| method := "POST";
          url := endpoint tenant;
          headers := [("Content-Type", "application/x-www-form-urlencoded")];
          body := form |};
     context_content := Some content;
     http_response := tt |}.

Definition process_response (self : AadClient unit unit)
      (r : PipelineResponse unit) (request_time : Z) (kw : kwargs) (now : Z)
    : outcome unit unit :=
  _process_response (fun _ _ => TokenCache.empty)
    (fun _ => Raise JSONDecodeError) canonicalize home_account_id
    self r request_time kw now.

Definition cached_access_token (self : AadClient unit unit)
      (scopes : list string) (kw : kwargs) (now : Z)
    : result (option AccessTokenInfo) :=
  fst (get_cached_access_token resolve_tenant (fun _ _ => TokenCache.empty)
         self scopes kw now).

(** A refresh-token entry of the store. *)
Definition rt_entry (target secret : string) : dict :=
  [("credential_type", VStr "RefreshToken");
   ("secret", VStr secret);
   ("home_account_id", VNone);
   ("environment", VStr "login.microsoftonline.com");
   ("client_id", VStr "8f2b7a54-1c1d-4b8e-9d51-3f6c2a7e4b10");
   ("target", VStr target);
   ("last_modification_time", VStr "1700000000")].

Definition rt_cache (l : list dict) : TokenCache.t :=
  {| TokenCache.access_tokens := [];
     TokenCache.refresh_tokens :=
       map (fun e => (TokenCache.key_of TokenCache.REFRESH_TOKEN e, e)) l |}.

(** The form of a refresh-token request. *)
Definition refresh_form (refresh_token scope : string) : dict :=
  [("grant_type", VStr "refresh_token");
   ("refresh_token", VStr refresh_token);
   ("scope", VStr scope);
   ("client_id", VStr "8f2b7a54-1c1d-4b8e-9d51-3f6c2a7e4b10");
   ("client_info", VInt 1)].

(** The form of a client-credentials request. *)
Definition secret_form (scope : string) : dict :=
  [("client_id", VStr "8f2b7a54-1c1d-4b8e-9d51-3f6c2a7e4b10");
   ("client_secret", VStr "hunter2");
   ("grant_type", VStr "client_credentials");
   ("scope", VStr scope)].

(** A successful response to a client-credentials request, good for two
    hours, and the token it yields at [request_time]. *)
Definition two_hour_content : dict :=
  [("token_type", VStr "Bearer");
   ("expires_in", VInt 7200);
   ("access_token", VStr "eyJ0eXAiOiJKV1QifQ.e30.c2ln")].

Definition two_hour_response : PipelineResponse unit :=
  response "contoso" (secret_form "https://vault.azure.net/.default")
    two_hour_content.

Definition request_time : Z := 1700000000.

Definition two_hour_token : AccessTokenInfo :=
  {| token := VStr "eyJ0eXAiOiJKV1QifQ.e30.c2ln";
     expires_on := 1700007200;
     token_type := VStr "Bearer";
     refresh_on := Some 1700003600 |}.

(** A response without any expiry, in which a second field repeats the
    access token. *)
Definition no_expiry_content : dict :=
  [("token_type", VStr "Bearer");
   ("access_token", VStr "s3cr3t-t0k3n");
   ("id_token", VStr "s3cr3t-t0k3n")].

Definition no_expiry_response : PipelineResponse unit :=
  response "contoso" (secret_form "https://vault.azure.net/.default")
    no_expiry_content.

(** A client whose cache holds one refresh token, [old-rt]. *)
Definition old_entry : dict :=
  rt_entry "https://vault.azure.net/.default" "old-rt".

Definition rotating_client : AadClient unit unit :=
  with_cache (rt_cache [old_entry]) (client "contoso").

(** Responses to the refresh-token grant that presents [old-rt]: one that
    rotates the refresh token, one that rejects it, and one that rejects
    it and yet names a new one. *)
Definition refresh_response (content : dict) : PipelineResponse unit :=
  response "contoso" (refresh_form "old-rt" "https://vault.azure.net/.default")
    content.

Definition rotated_content : dict :=
  [("token_type", VStr "Bearer");
   ("expires_in", VInt 3600);
   ("access_token", VStr "eyJ0eXAiOiJKV1QifQ.e30.c2ln");
   ("refresh_token", VStr "new-rt")].

Definition invalid_grant_content : dict :=
  [("error", VStr "invalid_grant");
   ("error_description", VStr "AADSTS70000: The refresh token has expired.")].


(** Constructing a client of tenant [contoso] with the caches given. *)
Definition init (cache cae_cache : option TokenCache.t)
  : result (AadClient unit unit) :=
  __init__ (fun a => Ok a) authority (fun _ => tt) "contoso"
    "8f2b7a54-1c1d-4b8e-9d51-3f6c2a7e4b10" None cache cae_cache
    (Some ["fabrikam"]) None.

(** The claims challenge of a continuous-access-evaluation rejection, as
    an object and as text. *)
Definition challenge : dict :=
  [("access_token",
    VDict [("nbf",
            VDict [("essential", VBool true);
                   ("value", VStr "1700000000")])])].

Definition challenge_text : string := Json.dumps (VDict challenge).

(** A well-formed JSON text that is no claims challenge. *)
Definition null_access_token_text : string :=
  Json.dumps (VDict [("access_token", VNone)]).

(** An access-token entry of the store. *)
Definition at_entry (target secret : string) (expires_on : Z) : dict :=
  [("credential_type", VStr "AccessToken");
   ("secret", VStr secret);
   ("home_account_id", VNone);
   ("environment", VStr "login.microsoftonline.com");
   ("client_id", VStr "8f2b7a54-1c1d-4b8e-9d51-3f6c2a7e4b10");
   ("target", VStr target);
   ("realm", VStr "contoso");
   ("token_type", VStr "Bearer");
   ("cached_at", VStr "1699990000");
   ("expires_on", VStr (Py.str_of_int expires_on));
   ("extended_expires_on", VStr (Py.str_of_int expires_on))].

Definition at_cache (l : list dict) : TokenCache.t :=
  {| TokenCache.access_tokens :=
       map (fun e => (TokenCache.key_of TokenCache.ACCESS_TOKEN e, e)) l;
     TokenCache.refresh_tokens := [] |}.

Definition vault_scope : string := "https://vault.azure.net/.default".

Definition two_vault_scopes : string :=
  "https://vault.azure.net/.default https://vault.azure.net/user_impersonation".

(** A client whose cache holds, for both vault scopes, a token that
    expired before [request_time], and for the first of them a token that
    is still good. *)
Definition renewing_client : AadClient unit unit :=
  with_cache
    (at_cache [at_entry two_vault_scopes "ZXhwaXJlZA" 1699993600;
               at_entry vault_scope "b2xkLXRva2Vu" 1700000300])
    (client "contoso").

(** A token for both vault scopes that is still good at [request_time],
    and a client whose cache holds it. *)
Definition wide_token : AccessTokenInfo :=
  {| token := VStr "d2lkZS10b2tlbg";
     expires_on := 1700000300;
     token_type := VStr "Bearer";
     refresh_on := None |}.

Definition wide_client : AadClient unit unit :=
  with_cache (at_cache [at_entry two_vault_scopes "d2lkZS10b2tlbg" 1700000300])
    (client "contoso").

(** A response that gives the expiry both ways, the absolute time by a
    clock six seconds ahead of the request's. *)
Definition both_expiries_content : dict :=
  [("token_type", VStr "Bearer");
   ("expires_in", VStr "3599");
   ("expires_on", VStr "1700003605");
   ("access_token", VStr "eyJ0eXAiOiJKV1QifQ.e30.c2ln")].

Definition both_expiries_response : PipelineResponse unit :=
  response "contoso" (secret_form vault_scope) both_expiries_content.



(** A client whose cache holds [old-rt] under a key that is not the key
    of the entry, as a cache restored from a file written by other hands
    can. *)
Definition misfiled_client : AadClient unit unit :=
  with_cache
    {| TokenCache.access_tokens := [];
       TokenCache.refresh_tokens := [("legacy-key", old_entry)] |}
    (client "contoso").

(** A request whose one scope is a text with a space in it, and the
    response to it. *)
Definition spaced_scope : string :=
  "https://vault.azure.net/.default offline_access".

Definition spaced_response : PipelineResponse unit :=
  response "contoso" (secret_form spaced_scope) two_hour_content.

(** A response whose access token is the empty text. *)
Definition empty_token_content : dict :=
  [("token_type", VStr "Bearer");
   ("expires_in", VInt 3600);
   ("access_token", VStr "")].

Definition empty_token_response : PipelineResponse unit :=
  response "contoso" (secret_form vault_scope) empty_token_content.

End Sample.


(* ===================================================================== *)
(** * Vocabulary of the statements about requests and caches *)
(* ===================================================================== *)

Unset Implicit Arguments.

Section Builders.
Context {Pipeline CacheOptions : Type}.
Variable resolve_tenant :
  string -> list string -> option string -> result string.
Variable json_loads : string -> result value.

(** The requests the seven request builders return for the scopes
    [scopes] and the keyword arguments [kw], each with the grant type its
    builder writes. *)
Inductive builds (self : AadClient Pipeline CacheOptions)
    (scopes : list string) (kw : kwargs) : string -> HttpRequest -> Prop :=
| builds_auth_code code redirect_uri client_secret request :
    _get_auth_code_request resolve_tenant json_loads self scopes code
      redirect_uri client_secret kw = Ok request ->
    builds self scopes kw "authorization_code" request
| builds_jwt_assertion assertion request :
    _get_jwt_assertion_request resolve_tenant json_loads self scopes
      assertion kw = Ok request ->
    builds self scopes kw "client_credentials" request
| builds_client_certificate certificate now jti request :
    _get_client_certificate_request resolve_tenant json_loads self scopes
      certificate kw now jti = Ok request ->
    builds self scopes kw "client_credentials" request
| builds_client_secret secret request :
    _get_client_secret_request resolve_tenant json_loads self scopes secret
      kw = Ok request ->
    builds self scopes kw "client_credentials" request
| builds_on_behalf_of credential user_assertion now jti request :
    _get_on_behalf_of_request resolve_tenant json_loads self scopes
      credential user_assertion kw now jti = Ok request ->
    builds self scopes kw "urn:ietf:params:oauth:grant-type:jwt-bearer"
      request
| builds_refresh_token refresh_token request :
    _get_refresh_token_request resolve_tenant json_loads self scopes
      refresh_token kw = Ok request ->
    builds self scopes kw "refresh_token" request
| builds_refresh_token_on_behalf_of credential refresh_token now jti
    request :
    _get_refresh_token_on_behalf_of_request resolve_tenant json_loads self
      scopes credential refresh_token kw now jti = Ok request ->
    builds self scopes kw "refresh_token" request.

End Builders.

(** The claims text that announces the capability [CP1] and nothing
    else. *)
Definition cp1_claims : string :=
  Json.dumps (VDict [("access_token",
                      VDict [("xms_cc", capability_values ["CP1"])])]).

(** The form field an optional text gives: none when the text is absent or
    empty. *)
Definition optional_field (merged : option string) : option value :=
  match merged with
  | Some c => if String.eqb c "" then None else Some (VStr c)
  | None => None
  end.

Section OtherCache.
Context {Pipeline CacheOptions : Type}.

(** The cache of the kind a call does not select. *)
Definition other_cache (kw : kwargs) (self : AadClient Pipeline CacheOptions)
    : option TokenCache.t :=
  if enable_cae kw then _cache self else _cae_cache self.

End OtherCache.

Set Implicit Arguments.
(* ===================================================================== *)
(** * Facts about dictionaries *)
(* ===================================================================== *)

Module AssocFacts.
Section AssocFacts.
Variable V : Type.
Implicit Types (d : list (string * V)) (k : string) (v : V).

Lemma get_set_same k v d : Assoc.get k (Assoc.set k v d) = Some v.
Proof.
  induction d as [|[k' v'] r IH]; simpl.
  - now rewrite String.eqb_refl.
  - destruct (String.eqb k k') eqn:E; simpl; rewrite ?String.eqb_refl, ?E; auto.
Qed.

Lemma get_set_other k k' v d :
  k <> k' -> Assoc.get k (Assoc.set k' v d) = Assoc.get k d.
Proof.
  intros N. apply String.eqb_neq in N.
  induction d as [|[k0 v0] r IH]; simpl.
  - now rewrite N.
  - destruct (String.eqb k' k0) eqn:E; simpl.
    + apply String.eqb_eq in E. subst k0. now rewrite N.
    + destruct (String.eqb k k0); auto.
Qed.

Lemma get_del_same k d : Assoc.get k (Assoc.del k d) = None.
Proof.
  induction d as [|[k' v'] r IH]; simpl; auto.
  destruct (String.eqb k k') eqn:E; simpl; rewrite ?E; auto.
Qed.

Lemma get_del_other k k' d :
  k <> k' -> Assoc.get k (Assoc.del k' d) = Assoc.get k d.
Proof.
  intros N. apply String.eqb_neq in N.
  induction d as [|[k0 v0] r IH]; simpl; auto.
  destruct (String.eqb k' k0) eqn:E; simpl.
  - apply String.eqb_eq in E. subst k0. now rewrite N.
  - now rewrite IH.
Qed.

Lemma mem_set_same k v d : Assoc.mem k (Assoc.set k v d) = true.
Proof. unfold Assoc.mem. now rewrite get_set_same. Qed.

Lemma mem_set_other k k' v d :
  k <> k' -> Assoc.mem k (Assoc.set k' v d) = Assoc.mem k d.
Proof. intros N. unfold Assoc.mem. now rewrite get_set_other. Qed.

Lemma mem_del_same k d : Assoc.mem k (Assoc.del k d) = false.
Proof. unfold Assoc.mem. now rewrite get_del_same. Qed.

Lemma mem_del_other k k' d :
  k <> k' -> Assoc.mem k (Assoc.del k' d) = Assoc.mem k d.
Proof. intros N. unfold Assoc.mem. now rewrite get_del_other. Qed.

Lemma get_In k v d : Assoc.get k d = Some v -> In (k, v) d.
Proof.
  induction d as [|[k' v'] r IH]; simpl; [discriminate|].
  destruct (String.eqb k k') eqn:E.
  - apply String.eqb_eq in E. intros [= ->]. subst. now left.
  - intros H. right. auto.
Qed.

Lemma get_None_keys k d : Assoc.get k d = None <-> ~ In k (Assoc.keys d).
Proof.
  induction d as [|[k' v'] r IH]; simpl.
  - tauto.
  - destruct (String.eqb k k') eqn:E.
    + apply String.eqb_eq in E. subst. split; [discriminate|]. tauto.
    + apply String.eqb_neq in E. rewrite IH. intuition congruence.
Qed.

(** Deleting an absent key changes nothing. *)
Lemma del_absent k d : Assoc.get k d = None -> Assoc.del k d = d.
Proof.
  induction d as [|[k' v'] r IH]; simpl; auto.
  destruct (String.eqb k k'); [discriminate|].
  intros H. now rewrite IH.
Qed.

(** Assigning to an absent key appends the item. *)
Lemma set_absent k v d :
  Assoc.get k d = None -> Assoc.set k v d = (d ++ [(k, v)])%list.
Proof.
  induction d as [|[k' v'] r IH]; simpl; auto.
  destruct (String.eqb k k'); [discriminate|].
  intros H. now rewrite IH.
Qed.

Lemma del_set_same k v d : Assoc.del k (Assoc.set k v d) = Assoc.del k d.
Proof.
  induction d as [|[k' v'] r IH]; simpl.
  - now rewrite String.eqb_refl.
  - destruct (String.eqb k k') eqn:E; simpl; rewrite ?String.eqb_refl, ?E;
      congruence.
Qed.

Lemma del_set_other k k' v d :
  k <> k' -> Assoc.mem k' d = true ->
  Assoc.del k (Assoc.set k' v d) = Assoc.set k' v (Assoc.del k d).
Proof.
  intros N. pose proof N as N'. apply String.eqb_neq in N'.
  unfold Assoc.mem.
  induction d as [|[k0 v0] r IH]; simpl; [discriminate|].
  destruct (String.eqb k' k0) eqn:E; simpl.
  - apply String.eqb_eq in E. subst k0. rewrite N'. simpl.
    now rewrite String.eqb_refl.
  - intros H. destruct (String.eqb k k0) eqn:E'; simpl; rewrite ?E; auto.
    now rewrite IH.
Qed.

End AssocFacts.
End AssocFacts.

(* ===================================================================== *)
(** * Facts about the helpers *)
(* ===================================================================== *)

Lemma scrub_get_other k content :
  k <> "access_token" -> k <> "refresh_token" ->
  Dict.get k (_scrub_secrets content) = Dict.get k content.
Proof.
  intros N1 N2. unfold _scrub_secrets. simpl.
  destruct (Dict.mem "access_token" content);
    [destruct (Dict.mem "refresh_token" (Dict.set "access_token" _ content))
    |destruct (Dict.mem "refresh_token" content)];
    rewrite ?AssocFacts.get_set_other by assumption; reflexivity.
Qed.

Lemma scrub_mem k content :
  Dict.mem k (_scrub_secrets content) = Dict.mem k content.
Proof.
  assert (step : forall s d,
             Dict.mem k (if Dict.mem s d then Dict.set s (VStr "***") d else d)
             = Dict.mem k d).
  { intros s d. destruct (Dict.mem s d) eqn:E; [|reflexivity].
    destruct (string_dec k s) as [->|N].
    - now rewrite AssocFacts.mem_set_same.
    - now apply AssocFacts.mem_set_other. }
  unfold _scrub_secrets. simpl. now rewrite !step.
Qed.

Lemma scrub_masked_access_token content :
  masked "access_token" (_scrub_secrets content).
Proof.
  unfold masked, _scrub_secrets. simpl.
  destruct (Dict.mem "access_token" content) eqn:E.
  - right.
    destruct (Dict.mem "refresh_token" _);
      rewrite ?AssocFacts.get_set_other by discriminate;
      apply AssocFacts.get_set_same.
  - left. unfold Assoc.mem in E.
    destruct (Dict.mem "refresh_token" content);
      rewrite ?AssocFacts.get_set_other by discriminate;
      destruct (Dict.get "access_token" content); congruence.
Qed.

Lemma scrub_masked_refresh_token content :
  masked "refresh_token" (_scrub_secrets content).
Proof.
  unfold masked, _scrub_secrets. simpl.
  set (d := if Dict.mem "access_token" content then _ else _).
  destruct (Dict.mem "refresh_token" d) eqn:E.
  - right. apply AssocFacts.get_set_same.
  - left. unfold Assoc.mem in E.
    destruct (Dict.get "refresh_token" d); congruence.
Qed.

(** Scrubbing and deleting the refresh token commute. *)
Lemma scrub_del_refresh_token content :
  _scrub_secrets (Dict.del "refresh_token" content)
  = Dict.del "refresh_token" (_scrub_secrets content).
Proof.
  unfold _scrub_secrets. simpl.
  rewrite AssocFacts.mem_del_other by discriminate.
  destruct (Dict.mem "access_token" content) eqn:E.
  - rewrite !AssocFacts.mem_set_other by discriminate.
    rewrite AssocFacts.mem_del_same.
    destruct (Dict.mem "refresh_token" content).
    + rewrite AssocFacts.del_set_same.
      now rewrite AssocFacts.del_set_other by (discriminate || assumption).
    + now rewrite AssocFacts.del_set_other by (discriminate || assumption).
  - rewrite AssocFacts.mem_del_same.
    destruct (Dict.mem "refresh_token" content); [|reflexivity].
    now rewrite AssocFacts.del_set_same.
Qed.

(** [_raise_for_error] raises exactly on a content with an [error], and
    then leaves the content scrubbed and raises the message built from
    the scrubbed content. *)
Lemma raise_for_error_spec content :
  _raise_for_error content
  = if Dict.mem "error" content
    then (_scrub_secrets content,
          Raise (ClientAuthenticationError
                   (failure_message (_scrub_secrets content))))
    else (content, Ok tt).
Proof.
  unfold _raise_for_error, failure_message.
  rewrite scrub_mem.
  destruct (Dict.mem "error" content); reflexivity.
Qed.

(** Which exceptions the conversions and lookups can raise. *)
Lemma int_not_auth v : is_auth_error (Py.int v) = false.
Proof.
  destruct v; simpl; auto. now destruct (Py.int_of_str s).
Qed.

Lemma item_not_auth k d : is_auth_error (Dict.item k d) = false.
Proof. unfold Dict.item. now destruct (Dict.get k d). Qed.

Lemma bind_not_auth A B (m : result A) (k : A -> result B) :
  is_auth_error m = false -> (forall a, is_auth_error (k a) = false) ->
  is_auth_error (bind m k) = false.
Proof. destruct m; simpl; auto. Qed.

Lemma request_scopes_not_auth form :
  is_auth_error (request_scopes form) = false.
Proof.
  unfold request_scopes. apply bind_not_auth; [apply item_not_auth|].
  now intros [].
Qed.

Section StoreErrors.
Variable canonicalize : string -> string * string.
Variable home_account_id : dict -> value.

Lemma access_token_entry_not_auth ev now :
  is_auth_error
    (TokenCache.access_token_entry canonicalize home_account_id ev now)
  = false.
Proof.
  unfold TokenCache.access_token_entry.
  destruct (canonicalize _) as [environment realm].
  destruct (Py.truthy _); [|reflexivity].
  apply bind_not_auth.
  { destruct (Py.truthy _); [|reflexivity].
    apply bind_not_auth; auto using int_not_auth. }
  intros d. apply bind_not_auth; [apply int_not_auth|].
  intros e. apply bind_not_auth; [apply int_not_auth|].
  intros x. destruct (Dict.get "refresh_in" _) as [[]|]; reflexivity.
Qed.

Lemma add_not_auth c ev now :
  is_auth_error (TokenCache.add canonicalize home_account_id c ev now)
  = false.
Proof.
  unfold TokenCache.add.
  apply bind_not_auth; [apply access_token_entry_not_auth|reflexivity].
Qed.

End StoreErrors.

(* ===================================================================== *)
(** * Facts about response processing *)
(* ===================================================================== *)

Ltac unfold_m :=
  unfold mbind, when, ret, raise, lift, get_content, get_cache,
    put_content, put_cache in *.

Lemma processing_eta (s : processing) :
  {| p_cache := p_cache s; p_content := p_content s |} = s.
Proof. now destruct s. Qed.

(** The refresh-token bookkeeping leaves everything alone unless the
    request was a refresh-token grant. *)
Lemma refresh_grant_other_grant form now s :
  is_refresh_grant form = false ->
  process_refresh_grant form now s = (Ok tt, s).
Proof.
  unfold is_refresh_grant, process_refresh_grant. unfold_m.
  now intros ->.
Qed.

(** On a refresh-token grant it evicts on [invalid_grant], then rotates
    the single entry holding the old secret, if there is exactly one. *)
Lemma refresh_grant_run form now s old :
  is_refresh_grant form = true ->
  Dict.get "refresh_token" form = Some old ->
  process_refresh_grant form now s
  = let c1 := evicted (p_cache s) (p_content s) old in
    match Dict.get "refresh_token" (p_content s),
          TokenCache.search c1 TokenCache.REFRESH_TOKEN []
            [("secret", old)] with
    | Some new_rt, [entry] =>
        (Ok tt,
         {| p_cache := TokenCache.update_rt c1 entry new_rt now;
            p_content := Dict.del "refresh_token" (p_content s) |})
    | _, _ => (Ok tt, {| p_cache := c1; p_content := p_content s |})
    end.
Proof.
  unfold is_refresh_grant, process_refresh_grant, evicted,
    reports_invalid_grant, Dict.item, Assoc.mem.
  unfold_m. intros -> ->. destruct s as [cache content]. simpl.
  destruct (Py.eq_str (Dict.get_default "error" VNone content)
              "invalid_grant"); simpl;
    destruct (Dict.get "refresh_token" content) as [new_rt|]; simpl;
    try reflexivity;
    match goal with
    | |- context [TokenCache.search ?c _ _ _] =>
        destruct (TokenCache.search c TokenCache.REFRESH_TOKEN []
                    [("secret", old)]) as [|e [|e' l]]
    end; reflexivity.
Qed.

(** Without the refresh token it would look up, the step raises a
    [KeyError] or does nothing. *)
Lemma refresh_grant_key_error form now s :
  Dict.get "refresh_token" form = None ->
  process_refresh_grant form now s = (Ok tt, s)
  \/ process_refresh_grant form now s
     = (Raise (KeyError "refresh_token"), s).
Proof.
  unfold process_refresh_grant, Dict.item, Assoc.mem. unfold_m.
  intros ->. destruct s as [cache content]. simpl.
  destruct (Py.eq_str _ "refresh_token"); simpl; auto.
  destruct (Py.eq_str _ "invalid_grant"); simpl; auto.
  destruct (Dict.get "refresh_token" content); simpl; auto.
Qed.

Lemma never_mbind A B (m : M A) (k : A -> M B) :
  never_auth_error m -> (forall a, never_auth_error (k a)) ->
  never_auth_error (mbind m k).
Proof.
  intros Hm Hk s. unfold mbind. specialize (Hm s).
  destruct (m s) as [[a|e] s']; simpl in *; auto. apply Hk.
Qed.

Lemma never_lift A (r : result A) :
  is_auth_error r = false -> never_auth_error (lift r).
Proof. intros H s. exact H. Qed.

Lemma never_ret A (a : A) : never_auth_error (ret a).
Proof. intros s. reflexivity. Qed.

Lemma never_when b (m : M unit) :
  never_auth_error m -> never_auth_error (when b m).
Proof. destruct b; simpl; auto using never_ret. Qed.

Lemma never_get_content : never_auth_error get_content.
Proof. intros s. reflexivity. Qed.

Lemma never_get_cache : never_auth_error get_cache.
Proof. intros s. reflexivity. Qed.

Lemma never_put_content d : never_auth_error (put_content d).
Proof. intros s. reflexivity. Qed.

Lemma never_put_cache c : never_auth_error (put_cache c).
Proof. intros s. reflexivity. Qed.

Create HintDb never.

#[local] Hint Resolve never_mbind never_lift never_ret never_when
  never_get_content never_get_cache never_put_content never_put_cache
  int_not_auth item_not_auth request_scopes_not_auth add_not_auth
  : never.

Lemma build_token_never request_time expires_on :
  never_auth_error (build_token request_time expires_on).
Proof.
  unfold build_token.
  repeat (apply never_mbind; [auto with never|intros ?]);
    auto with never.
  destruct (Dict.get "refresh_in" _); auto with never.
Qed.

(** The step leaves the content alone or deletes its refresh token. *)
Lemma refresh_grant_content form now s :
  p_content (snd (process_refresh_grant form now s)) = p_content s
  \/ p_content (snd (process_refresh_grant form now s))
     = Dict.del "refresh_token" (p_content s).
Proof.
  destruct (is_refresh_grant form) eqn:G.
  - destruct (Dict.get "refresh_token" form) as [old|] eqn:F.
    + rewrite (refresh_grant_run form now s G F). cbv zeta.
      destruct (Dict.get "refresh_token" (p_content s)); auto.
      destruct (TokenCache.search _ _ _ _) as [|e [|e' l]]; auto.
    + destruct (refresh_grant_key_error form now s F) as [-> | ->]; auto.
  - rewrite refresh_grant_other_grant by assumption. auto.
Qed.

(** With a usable form the step does not raise. *)
Lemma refresh_grant_ok form now s :
  form_ok form -> fst (process_refresh_grant form now s) = Ok tt.
Proof.
  intros W. destruct (is_refresh_grant form) eqn:G.
  - specialize (W G). unfold Assoc.mem in W.
    destruct (Dict.get "refresh_token" form) as [old|] eqn:F;
      [|discriminate].
    rewrite (refresh_grant_run form now s G F). cbv zeta.
    destruct (Dict.get "refresh_token" (p_content s)); auto.
    destruct (TokenCache.search _ _ _ _) as [|e [|e' l]]; auto.
  - now rewrite refresh_grant_other_grant.
Qed.

(** Whether the step deletes the refresh token depends on the content
    only through its [error] and the presence of [refresh_token]. *)
Lemma refresh_grant_content_agree form now cache content content' :
  Dict.get "error" content' = Dict.get "error" content ->
  Dict.mem "refresh_token" content' = Dict.mem "refresh_token" content ->
  (p_content (snd (process_refresh_grant form now
                     {| p_cache := cache; p_content := content |}))
   = content
   /\ p_content (snd (process_refresh_grant form now
                        {| p_cache := cache; p_content := content' |}))
      = content')
  \/ (p_content (snd (process_refresh_grant form now
                        {| p_cache := cache; p_content := content |}))
      = Dict.del "refresh_token" content
      /\ p_content (snd (process_refresh_grant form now
                           {| p_cache := cache; p_content := content' |}))
         = Dict.del "refresh_token" content').
Proof.
  intros He Hm.
  destruct (is_refresh_grant form) eqn:G.
  - destruct (Dict.get "refresh_token" form) as [old|] eqn:F.
    + rewrite !(refresh_grant_run form now _ G F). cbv zeta. simpl.
      assert (Hev : evicted cache content' old = evicted cache content old).
      { unfold evicted, reports_invalid_grant, Dict.get_default.
        now rewrite He. }
      rewrite Hev. unfold Assoc.mem in Hm.
      destruct (Dict.get "refresh_token" content),
        (Dict.get "refresh_token" content'); try discriminate; auto.
      destruct (TokenCache.search _ _ _ _) as [|e [|e' l]]; auto.
    + destruct (refresh_grant_key_error form now
                  {| p_cache := cache; p_content := content |} F)
        as [-> | ->];
      destruct (refresh_grant_key_error form now
                  {| p_cache := cache; p_content := content' |} F)
        as [-> | ->]; auto.
  - rewrite !refresh_grant_other_grant by assumption. auto.
Qed.

Section ProcessFacts.
Context {Pipeline CacheOptions : Type}.
Variable canonicalize : string -> string * string.
Variable home_account_id : dict -> value.
Implicit Types (self : AadClient Pipeline CacheOptions) (s : processing).

Lemma process_split self request request_time now s :
  process canonicalize home_account_id self request request_time now s
  = match process_refresh_grant (body request) now s with
    | (Ok _, s1) =>
        process_tail canonicalize home_account_id self request
          request_time s1
    | (Raise e, s1) => (Raise e, s1)
    end.
Proof. reflexivity. Qed.

Lemma cache_add_never self request request_time :
  never_auth_error
    (cache_add canonicalize home_account_id self request request_time).
Proof.
  unfold cache_add.
  repeat (apply never_mbind; [auto with never|intros ?]);
    auto with never.
Qed.

Lemma after_expiry_never self request request_time expires_on :
  never_auth_error
    (mbind (build_token request_time expires_on) (fun token =>
     mbind (cache_add canonicalize home_account_id self request
              request_time)
       (fun _ => ret token))).
Proof.
  apply never_mbind; [apply build_token_never|intros token].
  apply never_mbind; [apply cache_add_never|intros _].
  apply never_ret.
Qed.

(** The tail fails with an authentication error exactly on a content
    with an [error] or without any expiry. *)
Lemma tail_auth_error self request request_time s :
  is_auth_error
    (fst (process_tail canonicalize home_account_id self request
            request_time s))
  = Dict.mem "error" (p_content s)
    || (negb (Dict.mem "expires_on" (p_content s))
        && negb (Dict.mem "expires_in" (p_content s))).
Proof.
  destruct s as [cache content].
  unfold process_tail, raise_for_error. unfold_m. simpl.
  rewrite raise_for_error_spec.
  destruct (Dict.mem "error" content) eqn:E; simpl; [reflexivity|].
  unfold compute_expires_on, Assoc.mem. unfold_m. simpl.
  destruct (Dict.get "expires_on" content) as [e|] eqn:Eo; simpl.
  - pose proof (int_not_auth e) as Hi.
    destruct (Py.int e) as [expires_on|x]; simpl; [|exact Hi].
    apply after_expiry_never.
  - destruct (Dict.get "expires_in" content) as [e|] eqn:Ei; simpl; auto.
    pose proof (int_not_auth e) as Hi.
    destruct (Py.int e) as [n|x]; simpl; [|exact Hi].
    apply after_expiry_never.
Qed.

Lemma computed_expires_in_eq content request_time :
  computed_expires_in content request_time
  = do expires_on <- computed_expires_on content request_time;
    let literal := Dict.get_default "expires_in" VNone content in
    Py.int (if Py.truthy literal then literal
            else VInt (expires_on - request_time)).
Proof. reflexivity. Qed.

(** A successful tail, step by step. *)
Lemma tail_ok self request request_time s tok s' :
  process_tail canonicalize home_account_id self request request_time s
  = (Ok tok, s') ->
  Dict.mem "error" (p_content s) = false
  /\ exists eo ei scope,
      computed_expires_on (p_content s) request_time = Ok eo
      /\ computed_expires_in (p_content s) request_time = Ok ei
      /\ p_content s' = with_refresh_in (p_content s) ei
      /\ expires_on tok = eo
      /\ Dict.get "access_token" (p_content s') = Some (token tok)
      /\ token_type tok
         = Dict.get_default "token_type" (VStr "Bearer") (p_content s')
      /\ refresh_on tok
         = match Dict.get "refresh_in" (p_content s') with
           | Some r =>
               match Py.int r with
               | Ok n => Some (request_time + n)
               | Raise _ => None
               end
           | None => None
           end
      /\ request_scopes (body request) = Ok scope
      /\ TokenCache.add canonicalize home_account_id (p_cache s)
           (cache_event (_client_id self) request (p_content s') scope)
           request_time
         = Ok (p_cache s').
Proof.
  destruct s as [cache content].
  unfold process_tail, raise_for_error. unfold_m. simpl.
  rewrite raise_for_error_spec.
  destruct (Dict.mem "error" content) eqn:E; simpl; [discriminate|].
  intros H. split; [reflexivity|].
  rewrite computed_expires_in_eq.
  unfold compute_expires_on, computed_expires_on, Dict.get_default in *.
  unfold_m. simpl in H.
  assert (Hexp : exists eo,
             match Dict.get "expires_on" content with
             | Some e => Py.int e
             | None =>
                 do n <- Py.int match Dict.get "expires_in" content with
                                | Some v => v
                                | None => VNone
                                end;
                 Ok (request_time + n)
             end = Ok eo
             /\ (let '(r, s1) :=
                   build_token request_time eo
                     {| p_cache := cache; p_content := content |} in
                 match r with
                 | Ok a =>
                     let '(r', s2) :=
                       cache_add canonicalize home_account_id self request
                         request_time s1 in
                     match r' with
                     | Ok _ => (Ok a, s2)
                     | Raise e => (Raise e, s2)
                     end
                 | Raise e => (Raise e, s1)
                 end) = (Ok tok, s')).
  { destruct (Dict.get "expires_on" content) as [e|]; simpl in *.
    - destruct (Py.int e) as [eo|]; simpl in *; [|discriminate].
      exists eo. split; [reflexivity|].
      destruct (build_token _ _ _) as [[a|x] s1]; [|discriminate].
      destruct (cache_add _ _ _ _ _ _) as [[[]|x] s2]; auto.
    - destruct (Dict.get "expires_in" content) as [e|]; simpl in *;
        [|discriminate].
      destruct (Py.int e) as [n|]; simpl in *; [|discriminate].
      exists (request_time + n). split; [reflexivity|].
      destruct (build_token _ _ _) as [[a|x] s1]; [|discriminate].
      destruct (cache_add _ _ _ _ _ _) as [[[]|x] s2]; auto. }
  clear H. destruct Hexp as (eo & Heo & H).
  exists eo. rewrite Heo. simpl.
  unfold build_token, Dict.get_default, Dict.item in H. unfold_m.
  simpl in H.
  destruct (Py.int (if Py.truthy _ then _ else _)) as [ei|];
    simpl in H; [|discriminate].
  exists ei.
  unfold with_refresh_in.
  set (content2 := if negb (Dict.mem "refresh_in" content)
                      && (ei >=? 7200)
                   then Dict.set "refresh_in" (VInt (ei / 2)) content
                   else content).
  assert (H2 :
    (let '(r, s1) :=
       match Dict.get "refresh_in" content2 with
       | Some r =>
           match Py.int r with
           | Ok n =>
               (Ok (Some (request_time + n)),
                {| p_cache := cache; p_content := content2 |})
           | Raise e =>
               (Raise e, {| p_cache := cache; p_content := content2 |})
           end
       | None => (Ok None, {| p_cache := cache; p_content := content2 |})
       end in
     match r with
     | Ok ro =>
         match Dict.get "access_token" (p_content s1) with
         | Some v =>
             let tk := {| token := v; expires_on := eo;
                          token_type :=
                            match Dict.get "token_type" (p_content s1) with
                            | Some t => t
                            | None => VStr "Bearer"
                            end;
                          refresh_on := ro |} in
             let '(r', s2) :=
               cache_add canonicalize home_account_id self request
                 request_time s1 in
             match r' with
             | Ok _ => (Ok tk, s2)
             | Raise e => (Raise e, s2)
             end
         | None => (Raise (KeyError "access_token"), s1)
         end
     | Raise e => (Raise e, s1)
     end) = (Ok tok, s')).
  { subst content2.
    destruct (negb (Dict.mem "refresh_in" content) && (ei >=? 7200));
      simpl in H |- *.
    - destruct (Dict.get "refresh_in" (Dict.set _ _ content)) as [r|];
        [destruct (Py.int r)|]; simpl in *;
        try destruct (Dict.get "access_token" _); simpl in *;
        try destruct (cache_add _ _ _ _ _ _) as [[[]|] ?]; auto.
    - destruct (Dict.get "refresh_in" content) as [r|];
        [destruct (Py.int r)|]; simpl in *;
        try destruct (Dict.get "access_token" _); simpl in *;
        try destruct (cache_add _ _ _ _ _ _) as [[[]|] ?]; auto. }
  clear H. clearbody content2.
  assert (H3 : exists ro,
     match Dict.get "refresh_in" content2 with
     | Some r =>
         match Py.int r with
         | Ok n => Some (request_time + n)
         | Raise _ => None
         end
     | None => None
     end = ro
     /\ match Dict.get "access_token" content2 with
        | Some v =>
            let tk := {| token := v; expires_on := eo;
                         token_type :=
                           match Dict.get "token_type" content2 with
                           | Some t => t
                           | None => VStr "Bearer"
                           end;
                         refresh_on := ro |} in
            let '(r', s2) :=
              cache_add canonicalize home_account_id self request
                request_time {| p_cache := cache; p_content := content2 |} in
            match r' with
            | Ok _ => (Ok tk, s2)
            | Raise e => (Raise e, s2)
            end
        | None =>
            (Raise (KeyError "access_token"),
             {| p_cache := cache; p_content := content2 |})
        end = (Ok tok, s')).
  { destruct (Dict.get "refresh_in" content2) as [r|];
      [destruct (Py.int r)|]; simpl in H2; try discriminate; eauto. }
  clear H2. destruct H3 as (ro & Hro & H).
  destruct (Dict.get "access_token" content2) as [v|] eqn:Eat;
    [|discriminate].
  cbv zeta in H.
  unfold cache_add, Dict.item in H. unfold_m. simpl in H.
  destruct (request_scopes (body request)) as [scope|]; simpl in H;
    [|discriminate].
  exists scope.
  unfold cache_event.
  destruct (TokenCache.add _ _ _ _ _) as [c'|] eqn:Eadd; simpl in H;
    [|discriminate].
  injection H as <- <-. simpl.
  rewrite Eat, Hro. repeat split; try reflexivity. exact Eadd.
Qed.

(** None of the steps before the cache write touches the cache, and a
    cache write that raises leaves it as it was. *)
Lemma build_token_cache request_time eo s :
  p_cache (snd (build_token request_time eo s)) = p_cache s.
Proof.
  destruct s as [cache content].
  unfold build_token, Dict.item. unfold_m. simpl.
  destruct (Py.int _); simpl; [|reflexivity].
  destruct (negb _ && _); simpl;
    (destruct (Dict.get "refresh_in" _) as [r|];
     [destruct (Py.int r)|]; simpl; try reflexivity;
     destruct (Dict.get "access_token" _); reflexivity).
Qed.

Lemma cache_add_raise self request request_time s e s' :
  cache_add canonicalize home_account_id self request request_time s
  = (Raise e, s') -> s' = s.
Proof.
  destruct s as [cache content].
  unfold cache_add. unfold_m. simpl.
  destruct (request_scopes _); simpl; [|now intros [= _ <-]].
  destruct (TokenCache.add _ _ _ _ _); simpl; [discriminate|].
  now intros [= _ <-].
Qed.

Lemma tail_raise_cache self request request_time s e s' :
  process_tail canonicalize home_account_id self request request_time s
  = (Raise e, s') -> p_cache s' = p_cache s.
Proof.
  destruct s as [cache content].
  unfold process_tail, raise_for_error. unfold_m. simpl.
  rewrite raise_for_error_spec.
  destruct (Dict.mem "error" content); simpl; [now intros [= _ <-]|].
  assert (rest : forall eo,
    (let '(r, s1) :=
       build_token request_time eo
         {| p_cache := cache; p_content := content |} in
     match r with
     | Ok a =>
         let '(r', s2) :=
           cache_add canonicalize home_account_id self request
             request_time s1 in
         match r' with
         | Ok _ => (Ok a, s2)
         | Raise e => (Raise e, s2)
         end
     | Raise e => (Raise e, s1)
     end) = (Raise e, s') -> p_cache s' = cache).
  { intros eo.
    pose proof (build_token_cache request_time eo
                  {| p_cache := cache; p_content := content |}) as Hb.
    destruct (build_token _ _ _) as [[a|x] s1]; simpl in Hb.
    - destruct (cache_add _ _ _ _ _ _) as [[[]|x] s2] eqn:Ea;
        [discriminate|].
      apply cache_add_raise in Ea. intros [= _ <-]. congruence.
    - intros [= _ <-]. exact Hb. }
  unfold compute_expires_on. unfold_m. simpl.
  destruct (Dict.get "expires_on" content) as [v|]; simpl.
  - destruct (Py.int v); simpl; [apply rest|now intros [= _ <-]].
  - destruct (Dict.get "expires_in" content) as [v|]; simpl.
    + destruct (Py.int v); simpl; [apply rest|now intros [= _ <-]].
    + now intros [= _ <-].
Qed.

(** A tail that fails with an authentication error leaves the content
    scrubbed and reports the message built from the scrubbed content. *)
Lemma tail_auth_message self request request_time s message s' :
  process_tail canonicalize home_account_id self request request_time s
  = (Raise (ClientAuthenticationError message), s') ->
  p_content s' = _scrub_secrets (p_content s)
  /\ message = failure_message (_scrub_secrets (p_content s)).
Proof.
  destruct s as [cache content].
  unfold process_tail, raise_for_error. unfold_m. simpl.
  rewrite raise_for_error_spec.
  destruct (Dict.mem "error" content) eqn:E; simpl.
  { intros [= <- <-]. auto. }
  assert (rest : forall eo,
    (let '(r, s1) :=
       build_token request_time eo
         {| p_cache := cache; p_content := content |} in
     match r with
     | Ok a =>
         let '(r', s2) :=
           cache_add canonicalize home_account_id self request
             request_time s1 in
         match r' with
         | Ok _ => (Ok a, s2)
         | Raise e => (Raise e, s2)
         end
     | Raise e => (Raise e, s1)
     end) <> (Raise (ClientAuthenticationError message), s')).
  { intros eo H.
    pose proof (after_expiry_never self request request_time eo
                  {| p_cache := cache; p_content := content |}) as N.
    unfold mbind, ret in N. rewrite H in N. discriminate. }
  unfold compute_expires_on. unfold_m. simpl.
  destruct (Dict.get "expires_on" content) as [v|]; simpl.
  - pose proof (int_not_auth v) as Hi.
    destruct (Py.int v); simpl; [intros H; now apply rest in H|].
    intros [= -> _]. discriminate.
  - destruct (Dict.get "expires_in" content) as [v|]; simpl.
    + pose proof (int_not_auth v) as Hi.
      destruct (Py.int v); simpl; [intros H; now apply rest in H|].
      intros [= -> _]. discriminate.
    + intros [= <- <-]. simpl. split; [reflexivity|].
      unfold failure_message. now rewrite scrub_mem, E.
Qed.




End ProcessFacts.

(* ===================================================================== *)
(** * Facts about the token-cache store *)
(* ===================================================================== *)

Module StoreFacts.
Import TokenCache.

Lemma del_filter V k (tb : list (string * V)) :
  Assoc.del k tb = filter (fun ke => negb (String.eqb k (fst ke))) tb.
Proof.
  induction tb as [|[k' e] r IH]; simpl; [reflexivity|].
  destruct (String.eqb k k'); simpl; congruence.
Qed.

(** Searching the refresh tokens by secret. *)
Lemma search_by_secret c secret :
  search c REFRESH_TOKEN [] [("secret", secret)] = rt_matching c secret.
Proof.
  unfold search, rt_matching. simpl. apply filter_ext. intros e.
  unfold is_matching, is_subdict_of, target_matches, secret_is. simpl.
  destruct (Dict.get "secret" e); simpl; [|reflexivity].
  now rewrite !andb_true_r.
Qed.

Lemma remove_rt_access_tokens l c :
  access_tokens (fold_left remove_rt l c) = access_tokens c.
Proof.
  revert c. induction l as [|e l IH]; intros c; simpl; [reflexivity|].
  now rewrite IH.
Qed.

(** Removing a list of entries removes what is filed under their keys. *)
Lemma remove_rt_all l c :
  refresh_tokens (fold_left remove_rt l c)
  = filter
      (fun ke =>
         negb (existsb
                 (fun e => String.eqb (key_of REFRESH_TOKEN e) (fst ke)) l))
      (refresh_tokens c).
Proof.
  revert c. induction l as [|e l IH]; intros c; simpl.
  - induction (refresh_tokens c) as [|x r IHr]; simpl; congruence.
  - rewrite IH. simpl. rewrite del_filter.
    induction (refresh_tokens c) as [|x r IHr]; simpl; [reflexivity|].
    destruct (String.eqb (key_of REFRESH_TOKEN e) (fst x)); simpl;
      [exact IHr|].
    destruct (existsb _ l); simpl; congruence.
Qed.

(** In a well-formed table, the key of an entry found by a filter is the
    key of a filed item exactly when that item passes the filter. *)
Lemma key_found ct tb (f : dict -> bool) ke :
  table_wf ct tb -> In ke tb ->
  existsb (fun e => String.eqb (key_of ct e) (fst ke))
    (filter f (map snd tb))
  = f (snd ke).
Proof.
  intros [ND Hkeys] Hin.
  rewrite Forall_forall in Hkeys.
  destruct (f (snd ke)) eqn:F.
  - apply existsb_exists. exists (snd ke). split.
    + apply filter_In. split; [now apply in_map|assumption].
    + rewrite <- (Hkeys ke Hin). apply String.eqb_refl.
  - apply not_true_is_false. intros H.
    apply existsb_exists in H. destruct H as (e & He & Hk).
    apply filter_In in He. destruct He as [He Fe].
    apply in_map_iff in He. destruct He as (ke' & <- & Hin').
    apply String.eqb_eq in Hk. rewrite <- (Hkeys ke' Hin') in Hk.
    assert (ke' = ke).
    { clear - ND Hin Hin' Hk. induction tb as [|x r IH]; [contradiction|].
      inversion ND as [|? ? Hx ND']; subst.
      destruct Hin as [->|Hin], Hin' as [->|Hin']; auto.
      - exfalso. apply Hx. rewrite <- Hk. now apply in_map.
      - exfalso. apply Hx. rewrite Hk. now apply in_map. }
    subst ke'. congruence.
Qed.

(** Evicting the entries found for a secret leaves exactly the others. *)
Lemma evict_matching c secret :
  table_wf REFRESH_TOKEN (refresh_tokens c) ->
  refresh_tokens (fold_left remove_rt (rt_matching c secret) c)
  = filter (fun ke => negb (secret_is secret (snd ke))) (refresh_tokens c).
Proof.
  intros W. rewrite remove_rt_all. apply filter_ext_in. intros ke Hin.
  unfold rt_matching. now rewrite (key_found (secret_is secret) ke W Hin).
Qed.

Lemma rt_matching_filter c secret tb :
  refresh_tokens c = filter (fun ke => negb (secret_is secret (snd ke))) tb ->
  rt_matching c secret = [].
Proof.
  unfold rt_matching. intros ->.
  induction tb as [|ke r IH]; simpl; [reflexivity|].
  destruct (secret_is secret (snd ke)) eqn:E; simpl; [exact IH|].
  now rewrite E.
Qed.

(** The fields a key is made of are untouched by an update of the
    secret. *)
Lemma field_set_other k k' v e :
  k <> k' -> field k (Dict.set k' v e) = field k e.
Proof. intros N. unfold field. now rewrite AssocFacts.get_set_other. Qed.

Lemma key_of_updated ct v w e :
  key_of ct (Dict.set "last_modification_time" v (Dict.set "secret" w e))
  = key_of ct e.
Proof.
  unfold key_of. now rewrite !field_set_other by discriminate.
Qed.



End StoreFacts.


(* ===================================================================== *)
(** * What the cache write does to the refresh tokens *)
(* ===================================================================== *)

Section StoreAdd.
Variable canonicalize : string -> string * string.
Variable home_account_id : dict -> value.

Lemma add_refresh_tokens c ev now c' :
  TokenCache.add canonicalize home_account_id c ev now = Ok c' ->
  TokenCache.refresh_tokens c'
  = match TokenCache.refresh_token_entry canonicalize home_account_id ev
            now with
    | Some e =>
        Assoc.set (TokenCache.key_of TokenCache.REFRESH_TOKEN e) e
          (TokenCache.refresh_tokens c)
    | None => TokenCache.refresh_tokens c
    end.
Proof.
  unfold TokenCache.add.
  destruct (TokenCache.access_token_entry _ _ ev now) as [at_entry|];
    [|discriminate].
  cbn [bind]. intros [= <-].
  destruct (TokenCache.refresh_token_entry _ _ ev now);
    destruct at_entry; reflexivity.
Qed.

End StoreAdd.

(* ===================================================================== *)
(** * Response processing: errors and refresh times *)
(* ===================================================================== *)

Section ResponseProcessing.
Context {Pipeline CacheOptions HttpResponse : Type}.
Variable _load_persistent_cache : CacheOptions -> bool -> TokenCache.t.
Variable deserialize_from_http_generics : HttpResponse -> result dict.
Variable canonicalize : string -> string * string.
Variable home_account_id : dict -> value.
Implicit Types (self : AadClient Pipeline CacheOptions)
  (response : PipelineResponse HttpResponse).

Local Abbreviation process_response :=
  (_process_response _load_persistent_cache deserialize_from_http_generics
     canonicalize home_account_id).
Local Abbreviation content_of :=
  (response_content deserialize_from_http_generics).

(** The cache a call works on is the one it leaves selected. *)
Lemma selected_cache_set_cache self kw c :
  selected_cache _load_persistent_cache (set_cache self (enable_cae kw) c) kw
  = c.
Proof.
  unfold selected_cache, _get_cache, set_cache. simpl.
  now destruct (enable_cae kw).
Qed.

Lemma get_cache_client_id self kw :
  _client_id (snd (_get_cache _load_persistent_cache self kw))
  = _client_id self.
Proof.
  unfold _get_cache, _initialize_cache.
  destruct (if enable_cae kw then _cae_cache self else _cache self);
    reflexivity.
Qed.

(** [_process_response] is [process] run on the selected cache and the
    decoded content. *)
Lemma process_response_run self response request_time kw now content :
  content_of response = Ok content ->
  let cache := selected_cache _load_persistent_cache self kw in
  let self1 := snd (_get_cache _load_persistent_cache self kw) in
  let run :=
    process canonicalize home_account_id self1 (http_request response)
      request_time now {| p_cache := cache; p_content := content |} in
  process_response self response request_time kw now
  = {| out_result := fst run;
       out_self := set_cache self1 (enable_cae kw) (p_cache (snd run));
       out_content := p_content (snd run) |}.
Proof.
  intros H. unfold _process_response, selected_cache. rewrite H.
  destruct (_get_cache _ self kw) as [cache self1]. simpl.
  now destruct (process _ _ _ _ _ _ _) as [r s].
Qed.

(** C6. Refresh time of a successful response without [refresh_in]: when
    the lifetime the code computes (the literal [expires_in] if it is
    there and true, else [expires_on - request_time]) is at least 7200
    seconds, [refresh_in] is set to half of it in the content and the
    token's [refresh_on] is [request_time] plus that half, so a literal
    [expires_in] of 7200 gives [request_time + 3600]; when the lifetime
    is shorter nothing is synthesized and [refresh_on] is none. *)
Theorem process_response_refresh_in
    self response request_time kw now content tok lifetime :
  content_of response = Ok content ->
  out_result (process_response self response request_time kw now) = Ok tok ->
  Dict.mem "refresh_in" content = false ->
  computed_expires_in content request_time = Ok lifetime ->
  (7200 <= lifetime ->
   refresh_on tok = Some (request_time + lifetime / 2)
   /\ Dict.get "refresh_in"
        (out_content (process_response self response request_time kw now))
      = Some (VInt (lifetime / 2)))
  /\ (Dict.get "expires_in" content = Some (VInt 7200) ->
      refresh_on tok = Some (request_time + 3600))
  /\ (lifetime < 7200 -> refresh_on tok = None).
Proof.
  intros Hc Hok Hri Hlife.
  rewrite (process_response_run self response request_time kw now Hc) in *.
  cbv zeta in *. simpl in Hok |- *.
  set (self1 := snd (_get_cache _load_persistent_cache self kw)) in *.
  set (s0 := {| p_cache := _; p_content := content |}) in *.
  rewrite process_split in *.
  pose proof (refresh_grant_content (body (http_request response)) now s0)
    as Hcontent.
  destruct (process_refresh_grant _ now s0) as [[[]|e] s1]; simpl in *;
    [|discriminate].
  destruct (process_tail _ _ _ _ _ s1) as [r s2] eqn:Htail.
  simpl in Hok. subst r.
  apply tail_ok in Htail.
  destruct Htail as (_ & eo & ei & scope & _ & Hei & Hs2 & _ & _ & _
                     & Hro & _).
  assert (Hsame : computed_expires_in (p_content s1) request_time
                  = computed_expires_in content request_time
                  /\ Dict.mem "refresh_in" (p_content s1)
                     = Dict.mem "refresh_in" content).
  { destruct Hcontent as [-> | ->]; [auto|].
    unfold computed_expires_in, Dict.get_default.
    rewrite !AssocFacts.get_del_other, AssocFacts.mem_del_other
      by discriminate.
    auto. }
  destruct Hsame as [Hsame Hmem]. rewrite Hsame, Hlife in Hei.
  injection Hei as <-.
  rewrite Hs2 in *. unfold with_refresh_in in *. rewrite Hmem, Hri in *.
  simpl in *.
  assert (long : 7200 <= lifetime ->
            refresh_on tok = Some (request_time + lifetime / 2)
            /\ Dict.get "refresh_in"
                 (if lifetime >=? 7200
                  then Dict.set "refresh_in" (VInt (lifetime / 2))
                         (p_content s1)
                  else p_content s1)
               = Some (VInt (lifetime / 2))).
  { intros Hge. apply Z.geb_le in Hge. rewrite Hge in *.
    rewrite AssocFacts.get_set_same in *. simpl in Hro. auto. }
  split; [rewrite Hs2; exact long|]. split.
  - intros Hlit.
    assert (lifetime = 7200) as ->.
    { revert Hlife. unfold computed_expires_in, Dict.get_default.
      rewrite Hlit. simpl.
      destruct (match Dict.get "expires_on" content with
                | Some e => Py.int e
                | None => Ok (request_time + 7200)
                end); simpl; congruence. }
    destruct long as [Hl _]; [lia|]. rewrite Hl. reflexivity.
  - intros Hlt.
    assert ((lifetime >=? 7200) = false) as Hf.
    { rewrite Z.geb_leb. apply Z.leb_gt. lia. }
    rewrite Hf in Hro.
    unfold Assoc.mem in Hmem.
    destruct (Dict.get "refresh_in" (p_content s1)); [discriminate|].
    exact Hro.
Qed.

(** C7, as amended. With a usable form, [_process_response] fails with a
    [ClientAuthenticationError] exactly when the content has an [error]
    or has neither [expires_on] nor [expires_in]. The error takes the
    place of the result, so no token comes with it. Before the message is
    built [access_token] and [refresh_token] are masked in the content,
    and the message is built from this masked content alone: two responses
    to the same request that agree once masked fail with the same
    message. *)
Theorem process_response_authentication_error
    self response request_time kw now content :
  content_of response = Ok content ->
  form_ok (body (http_request response)) ->
  let out := process_response self response request_time kw now in
  is_auth_error (out_result out)
  = Dict.mem "error" content
    || (negb (Dict.mem "expires_on" content)
        && negb (Dict.mem "expires_in" content))
  /\ (forall message,
        out_result out = Raise (ClientAuthenticationError message) ->
        masked "access_token" (out_content out)
        /\ masked "refresh_token" (out_content out)
        /\ message = failure_message (out_content out))
  /\ (forall response' content' message message',
        http_request response' = http_request response ->
        content_of response' = Ok content' ->
        _scrub_secrets content' = _scrub_secrets content ->
        out_result out = Raise (ClientAuthenticationError message) ->
        out_result (process_response self response' request_time kw now)
        = Raise (ClientAuthenticationError message') ->
        message' = message).
Proof.
  intros Hc W out. subst out.
  rewrite (process_response_run self response request_time kw now Hc).
  cbv zeta. simpl.
  set (self1 := snd (_get_cache _load_persistent_cache self kw)) in *.
  set (cache := selected_cache _load_persistent_cache self kw) in *.
  rewrite process_split.
  pose proof (refresh_grant_ok now {| p_cache := cache; p_content := content |}
                W) as Hok.
  pose proof (refresh_grant_content (body (http_request response)) now
                {| p_cache := cache; p_content := content |}) as Hcontent.
  destruct (process_refresh_grant _ now _) as [r1 s1] eqn:Hstep.
  simpl in Hok, Hcontent. subst r1.
  assert (Hmem : forall k, k <> "refresh_token" ->
                   Dict.mem k (p_content s1) = Dict.mem k content).
  { intros k Hk. destruct Hcontent as [-> | ->]; [reflexivity|].
    now apply AssocFacts.mem_del_other. }
  split; [|split].
  - rewrite tail_auth_error. now rewrite !Hmem by discriminate.
  - intros message Hm.
    destruct (process_tail _ _ _ _ _ s1) as [r s2] eqn:Htail.
    simpl in Hm |- *. subst r.
    apply tail_auth_message in Htail. destruct Htail as [-> ->].
    auto using scrub_masked_access_token, scrub_masked_refresh_token.
  - intros response' content' message message' Hreq Hc' Hscrub Hm Hm'.
    rewrite (process_response_run self response' request_time kw now Hc')
      in Hm'.
    cbv zeta in Hm'. simpl in Hm'. fold self1 cache in Hm'.
    rewrite process_split, Hreq in Hm'.
    assert (He : Dict.get "error" content' = Dict.get "error" content).
    { rewrite <- (scrub_get_other (k := "error") content'),
        <- (scrub_get_other (k := "error") content) by discriminate.
      now rewrite Hscrub. }
    assert (Hr : Dict.mem "refresh_token" content'
                 = Dict.mem "refresh_token" content).
    { rewrite <- (scrub_mem "refresh_token" content'),
        <- (scrub_mem "refresh_token" content).
      now rewrite Hscrub. }
    pose proof (@refresh_grant_content_agree
                  (body (http_request response)) now cache content content'
                  He Hr) as Hagree.
    rewrite Hstep in Hagree. simpl in Hagree.
    pose proof (refresh_grant_ok now
                  {| p_cache := cache; p_content := content' |} W) as Hok'.
    destruct (process_refresh_grant _ now
                {| p_cache := cache; p_content := content' |})
      as [r1' s1'].
    simpl in Hok'. subst r1'.
    destruct (process_tail _ _ _ _ _ s1) as [r s2] eqn:Htail.
    destruct (process_tail _ _ _ _ _ s1') as [r' s2'] eqn:Htail'.
    simpl in Hm, Hm', Hagree. subst r r'.
    apply tail_auth_message in Htail, Htail'.
    destruct Htail as [_ ->], Htail' as [_ ->].
    destruct Hagree as [[-> ->] | [-> ->]].
    + now rewrite Hscrub.
    + now rewrite !scrub_del_refresh_token, Hscrub.
Qed.

(** C2, as amended. On a cache whose refresh-token entries are each
    filed under their own key, a response to a refresh-token grant that
    reports [invalid_grant] evicts every refresh-token entry whose secret
    equals the request's refresh token: the selected cache keeps exactly
    the other refresh-token entries, so no entry with that secret is left
    and every entry that had it is gone; the call then fails with the
    authentication error. *)
Theorem process_response_invalid_grant
    self response request_time kw now content old :
  content_of response = Ok content ->
  is_refresh_grant (body (http_request response)) = true ->
  Dict.get "refresh_token" (body (http_request response)) = Some old ->
  reports_invalid_grant content = true ->
  let cache := selected_cache _load_persistent_cache self kw in
  TokenCache.table_wf TokenCache.REFRESH_TOKEN
    (TokenCache.refresh_tokens cache) ->
  let out := process_response self response request_time kw now in
  let cache' := selected_cache _load_persistent_cache (out_self out) kw in
  TokenCache.refresh_tokens cache'
  = filter (fun ke => negb (secret_is old (snd ke)))
      (TokenCache.refresh_tokens cache)
  /\ rt_matching cache' old = []
  /\ (forall entry,
        In entry (rt_matching cache old) ->
        ~ In entry (map snd (TokenCache.refresh_tokens cache')))
  /\ TokenCache.access_tokens cache' = TokenCache.access_tokens cache
  /\ is_auth_error (out_result out) = true.
Proof.
  intros Hc G F Hinv cache W out cache'. subst out cache'.
  rewrite (process_response_run self response request_time kw now Hc).
  cbv zeta. simpl. rewrite selected_cache_set_cache. fold cache.
  set (self1 := snd (_get_cache _load_persistent_cache self kw)).
  rewrite process_split.
  rewrite (refresh_grant_run (body (http_request response)) now _ G F).
  cbv zeta. simpl.
  set (c1 := evicted cache content old).
  assert (Hrt : TokenCache.refresh_tokens c1
                = filter (fun ke => negb (secret_is old (snd ke)))
                    (TokenCache.refresh_tokens cache)).
  { subst c1. unfold evicted. rewrite Hinv, StoreFacts.search_by_secret.
    now apply StoreFacts.evict_matching. }
  assert (Hat : TokenCache.access_tokens c1 = TokenCache.access_tokens cache).
  { subst c1. unfold evicted. rewrite Hinv.
    apply StoreFacts.remove_rt_access_tokens. }
  assert (Hnone : rt_matching c1 old = []).
  { eapply StoreFacts.rt_matching_filter. exact Hrt. }
  rewrite StoreFacts.search_by_secret, Hnone.
  assert (Hstate :
    match Dict.get "refresh_token" content with
    | Some _ | _ => (Ok tt, {| p_cache := c1; p_content := content |})
    end = (Ok tt, {| p_cache := c1; p_content := content |})).
  { now destruct (Dict.get "refresh_token" content). }
  rewrite Hstate. clear Hstate.
  assert (Herr : Dict.mem "error" content = true).
  { revert Hinv. unfold reports_invalid_grant, Dict.get_default, Assoc.mem.
    now destruct (Dict.get "error" content). }
  pose proof (tail_auth_error canonicalize home_account_id self1
                (http_request response) request_time
                {| p_cache := c1; p_content := content |}) as Hauth.
  simpl in Hauth. rewrite Herr in Hauth. simpl in Hauth.
  destruct (process_tail _ _ _ _ _ _) as [[tok|e] s2] eqn:Htail;
    [discriminate|].
  apply tail_raise_cache in Htail. simpl in Htail |- *. rewrite Htail.
  repeat split; auto.
  intros entry Hin Hin'. rewrite Hrt in Hin'.
  unfold rt_matching in Hin. apply filter_In in Hin. destruct Hin as [_ Hs].
  apply in_map_iff in Hin'. destruct Hin' as (ke & <- & Hke).
  apply filter_In in Hke. destruct Hke as [_ Hke].
  now rewrite Hs in Hke.
Qed.


End ResponseProcessing.


(* ===================================================================== *)
(** * Well-formedness of the cache is an invariant *)
(* ===================================================================== *)

Unset Implicit Arguments.

Module StoreInvariant.
Import TokenCache.

Lemma keys_del V k (tb : list (string * V)) x :
  In x (map fst (Assoc.del k tb)) -> In x (map fst tb).
Proof.
  induction tb as [|[k' e] r IH]; cbn; [auto|].
  destruct (String.eqb k k'); cbn; intuition.
Qed.

Lemma table_wf_del ct k tb : table_wf ct tb -> table_wf ct (Assoc.del k tb).
Proof.
  intros [ND K]. induction tb as [|[k' e] r IH]; cbn; [now split|].
  inversion ND as [|? ? Hx ND']; subst. inversion K as [|? ? Hk K']; subst.
  destruct (IH ND' K') as [ND1 K1].
  destruct (String.eqb k k'); [now split|]. split.
  - cbn. constructor; [|exact ND1]. intros H. apply Hx.
    now apply keys_del in H.
  - now constructor.
Qed.

Lemma keys_set_in V k (v : V) tb x :
  In x (map fst (Assoc.set k v tb)) -> x = k \/ In x (map fst tb).
Proof.
  induction tb as [|[k' e] r IH]; cbn; [intuition|].
  destruct (String.eqb k k') eqn:E; cbn.
  - apply String.eqb_eq in E. subst. intuition.
  - intuition.
Qed.

Lemma table_wf_set_at ct k e tb :
  k = key_of ct e -> table_wf ct tb -> table_wf ct (Assoc.set k e tb).
Proof.
  intros Hk [ND K]. induction tb as [|[k' e'] r IH]; cbn.
  - split; repeat constructor; [intros []|exact Hk].
  - inversion ND as [|? ? Hx ND']; subst k.
    inversion K as [|? ? Hk' K']; subst.
    destruct (IH ND' K') as [ND1 K1].
    destruct (String.eqb (key_of ct e) k') eqn:E.
    + apply String.eqb_eq in E. subst k'. split.
      * cbn. now constructor.
      * now constructor.
    + split.
      * cbn. constructor; [|exact ND1]. intros H.
        apply keys_set_in in H as [H|H]; [|now apply Hx].
        subst k'. now rewrite String.eqb_refl in E.
      * now constructor.
Qed.

Lemma table_wf_set ct e tb :
  table_wf ct tb -> table_wf ct (Assoc.set (key_of ct e) e tb).
Proof. now apply table_wf_set_at. Qed.

(** The empty cache is well-formed. *)
Lemma empty_wf : wf empty.
Proof. split; split; constructor. Qed.

Lemma remove_rt_wf c e : wf c -> wf (remove_rt c e).
Proof.
  intros [A R]. split; [exact A|].
  unfold remove_rt. cbn [refresh_tokens with_entries].
  now apply table_wf_del.
Qed.

Lemma remove_all_wf l : forall c, wf c -> wf (fold_left remove_rt l c).
Proof.
  induction l as [|e l IH]; intros c W; cbn; [exact W|].
  apply IH. now apply remove_rt_wf.
Qed.

Lemma update_rt_wf c e v now : wf c -> wf (update_rt c e v now).
Proof.
  intros [A R]. split; [exact A|].
  unfold update_rt. cbn [refresh_tokens with_entries].
  apply table_wf_set_at; [|exact R].
  symmetry. apply StoreFacts.key_of_updated.
Qed.

Section Add.
Variable canonicalize : string -> string * string.
Variable home_account_id : dict -> value.

(** Filing the tokens of a response keeps the cache well-formed. *)
Lemma add_wf c ev now c' :
  wf c -> add canonicalize home_account_id c ev now = Ok c' -> wf c'.
Proof.
  intros [A R]. unfold add.
  destruct (access_token_entry canonicalize home_account_id ev now)
    as [at_entry|]; [|discriminate].
  cbn [bind]. intros [= <-].
  assert (W1 : wf match at_entry with
                  | Some e =>
                      with_entries ACCESS_TOKEN
                        (Assoc.set (key_of ACCESS_TOKEN e) e
                           (access_tokens c)) c
                  | None => c
                  end).
  { destruct at_entry as [e|]; [|now split].
    split; [|exact R]. cbn [access_tokens with_entries].
    now apply table_wf_set. }
  destruct (refresh_token_entry canonicalize home_account_id ev now)
    as [e|]; [|exact W1].
  destruct W1 as [A1 R1]. split.
  - destruct at_entry; exact A1.
  - cbn [refresh_tokens with_entries]. now apply table_wf_set.
Qed.

End Add.

End StoreInvariant.

Section ProcessInvariant.
Context {Pipeline CacheOptions HttpResponse : Type}.
Variable _load_persistent_cache : CacheOptions -> bool -> TokenCache.t.
Variable deserialize_from_http_generics : HttpResponse -> result dict.
Variable canonicalize : string -> string * string.
Variable home_account_id : dict -> value.
Implicit Types (self : AadClient Pipeline CacheOptions)
  (response : PipelineResponse HttpResponse).

Lemma refresh_grant_wf form now s :
  TokenCache.wf (p_cache s) ->
  TokenCache.wf (p_cache (snd (process_refresh_grant form now s))).
Proof.
  intros W. destruct (is_refresh_grant form) eqn:G.
  - destruct (Dict.get "refresh_token" form) as [old|] eqn:F.
    + rewrite (@refresh_grant_run form now s old G F). cbv zeta.
      assert (E : TokenCache.wf (evicted (p_cache s) (p_content s) old)).
      { unfold evicted. destruct (reports_invalid_grant _); [|exact W].
        now apply StoreInvariant.remove_all_wf. }
      destruct (Dict.get "refresh_token" (p_content s)); [|exact E].
      destruct (TokenCache.search _ _ _ _) as [|e [|e' l]]; try exact E.
      now apply StoreInvariant.update_rt_wf.
    + destruct (@refresh_grant_key_error form now s F) as [-> | ->];
        exact W.
  - now rewrite refresh_grant_other_grant.
Qed.

(** Well-formedness is an invariant of the cache a client works on: a
    cache the client makes for itself without persistence options starts
    empty, hence well-formed, and [_process_response] takes a well-formed
    cache to a well-formed cache, whatever the response and whether the
    call returns or raises. *)
Lemma process_response_wf self response request_time kw now :
  TokenCache.wf (selected_cache _load_persistent_cache self kw) ->
  TokenCache.wf
    (selected_cache _load_persistent_cache
       (out_self
          (_process_response _load_persistent_cache
             deserialize_from_http_generics canonicalize home_account_id
             self response request_time kw now))
       kw).
Proof.
  intros W.
  destruct (response_content deserialize_from_http_generics response)
    as [content|x] eqn:Hc.
  - rewrite (process_response_run _ _ _ _ _ _ _ _ _ Hc).
    cbv zeta. cbn [out_self]. rewrite selected_cache_set_cache.
    set (self1 := snd (_get_cache _load_persistent_cache self kw)).
    set (cache := selected_cache _load_persistent_cache self kw) in *.
    rewrite process_split.
    pose proof (refresh_grant_wf (body (http_request response)) now
                  {| p_cache := cache; p_content := content |} W) as W1.
    destruct (process_refresh_grant (body (http_request response)) now
                {| p_cache := cache; p_content := content |})
      as [[[]|x] s1]; cbn [fst snd] in *; [|exact W1].
    destruct (process_tail canonicalize home_account_id self1
                (http_request response) request_time s1)
      as [[tok|x] s'] eqn:Htail; cbn [snd].
    + apply tail_ok in Htail
        as (_ & eo & ei & scope & _ & _ & _ & _ & _ & _ & _ & _ & Hadd).
      exact (StoreInvariant.add_wf canonicalize home_account_id _ _ _ _
               W1 Hadd).
    + apply tail_raise_cache in Htail. now rewrite Htail.
  - unfold _process_response. rewrite Hc. exact W.
Qed.

Lemma fresh_cache_wf self kw :
  (if enable_cae kw then _cae_cache self else _cache self) = None ->
  _cache_options self = None ->
  TokenCache.wf (selected_cache _load_persistent_cache self kw).
Proof.
  intros H O. unfold selected_cache, _get_cache, _initialize_cache.
  rewrite H, O. apply StoreInvariant.empty_wf.
Qed.

End ProcessInvariant.

Set Implicit Arguments.

(* ===================================================================== *)
(** * Pickling *)
(* ===================================================================== *)

Section Pickling.
Context {Pipeline CacheOptions : Type}.
Variable normalize_authority : string -> result string.
Variable get_default_authority : string.
Variable _build_pipeline : option CacheOptions -> Pipeline.
Implicit Types (self : AadClient Pipeline CacheOptions).

Lemma init_custom_cache
    tenant client authority cache cae_cache allowed options self :
  __init__ normalize_authority get_default_authority _build_pipeline
    tenant client authority cache cae_cache allowed options = Ok self ->
  _custom_cache self = is_some cache || is_some cae_cache.
Proof.
  unfold __init__.
  destruct (match authority with
            | Some a => if String.eqb a "" then Ok get_default_authority
                        else normalize_authority a
            | None => Ok get_default_authority
            end); simpl; [|discriminate].
  now intros [= <-].
Qed.

Lemma client_of_dict self : client_of_attrs (__dict__ self) = Some self.
Proof. now destruct self. Qed.

(** The two pickling methods in terms of the flag [__init__] sets.  Let
    a client be constructed with the caches [cache] and [cae_cache], and
    let it hold [c1] and [c2] when it is pickled. The snapshot lists the
    two cache attributes exactly when the flag is set, that is when the
    caller supplied at least one cache; every other attribute is in it
    unchanged. With the flag set the snapshot is the whole attribute
    dictionary, both caches included as they are, and restoring gives the
    client back. With the flag unset restoring gives the client with both
    caches unset. *)
Theorem getstate_setstate
    tenant client authority cache cae_cache allowed options self0 c1 c2 :
  __init__ normalize_authority get_default_authority _build_pipeline
    tenant client authority cache cae_cache allowed options = Ok self0 ->
  let supplied := is_some cache || is_some cae_cache in
  let self := with_caches self0 c1 c2 in
  let state := __getstate__ self in
  Assoc.mem "_cache" state = supplied
  /\ Assoc.mem "_cae_cache" state = supplied
  /\ (forall k, k <> "_cache" -> k <> "_cae_cache" ->
        Assoc.get k state = Assoc.get k (__dict__ self))
  /\ (supplied = true ->
      state = __dict__ self
      /\ Assoc.get "_cache" state = Some (ACache Pipeline CacheOptions c1)
      /\ Assoc.get "_cae_cache" state = Some (ACache Pipeline CacheOptions c2)
      /\ exists d, __setstate__ [] state = Ok d
                   /\ client_of_attrs d = Some self)
  /\ (supplied = false ->
      exists d, __setstate__ [] state = Ok d
                /\ client_of_attrs d = Some (with_caches self0 None None)).
Proof.
  intros Hinit supplied self state.
  apply init_custom_cache in Hinit. fold supplied in Hinit.
  assert (Hflag : _custom_cache self = supplied) by exact Hinit.
  subst state. unfold __getstate__. rewrite Hflag.
  destruct supplied; simpl negb; cbv iota.
  - repeat split; try reflexivity; try discriminate.
    exists (__dict__ self). split.
    + unfold __setstate__, __dict__. simpl. now rewrite Hinit.
    + apply client_of_dict.
  - split; [reflexivity|]. split; [reflexivity|]. split.
    + intros k N1 N2.
      now rewrite !AssocFacts.get_del_other by assumption.
    + split; [discriminate|]. intros _.
      eexists. split.
      * unfold __setstate__. simpl. rewrite Hinit. simpl. reflexivity.
      * simpl. unfold with_caches. now rewrite Hinit.
Qed.

Section MixedOwnership.
Variable _load_persistent_cache : CacheOptions -> bool -> TokenCache.t.

(** C8. The claim fails on a client whose caches are of mixed ownership.
    Let the caller supply one cache and leave the other to the client,
    and let a call of the other kind make [_get_cache] create it.  The
    flag was set once, by [__init__], for the client as a whole: the
    snapshot then holds the cache the client created for itself beside
    the one the caller supplied, and restoring gives that cache back as
    it was instead of leaving it unset. *)
Theorem getstate_mixed_ownership
    tenant client authority c allowed options kw self0 :
  let cae := enable_cae kw in
  __init__ normalize_authority get_default_authority _build_pipeline
    tenant client authority
    (if cae then Some c else None) (if cae then None else Some c)
    allowed options = Ok self0 ->
  let created := fst (_get_cache _load_persistent_cache self0 kw) in
  let self := snd (_get_cache _load_persistent_cache self0 kw) in
  let state := __getstate__ self in
  let own := if cae then "_cae_cache" else "_cache" in
  (if cae then _cae_cache self0 else _cache self0) = None
  /\ created
     = match options with
       | Some o => _load_persistent_cache o cae
       | None => TokenCache.empty
       end
  /\ (if cae then _cae_cache self else _cache self) = Some created
  /\ Assoc.get own state = Some (ACache Pipeline CacheOptions (Some created))
  /\ exists d,
       __setstate__ [] state = Ok d
       /\ Assoc.get own d = Some (ACache Pipeline CacheOptions (Some created))
       /\ client_of_attrs d = Some self.
Proof.
  intros cae Hinit created self state own. subst created self state own.
  unfold __init__ in Hinit.
  destruct (match authority with
            | Some a => if String.eqb a "" then Ok get_default_authority
                        else normalize_authority a
            | None => Ok get_default_authority
            end) as [a|]; simpl in Hinit; [|discriminate].
  injection Hinit as <-.
  unfold _get_cache, _initialize_cache, __getstate__, __setstate__, set_cache.
  fold cae. destruct cae; simpl;
    (destruct options as [o|]; simpl;
     repeat split; try reflexivity;
     eexists; (split; [reflexivity|]); split; reflexivity).
Qed.

End MixedOwnership.

End Pickling.

(* ===================================================================== *)
(** * The decoder inverts [json.dumps] *)
(* ===================================================================== *)

Unset Implicit Arguments.

Lemma digits_p_stop acc len rest :
  no_digit_ahead rest -> Json.digits_p acc len rest = (acc, len, rest).
Proof.
  destruct rest as [|c r]; simpl; [reflexivity|]. now intros ->.
Qed.

Lemma digits_p_uint d : forall acc len rest,
  no_digit_ahead rest ->
  Json.digits_p acc len (NilEmpty.string_of_uint d ++ rest)
  = (horner acc d, (len + Decimal.nb_digits d)%nat, rest).
Proof.
  induction d; intros acc len rest Hr; simpl;
    try (rewrite IHd by assumption; f_equal; f_equal; lia).
  rewrite digits_p_stop by assumption. f_equal. f_equal. lia.
Qed.

Lemma horner_pos d : forall p,
  horner (Zpos p) d = Zpos (Pos.of_uint_acc d p).
Proof.
  induction d; intros p; cbn [horner Pos.of_uint_acc]; try reflexivity;
    match goal with
    | |- horner ?a d = _ =>
        match goal with
        | |- _ = Zpos (Pos.of_uint_acc d ?q) =>
            replace a with (Zpos q) by lia; apply IHd
        end
    end.
Qed.

Lemma horner_0 d : horner 0 d = Z.of_N (Pos.of_uint d).
Proof.
  induction d; simpl; try reflexivity; try exact IHd;
    apply (horner_pos d).
Qed.

Lemma horner_to_uint p : horner 0 (Pos.to_uint p) = Zpos p.
Proof. now rewrite horner_0, DecimalPos.Unsigned.of_to. Qed.

Lemma nzhead_head d :
  match Decimal.nzhead d with Decimal.D0 _ => False | _ => True end.
Proof. induction d; simpl; auto. Qed.

Lemma to_uint_head p :
  match Pos.to_uint p with
  | Decimal.D0 _ | Decimal.Nil => False
  | _ => True
  end.
Proof.
  pose proof (DecimalPos.Unsigned.to_of (Pos.to_uint p)) as H.
  rewrite DecimalPos.Unsigned.of_to in H. simpl in H.
  pose proof (Unsigned.to_uint_nonzero p) as Hz.
  pose proof (nzhead_head (Pos.to_uint p)) as Hh.
  unfold Decimal.unorm in H.
  destruct (Decimal.nzhead (Pos.to_uint p)); rewrite H in *; auto.
Qed.

Lemma nb_digits_pos d : d <> Decimal.Nil -> (0 < Decimal.nb_digits d)%nat.
Proof. destruct d; simpl; try lia. congruence. Qed.

Lemma unsigned_p_pos p rest :
  int_follow rest ->
  Json.unsigned_p (NilEmpty.string_of_uint (Pos.to_uint p) ++ rest)
  = Some (Zpos p, rest).
Proof.
  intros [Hd Hf]. unfold Json.unsigned_p.
  rewrite digits_p_uint by assumption. rewrite horner_to_uint. simpl.
  pose proof (to_uint_head p) as Hh.
  destruct (Pos.to_uint p) eqn:E; try contradiction; simpl;
    rewrite Hf; reflexivity.
Qed.

Lemma number_p_str_of_int n rest :
  int_follow rest ->
  Json.number_p (Py.str_of_int n ++ rest) = Some (n, rest).
Proof.
  intros Hr. unfold Py.str_of_int.
  destruct n as [|p|p]; simpl.
  - unfold Json.number_p, Json.unsigned_p. simpl.
    destruct Hr as [Hd Hf]. rewrite digits_p_stop by assumption.
    now rewrite Hf.
  - pose proof (unsigned_p_pos p rest Hr) as H.
    pose proof (to_uint_head p) as Hh.
    unfold NilZero.string_of_uint.
    destruct (Pos.to_uint p) eqn:E; try contradiction;
      unfold Json.number_p; simpl in *; rewrite H; reflexivity.
  - pose proof (unsigned_p_pos p rest Hr) as H.
    pose proof (to_uint_head p) as Hh.
    unfold NilZero.string_of_uint.
    destruct (Pos.to_uint p) eqn:E; try contradiction;
      unfold Json.number_p; simpl in *; rewrite H; reflexivity.
Qed.

Lemma size_list l : Json.size (VList l) = S (size_elements l).
Proof. reflexivity. Qed.

Lemma size_dict d : Json.size (VDict d) = S (size_members d).
Proof. reflexivity. Qed.

Lemma wf_list l : Json.value_wf (VList l) <-> Forall Json.value_wf l.
Proof.
  simpl. induction l as [|x l IH].
  - split; auto.
  - rewrite IH. split.
    + intros [Hx Hl]. now constructor.
    + intros H. inversion H. auto.
Qed.

Lemma wf_dict d :
  Json.value_wf (VDict d)
  <-> NoDup (map fst d) /\ Forall (fun kv => Json.value_wf (snd kv)) d.
Proof.
  simpl. apply and_iff_compat_l. induction d as [|x d IH].
  - split; auto.
  - rewrite IH. split.
    + intros [Hx Hl]. now constructor.
    + intros H. inversion H. auto.
Qed.

Lemma append_assoc (a b c : string) : (a ++ b) ++ c = a ++ (b ++ c).
Proof. induction a; simpl; congruence. Qed.

Lemma string_p_escape_char c r :
  Json.string_p (Json.escape_char c ++ r) = Json.cons_char c (Json.string_p r).
Proof. destruct c as [[] [] [] [] [] [] [] []]; reflexivity. Qed.

Lemma string_p_escape s rest :
  Json.string_p (Json.escape s ++ String Py.dquote rest) = Some (s, rest).
Proof.
  induction s as [|c s IH]; simpl.
  - reflexivity.
  - rewrite append_assoc, string_p_escape_char, IH. reflexivity.
Qed.

Lemma str_of_int_start n tail :
  match Py.str_of_int n ++ tail with
  | String c _ =>
      In c ["-"; "0"; "1"; "2"; "3"; "4"; "5"; "6"; "7"; "8"; "9"]%char
  | EmptyString => False
  end.
Proof.
  unfold Py.str_of_int. destruct n as [|p|p]; simpl; auto.
  pose proof (to_uint_head p) as Hh. unfold NilZero.string_of_uint.
  destruct (Pos.to_uint p); try contradiction; simpl; auto 12.
Qed.

Lemma dumps_start v tail : starts_value (Json.dumps v ++ tail).
Proof.
  destruct v as [| [] | n | s | l | d]; try reflexivity.
  pose proof (str_of_int_start n tail) as H. simpl. unfold starts_value.
  destruct (Py.str_of_int n ++ tail) as [|c r]; [contradiction|].
  simpl in H. repeat (destruct H as [<-|H]; [reflexivity|]). contradiction.
Qed.

Lemma skip_ws_start s : starts_value s -> Json.skip_ws s = s.
Proof.
  destruct s as [|c r]; simpl; [contradiction|].
  unfold value_start. destruct (Json.is_ws c); simpl; [discriminate|auto].
Qed.

Lemma head_is_start c s :
  starts_value s -> In c ["]"; "}"; ","]%char -> Json.head_is c s = false.
Proof.
  destruct s as [|c' r]; simpl; [contradiction|].
  unfold value_start. intros H [<-|[<-|[<-|[]]]];
    destruct (Ascii.eqb c' "]"), (Ascii.eqb c' "}"), (Ascii.eqb c' ",");
    rewrite ?andb_false_r in H; simpl in H; try discriminate; reflexivity.
Qed.

Lemma delimited_skip rest : Json.delimited rest -> Json.skip_ws rest = rest.
Proof.
  intros [->|H]; [reflexivity|].
  destruct rest as [|c r]; [reflexivity|]. simpl in *.
  destruct H as [H|[H|H]]; apply Ascii.eqb_eq in H; subst c; reflexivity.
Qed.

Lemma delimited_int_follow rest : Json.delimited rest -> int_follow rest.
Proof.
  intros [->|H]; [split; reflexivity|].
  destruct rest as [|c r]; [split; reflexivity|]. simpl in *.
  destruct H as [H|[H|H]]; apply Ascii.eqb_eq in H; subst c;
    split; reflexivity.
Qed.

Lemma value_p_space fuel s :
  Json.value_p fuel (String " " s) = Json.value_p fuel s.
Proof. destruct fuel; reflexivity. Qed.

Lemma elements_p_space fuel s :
  Json.elements_p fuel (String " " s) = Json.elements_p fuel s.
Proof. destruct fuel; simpl; [reflexivity|]. now rewrite value_p_space. Qed.

Lemma members_p_space fuel s :
  Json.members_p fuel (String " " s) = Json.members_p fuel s.
Proof. destruct fuel; reflexivity. Qed.

Lemma value_p_int fuel n rest :
  Json.delimited rest ->
  Json.value_p (S fuel) (Py.str_of_int n ++ rest) = Some (VInt n, rest).
Proof.
  intros Hr.
  pose proof (number_p_str_of_int n rest (delimited_int_follow rest Hr)) as Hn.
  pose proof (str_of_int_start n rest) as Hs.
  destruct (Py.str_of_int n ++ rest) as [|c r]; [contradiction|].
  simpl in Hs.
  repeat (destruct Hs as [<-|Hs];
          [cbn -[Json.number_p]; rewrite Hn; reflexivity|]).
  contradiction.
Qed.

Lemma elements_p_dumps l :
  Forall reads l -> Forall Json.value_wf l -> l <> [] ->
  forall fuel rest,
    (size_elements l <= fuel)%nat ->
    Json.elements_p fuel
      (Py.join ", " (map Json.dumps l) ++ String "]" rest)
    = Some (l, rest).
Proof.
  induction l as [|x l IH]; [congruence|].
  intros Hreads Hwf _ fuel rest Hfuel.
  inversion Hreads as [|? ? Hx Hl]; subst.
  inversion Hwf as [|? ? Wx Wl]; subst.
  destruct fuel as [|fuel]; [simpl in Hfuel; lia|].
  simpl in Hfuel.
  destruct l as [|y l].
  - simpl. rewrite (Hx Wx) by (try lia; right; right; left; reflexivity).
    reflexivity.
  - change (Py.join ", " (map Json.dumps (x :: y :: l)))
      with (Json.dumps x ++ ", " ++ Py.join ", " (map Json.dumps (y :: l))).
    rewrite !append_assoc.
    cbn [Json.elements_p].
    rewrite (Hx Wx) by (try lia; right; left; reflexivity).
    cbn -[Json.elements_p Py.join map]. rewrite elements_p_space.
    rewrite IH; auto; [congruence|].
    change (size_elements (x :: y :: l))
      with (S (Json.size x + size_elements (y :: l))) in Hfuel. lia.
Qed.

Lemma members_p_dumps d :
  Forall (fun kv => reads (snd kv)) d ->
  Forall (fun kv => Json.value_wf (snd kv)) d -> d <> [] ->
  forall fuel rest,
    (size_members d <= fuel)%nat ->
    Json.members_p fuel
      (Py.join ", "
         (map (fun kv => Json.dumps_str (fst kv) ++ ": " ++ Json.dumps (snd kv))
            d)
       ++ String "}" rest)
    = Some (d, rest).
Proof.
  induction d as [|[k x] d IH]; [congruence|].
  intros Hreads Hwf _ fuel rest Hfuel.
  inversion Hreads as [|? ? Hx Hl]; subst.
  inversion Hwf as [|? ? Wx Wl]; subst. simpl in Hx, Wx.
  destruct fuel as [|fuel]; [simpl in Hfuel; lia|].
  destruct d as [|[k' y] d].
  - simpl in Hfuel |- *. unfold Json.dumps_str.
    cbn [append Json.skip_ws Json.is_ws Json.head_is Json.behead].
    rewrite !append_assoc. cbn [append].
    change (Json.skip_ws (String Py.dquote ?s)) with (String Py.dquote s).
    cbn [Json.head_is Json.behead].
    replace (Ascii.eqb Py.dquote Py.dquote) with true by reflexivity.
    rewrite string_p_escape.
    cbn -[Json.value_p]. rewrite value_p_space.
    rewrite (Hx Wx) by (try lia; right; right; right; reflexivity).
    reflexivity.
  - change (Py.join ", " (map ?f ((k, x) :: (k', y) :: d)))
      with (f (k, x) ++ ", " ++ Py.join ", " (map f ((k', y) :: d))).
    change (size_members ((k, x) :: (k', y) :: d))
      with (S (Json.size x + size_members ((k', y) :: d))) in Hfuel.
    cbn [fst snd]. unfold Json.dumps_str at 1.
    rewrite !append_assoc. cbn [append]. rewrite !append_assoc.
    cbn [append Json.members_p].
    change (Json.skip_ws (String Py.dquote ?s)) with (String Py.dquote s).
    cbn [Json.head_is Json.behead].
    replace (Ascii.eqb Py.dquote Py.dquote) with true by reflexivity.
    rewrite string_p_escape.
    cbn -[Json.value_p Json.members_p Py.join map]. rewrite value_p_space.
    rewrite (Hx Wx) by (try lia; right; left; reflexivity).
    cbn -[Json.members_p Py.join map]. rewrite members_p_space.
    rewrite IH; auto; [congruence|lia].
Qed.

Lemma dict_of_members_nodup (d : dict) :
  NoDup (map fst d) -> Json.dict_of_members d = d.
Proof.
  unfold Json.dict_of_members.
  assert (G : forall acc,
             NoDup (map fst (acc ++ d)%list) ->
             fold_left (fun acc kv => Dict.set (fst kv) (snd kv) acc) d acc
             = (acc ++ d)%list).
  { induction d as [|[k v] d IH]; intros acc ND; simpl.
    - now rewrite List.app_nil_r.
    - rewrite AssocFacts.set_absent.
      + rewrite IH; rewrite <- List.app_assoc; [reflexivity|exact ND].
      + apply AssocFacts.get_None_keys. unfold Assoc.keys.
        rewrite map_app in ND. simpl in ND.
        apply NoDup_remove_2 in ND. intros H. apply ND.
        apply in_or_app. now left. }
  intros ND. apply (G []). exact ND.
Qed.

Theorem value_p_dumps v : reads v.
Proof.
  induction v as [| b | n | s | l IH | d IH] using value_ind;
    intros W fuel rest Hfuel Hrest;
    (destruct fuel as [|fuel]; [simpl in Hfuel; lia|]).
  - reflexivity.
  - destruct b; reflexivity.
  - now apply value_p_int.
  - simpl. unfold Json.dumps_str. cbn [append]. rewrite append_assoc.
    cbn [append].
    change (Json.skip_ws (String Py.dquote ?s)) with (String Py.dquote s).
    cbn [Json.head_is Json.behead].
    replace (Ascii.eqb Py.dquote "{") with false by reflexivity.
    replace (Ascii.eqb Py.dquote "[") with false by reflexivity.
    replace (Ascii.eqb Py.dquote Py.dquote) with true by reflexivity.
    now rewrite string_p_escape.
  - rewrite size_list in Hfuel. apply wf_list in W.
    cbn [Json.dumps]. rewrite !append_assoc.
    destruct l as [|x l].
    + reflexivity.
    + remember (Py.join ", " (map Json.dumps (x :: l)) ++ "]" ++ rest)
        as text eqn:Etext.
      assert (Hs : starts_value text).
      { subst text. destruct l as [|y l].
        - apply dumps_start.
        - change (Py.join ", " (map Json.dumps (x :: y :: l)))
            with (Json.dumps x ++ ", "
                  ++ Py.join ", " (map Json.dumps (y :: l))).
          rewrite append_assoc. apply dumps_start. }
      change ("[" ++ text) with (String "[" text).
      cbn [Json.value_p].
      change (Json.skip_ws (String "[" text)) with (String "[" text).
      cbn [Json.head_is Json.behead].
      replace (Ascii.eqb "[" "{") with false by reflexivity.
      replace (Ascii.eqb "[" "[") with true by reflexivity.
      cbv iota.
      rewrite (skip_ws_start _ Hs), (head_is_start "]" _ Hs)
        by (simpl; auto).
      subst text. change ("]" ++ rest) with (String "]" rest).
      rewrite elements_p_dumps; auto; [congruence|lia].
  - rewrite size_dict in Hfuel. apply wf_dict in W. destruct W as [ND W].
    cbn [Json.dumps]. rewrite !append_assoc.
    destruct d as [|[k x] d].
    + reflexivity.
    + remember (Py.join ", "
                  (map (fun kv : string * value =>
                          Json.dumps_str (fst kv) ++ ": "
                          ++ Json.dumps (snd kv)) ((k, x) :: d))
                ++ "}" ++ rest) as text eqn:Etext.
      assert (Hs : starts_value text).
      { subst text. destruct d; reflexivity. }
      change ("{" ++ text) with (String "{" text).
      cbn [Json.value_p].
      change (Json.skip_ws (String "{" text)) with (String "{" text).
      cbn [Json.head_is Json.behead].
      replace (Ascii.eqb "{" "{") with true by reflexivity.
      cbv iota.
      rewrite (skip_ws_start _ Hs), (head_is_start "}" _ Hs)
        by (simpl; auto).
      subst text. change ("}" ++ rest) with (String "}" rest).
      rewrite members_p_dumps; auto; [|congruence|lia].
      now rewrite dict_of_members_nodup.
Qed.

Lemma length_append (a b : string) :
  String.length (a ++ b) = (String.length a + String.length b)%nat.
Proof. induction a; simpl; congruence. Qed.

Lemma str_of_int_length n : (1 <= String.length (Py.str_of_int n))%nat.
Proof.
  pose proof (str_of_int_start n "") as H.
  destruct (Py.str_of_int n ++ "") eqn:E; [contradiction|].
  assert (L : String.length (Py.str_of_int n ++ "")
              = String.length (Py.str_of_int n))
    by (rewrite length_append; simpl; lia).
  rewrite <- L, E. simpl. lia.
Qed.

Lemma join_length_elements l :
  Forall (fun v => (Json.size v <= String.length (Json.dumps v))%nat) l ->
  (size_elements l
   <= String.length (Py.join ", " (map Json.dumps l)) + 1)%nat.
Proof.
  induction l as [|x l IH]; intros H; [simpl; lia|].
  inversion H as [|? ? Hx Hl]; subst. specialize (IH Hl).
  destruct l as [|y l].
  - simpl in *. lia.
  - change (Py.join ", " (map Json.dumps (x :: y :: l)))
      with (Json.dumps x ++ ", " ++ Py.join ", " (map Json.dumps (y :: l))).
    change (size_elements (x :: y :: l))
      with (S (Json.size x + size_elements (y :: l))).
    rewrite !length_append. change (String.length ", ") with 2%nat.
    change (String.length ": ") with 2%nat. lia.
Qed.

Lemma join_length_members (d : dict) :
  Forall (fun kv => (Json.size (snd kv)
                     <= String.length (Json.dumps (snd kv)))%nat) d ->
  (size_members d
   <= String.length
        (Py.join ", "
           (map (fun kv => Json.dumps_str (fst kv) ++ ": "
                           ++ Json.dumps (snd kv)) d)) + 1)%nat.
Proof.
  induction d as [|[k x] d IH]; intros H; [simpl; lia|].
  inversion H as [|? ? Hx Hl]; subst. specialize (IH Hl). simpl in Hx.
  destruct d as [|[k' y] d].
  - simpl. rewrite !length_append. simpl in *. lia.
  - change (Py.join ", " (map ?f ((k, x) :: (k', y) :: d)))
      with (f (k, x) ++ ", " ++ Py.join ", " (map f ((k', y) :: d))).
    change (size_members ((k, x) :: (k', y) :: d))
      with (S (Json.size x + size_members ((k', y) :: d))).
    cbv beta. cbn [fst snd]. rewrite !length_append.
    change (String.length ", ") with 2%nat.
    change (String.length ": ") with 2%nat. lia.
Qed.

Lemma size_le_length v : (Json.size v <= String.length (Json.dumps v))%nat.
Proof.
  induction v as [| b | n | s | l IH | d IH] using value_ind.
  - simpl. lia.
  - destruct b; simpl; lia.
  - simpl. apply str_of_int_length.
  - simpl. lia.
  - rewrite size_list. cbn [Json.dumps]. rewrite !length_append.
    pose proof (join_length_elements l IH).
    change (String.length "[") with 1%nat.
    change (String.length "]") with 1%nat. lia.
  - rewrite size_dict. cbn [Json.dumps]. rewrite !length_append.
    pose proof (join_length_members d IH).
    change (String.length "{") with 1%nat.
    change (String.length "}") with 1%nat. lia.
Qed.

Lemma append_empty_r (a : string) : a ++ "" = a.
Proof. induction a; simpl; congruence. Qed.

Theorem loads_dumps v : Json.value_wf v -> Json.loads (Json.dumps v) = Ok v.
Proof.
  intros W. unfold Json.loads.
  pose proof (value_p_dumps v W (S (String.length (Json.dumps v))) "") as H.
  rewrite append_empty_r in H. rewrite H; [reflexivity| |now left].
  pose proof (size_le_length v). lia.
Qed.

(* ===================================================================== *)
(** * Merging capabilities into a claims challenge *)
(* ===================================================================== *)

Lemma keys_set (k : string) (v : value) (d : dict) :
  map fst (Dict.set k v d)
  = if Dict.mem k d then map fst d else (map fst d ++ [k])%list.
Proof.
  unfold Assoc.mem. induction d as [|[k' v'] r IH]; simpl; [reflexivity|].
  destruct (String.eqb k k') eqn:E; simpl.
  - apply String.eqb_eq in E. now subst.
  - rewrite IH. now destruct (Dict.get k r).
Qed.

Lemma nodup_set (k : string) (v : value) (d : dict) :
  NoDup (map fst d) -> NoDup (map fst (Dict.set k v d)).
Proof.
  intros ND. rewrite keys_set. destruct (Dict.mem k d) eqn:E; [exact ND|].
  unfold Assoc.mem in E.
  assert (N : ~ In k (map fst d)).
  { apply AssocFacts.get_None_keys. now destruct (Dict.get k d). }
  clear E. induction d as [|[k' v'] r IH]; simpl in *.
  - constructor; [tauto|constructor].
  - inversion ND as [|? ? Hx ND']; subst. constructor.
    + intros H. apply in_app_or in H. destruct H as [H|[H|[]]]; [tauto|].
      subst. tauto.
    + apply IH; tauto.
Qed.

Lemma forall_set (P : string * value -> Prop) k v (d : dict) :
  Forall P d -> P (k, v) -> Forall P (Dict.set k v d).
Proof.
  intros H Hv. induction d as [|[k' v'] r IH]; simpl.
  - now repeat constructor.
  - inversion H; subst. destruct (String.eqb k k'); constructor; auto.
Qed.

Lemma wf_set k v (d : dict) :
  Json.value_wf (VDict d) -> Json.value_wf v ->
  Json.value_wf (VDict (Dict.set k v d)).
Proof.
  rewrite !wf_dict. intros [ND W] Wv. split.
  - now apply nodup_set.
  - now apply forall_set.
Qed.

Lemma wf_get k v (d : dict) :
  Json.value_wf (VDict d) -> Dict.get k d = Some v -> Json.value_wf v.
Proof.
  rewrite wf_dict. intros [_ W] H. apply AssocFacts.get_In in H.
  rewrite Forall_forall in W. exact (W _ H).
Qed.

Lemma wf_capability_values capabilities :
  Json.value_wf (capability_values capabilities).
Proof.
  unfold capability_values. apply wf_dict. split.
  - repeat constructor. intros [].
  - repeat constructor. simpl. apply wf_list.
    induction capabilities; simpl; constructor; simpl; auto.
Qed.

Section MergeClaims.
Variable json_loads : string -> result value.

Local Abbreviation merge :=
  (_merge_claims_challenge_and_capabilities json_loads).

(** C5, as amended. Without capabilities the challenge is returned as it
    is, [None] included. With capabilities: an error of the decoder on a
    non-empty challenge is propagated; and when the challenge is absent,
    empty, or the text of an object whose [access_token] member, if any,
    is an object, the merge succeeds with a JSON text that reads back as
    an object whose [access_token.xms_cc.values] are the capabilities,
    every other top-level member and every other member of
    [access_token] being as in the input. *)
Theorem merge_claims_challenge_and_capabilities
    capabilities claims_challenge :
  merge [] claims_challenge = Ok claims_challenge
  /\ (capabilities <> [] ->
      (forall s e,
         claims_challenge = Some s -> s <> "" -> json_loads s = Raise e ->
         merge capabilities claims_challenge = Raise e)
      /\ (forall d a,
            challenge_object json_loads claims_challenge = Some d ->
            Json.value_wf (VDict d) ->
            access_token_claims d = Some a ->
            exists text d' a',
              merge capabilities claims_challenge = Ok (Some text)
              /\ Json.loads text = Ok (VDict d')
              /\ Dict.get "access_token" d' = Some (VDict a')
              /\ Dict.get "xms_cc" a' = Some (capability_values capabilities)
              /\ Jwt.member "values" (Dict.get "xms_cc" a')
                 = Some (VList (map VStr capabilities))
              /\ (forall k, k <> "access_token" ->
                    Dict.get k d' = Dict.get k d)
              /\ (forall k, k <> "xms_cc" -> Dict.get k a' = Dict.get k a))).
Proof.
  split; [reflexivity|]. intros Hcaps. split.
  - intros s e -> Hs He. unfold _merge_claims_challenge_and_capabilities.
    destruct capabilities; [congruence|].
    apply String.eqb_neq in Hs. now rewrite Hs, He.
  - intros d a Hobj Wd Ha.
    set (a' := Dict.set "xms_cc" (capability_values capabilities) a).
    set (d' := Dict.set "access_token" (VDict a')
                 (match Dict.get "access_token" d with
                  | Some _ => d
                  | None => Dict.set "access_token" (VDict []) d
                  end)).
    assert (Wa : Json.value_wf (VDict a)).
    { revert Ha. unfold access_token_claims.
      destruct (Dict.get "access_token" d) as [[]|] eqn:E; try discriminate.
      - intros [= <-]. exact (wf_get _ _ _ Wd E).
      - intros [= <-]. apply wf_dict. split; constructor. }
    assert (Wd' : Json.value_wf (VDict d')).
    { subst d'. apply wf_set.
      - destruct (Dict.get "access_token" d); [exact Wd|].
        apply wf_set; [exact Wd|]. apply wf_dict. split; constructor.
      - subst a'. apply wf_set; [exact Wa|apply wf_capability_values]. }
    exists (Json.dumps (VDict d')), d', a'.
    split; [|split; [now apply loads_dumps|]].
    + unfold _merge_claims_challenge_and_capabilities.
      destruct capabilities as [|c cs]; [congruence|].
      assert (Hparse :
        match claims_challenge with
        | Some s => if String.eqb s "" then Ok (VDict []) else json_loads s
        | None => Ok (VDict [])
        end = Ok (VDict d)).
      { revert Hobj. unfold challenge_object.
        destruct claims_challenge as [s|]; [|now intros [= <-]].
        destruct (String.eqb s ""); [now intros [= <-]|].
        destruct (json_loads s) as [[]|]; try discriminate.
        now intros [= <-]. }
      rewrite Hparse. simpl bind. subst d' a'.
      revert Ha. unfold access_token_claims, capability_values.
      destruct (Dict.get "access_token" d) as [[]|]; try discriminate;
        now intros [= <-].
    + split; [subst d'; apply AssocFacts.get_set_same|].
      split; [subst a'; apply AssocFacts.get_set_same|].
      split; [subst a'; now rewrite AssocFacts.get_set_same|].
      split.
      * intros k Hk. subst d'.
        rewrite AssocFacts.get_set_other by assumption.
        destruct (Dict.get "access_token" d); [reflexivity|].
        now rewrite AssocFacts.get_set_other.
      * intros k Hk. subst a'. now rewrite AssocFacts.get_set_other.
Qed.

End MergeClaims.

(* ===================================================================== *)
(** * Decoding inverts [urlsafe_b64encode] *)
(* ===================================================================== *)

Module Base64Facts.
Import Base64 Bytes Base64Vocab.

Lemma of_to_Z x : Bytes.of_Z (Bytes.to_Z x) = x.
Proof. destruct x; reflexivity. Qed.

Lemma to_Z_range x : 0 <= Bytes.to_Z x < 256.
Proof. destruct x; vm_compute; split; congruence. Qed.

Lemma in_all_bytes x : In x all_bytes.
Proof.
  unfold all_bytes. apply in_map_iff.
  exists (Z.to_nat (Bytes.to_Z x)). pose proof (to_Z_range x). split.
  - rewrite Z2Nat.id by lia. apply of_to_Z.
  - apply in_seq. lia.
Qed.

Lemma forall_bytes (P : Byte.byte -> bool) :
  forallb P all_bytes = true -> forall x, P x = true.
Proof.
  intros H x. rewrite forallb_forall in H. apply H, in_all_bytes.
Qed.

Lemma forall_bytes2 (P : Byte.byte -> Byte.byte -> bool) :
  forallb (fun x => forallb (P x) all_bytes) all_bytes = true ->
  forall x y, P x y = true.
Proof.
  intros H x y. apply (forall_bytes (P x)).
  exact (forall_bytes (fun x => forallb (P x) all_bytes) H x).
Qed.

Lemma opt_eqb_eq o n : opt_eqb o n = true -> o = Some n.
Proof. destruct o; simpl; [|discriminate]. intros H. apply Z.eqb_eq in H. congruence. Qed.

Lemma sextets_good x y :
  good (sextet1 (to_Z x)) && good (sextet2 (to_Z x) (to_Z y))
  && good (sextet3 (to_Z x) (to_Z y)) && good (sextet4 (to_Z x)) = true.
Proof.
  revert x y. apply forall_bytes2. vm_compute. reflexivity.
Qed.

Lemma good_index n : good n = true -> index (alphabet n) = Some n.
Proof.
  unfold good. rewrite !andb_true_iff. intros [[[H _] _] _].
  now apply opt_eqb_eq.
Qed.

Lemma good_not_pad n : good n = true -> is_pad (alphabet n) = false.
Proof.
  unfold good. rewrite !andb_true_iff. intros [[[_ H] _] _].
  now apply negb_true_iff.
Qed.

Lemma sextet_facts x y :
  good (sextet1 (to_Z x)) = true /\ good (sextet2 (to_Z x) (to_Z y)) = true
  /\ good (sextet3 (to_Z x) (to_Z y)) = true /\ good (sextet4 (to_Z x)) = true.
Proof.
  pose proof (sextets_good x y) as H. rewrite !andb_true_iff in H. tauto.
Qed.

Lemma byte_eqb_eq x y : byte_eqb x y = true -> x = y.
Proof.
  unfold byte_eqb. intros H. apply Z.eqb_eq in H.
  rewrite <- (of_to_Z x), <- (of_to_Z y). now rewrite H.
Qed.

Lemma byte1_sextets x y :
  byte1 (sextet1 (to_Z x)) (sextet2 (to_Z x) (to_Z y)) = x.
Proof.
  apply byte_eqb_eq. revert x y. apply forall_bytes2.
  vm_compute. reflexivity.
Qed.

Lemma sextet2_low x y :
  Z.land (sextet2 (to_Z x) (to_Z y)) 15 = Z.shiftr (to_Z y) 4.
Proof.
  apply Z.eqb_eq. revert x y. apply forall_bytes2. vm_compute. reflexivity.
Qed.

Lemma sextet3_high y z :
  Z.shiftr (sextet3 (to_Z y) (to_Z z)) 2 = Z.land (to_Z y) 15.
Proof.
  apply Z.eqb_eq. revert y z. apply forall_bytes2. vm_compute. reflexivity.
Qed.

Lemma byte_halves y :
  of_Z (Z.lor (Z.shiftl (Z.shiftr (to_Z y) 4) 4) (Z.land (to_Z y) 15)) = y.
Proof.
  apply byte_eqb_eq. revert y. apply forall_bytes. vm_compute. reflexivity.
Qed.

Lemma byte2_sextets x y z :
  byte2 (sextet2 (to_Z x) (to_Z y)) (sextet3 (to_Z y) (to_Z z)) = y.
Proof.
  unfold byte2. rewrite sextet2_low, sextet3_high. apply byte_halves.
Qed.

Lemma byte3_sextets y z :
  byte3 (sextet3 (to_Z y) (to_Z z)) (sextet4 (to_Z z)) = z.
Proof.
  apply byte_eqb_eq. revert y z. apply forall_bytes2.
  vm_compute. reflexivity.
Qed.

Lemma to_Z_x00 : to_Z Byte.x00 = 0.
Proof. reflexivity. Qed.

Lemma is_pad_pad : is_pad pad = true.
Proof. reflexivity. Qed.

Theorem b64decode_encode b :
  urlsafe_b64decode (urlsafe_b64encode b) = Some b.
Proof.
  assert (G : forall n b, (length b <= n)%nat ->
                urlsafe_b64decode (urlsafe_b64encode b) = Some b).
  { clear b. induction n as [|n IH]; intros b Hn.
    - destruct b; [reflexivity|simpl in Hn; lia].
    - destruct b as [|x [|y [|z r]]].
      + reflexivity.
      + cbn [urlsafe_b64encode urlsafe_b64decode].
        destruct (sextet_facts x Byte.x00) as (G1 & G2 & _ & _).
        rewrite to_Z_x00 in G2.
        rewrite (good_index _ G1), (good_index _ G2), is_pad_pad.
        now rewrite <- to_Z_x00 at 1; rewrite byte1_sextets.
      + cbn [urlsafe_b64encode urlsafe_b64decode].
        destruct (sextet_facts x y) as (G1 & G2 & _ & _).
        destruct (sextet_facts y Byte.x00) as (_ & _ & G3 & _).
        rewrite to_Z_x00 in G3.
        rewrite (good_index _ G1), (good_index _ G2), is_pad_pad,
          (good_not_pad _ G3), (good_index _ G3).
        rewrite byte1_sextets.
        now rewrite <- to_Z_x00 at 1; rewrite byte2_sextets.
      + cbn [urlsafe_b64encode urlsafe_b64decode].
        destruct (sextet_facts x y) as (G1 & G2 & _ & _).
        destruct (sextet_facts y z) as (_ & _ & G3 & _).
        destruct (sextet_facts z z) as (_ & _ & _ & G4).
        rewrite (good_index _ G1), (good_index _ G2), (good_not_pad _ G4),
          (good_index _ G3), (good_index _ G4).
        rewrite IH by (simpl in Hn; lia).
        now rewrite byte1_sextets, byte2_sextets, byte3_sextets. }
  apply (G (length b)). lia.
Qed.

End Base64Facts.


(* ===================================================================== *)
(** * The client assertion and its segments *)
(* ===================================================================== *)

Module AssertionFacts.
Import Base64 Bytes Base64Vocab Base64Facts.

Lemma decode_ascii_text b :
  all_ascii b = true -> decode_ascii b = Ok (text_of b).
Proof.
  induction b as [|x r IH]; simpl; [reflexivity|].
  rewrite andb_true_iff. intros [Hx Hr]. rewrite Hx, (IH Hr). reflexivity.
Qed.

Lemma bytes_of_text b : Jwt.bytes_of (text_of b) = b.
Proof.
  unfold Jwt.bytes_of, text_of. rewrite list_ascii_of_string_of_list_ascii.
  rewrite map_map. rewrite <- (map_id b) at 2. apply map_ext.
  intros x. apply byte_of_ascii_of_byte.
Qed.

Lemma text_of_app a b : text_of (a ++ b) = text_of a ++ text_of b.
Proof.
  unfold text_of. induction a as [|x r IH]; simpl; [reflexivity|].
  now rewrite IH.
Qed.

Lemma not_dot x :
  negb (to_Z x =? 46) = true -> Ascii.eqb (ascii_of_byte x) "." = false.
Proof. destruct x; try reflexivity; discriminate. Qed.

Lemma split_on_text b :
  no_dot b = true -> Py.split_on "." (text_of b) = [text_of b].
Proof.
  induction b as [|x r IH]; [reflexivity|].
  cbn [no_dot forallb]. rewrite andb_true_iff. intros [Hx Hr].
  change (text_of (x :: r)) with (String (ascii_of_byte x) (text_of r)).
  cbn [Py.split_on append]. rewrite (not_dot x Hx), (IH Hr). reflexivity.
Qed.

Lemma split_on_text_dot b rest :
  no_dot b = true ->
  Py.split_on "." (text_of b ++ String "." rest)
  = text_of b :: Py.split_on "." rest.
Proof.
  induction b as [|x r IH]; [reflexivity|].
  cbn [no_dot forallb]. rewrite andb_true_iff. intros [Hx Hr].
  change (text_of (x :: r)) with (String (ascii_of_byte x) (text_of r)).
  cbn [Py.split_on append]. rewrite (not_dot x Hx), (IH Hr). reflexivity.
Qed.

Lemma good_ascii n : good n = true -> (to_Z (alphabet n) <? 128) = true.
Proof. unfold good. rewrite !andb_true_iff. tauto. Qed.

Lemma good_no_dot n : good n = true -> negb (to_Z (alphabet n) =? 46) = true.
Proof. unfold good. rewrite !andb_true_iff. tauto. Qed.

Lemma b64_ascii_no_dot b :
  all_ascii (urlsafe_b64encode b) = true
  /\ no_dot (urlsafe_b64encode b) = true.
Proof.
  assert (G : forall n b, (length b <= n)%nat ->
                all_ascii (urlsafe_b64encode b) = true
                /\ no_dot (urlsafe_b64encode b) = true).
  { clear b. induction n as [|n IH]; intros b Hn.
    - destruct b; [split; reflexivity|simpl in Hn; lia].
    - destruct b as [|x [|y [|z r]]].
      + split; reflexivity.
      + destruct (sextet_facts x Byte.x00) as (G1 & G2 & _ & _).
        rewrite to_Z_x00 in G2.
        cbn [urlsafe_b64encode all_ascii no_dot forallb].
        rewrite (good_ascii _ G1), (good_ascii _ G2),
          (good_no_dot _ G1), (good_no_dot _ G2). split; reflexivity.
      + destruct (sextet_facts x y) as (G1 & G2 & _ & _).
        destruct (sextet_facts y Byte.x00) as (_ & _ & G3 & _).
        rewrite to_Z_x00 in G3.
        cbn [urlsafe_b64encode all_ascii no_dot forallb].
        rewrite (good_ascii _ G1), (good_ascii _ G2), (good_ascii _ G3),
          (good_no_dot _ G1), (good_no_dot _ G2), (good_no_dot _ G3).
        split; reflexivity.
      + destruct (sextet_facts x y) as (G1 & G2 & _ & _).
        destruct (sextet_facts y z) as (_ & _ & G3 & _).
        destruct (sextet_facts z z) as (_ & _ & _ & G4).
        destruct (IH r) as [Ha Hd]; [simpl in Hn; lia|].
        cbn [urlsafe_b64encode all_ascii no_dot forallb].
        unfold all_ascii, no_dot in Ha, Hd. rewrite Ha, Hd.
        rewrite (good_ascii _ G1), (good_ascii _ G2), (good_ascii _ G3),
          (good_ascii _ G4), (good_no_dot _ G1), (good_no_dot _ G2),
          (good_no_dot _ G3), (good_no_dot _ G4).
        split; reflexivity. }
  apply (G (length b)). lia.
Qed.

Lemma ascii_char_round c :
  (Py.code c <? 128) = true ->
  (to_Z (of_Z (Py.code c)) <? 128) = true
  /\ ascii_of_byte (of_Z (Py.code c)) = c.
Proof.
  destruct c as [[] [] [] [] [] [] [] []]; intros H;
    try discriminate H; split; reflexivity.
Qed.

Lemma decode_encode_utf8 s :
  is_ascii s = true -> decode_ascii (encode_utf8 s) = Ok s.
Proof.
  induction s as [|c r IH]; simpl; [reflexivity|].
  rewrite andb_true_iff. intros [Hc Hr].
  destruct (ascii_char_round c Hc) as [H1 H2].
  rewrite Hc. simpl. rewrite H1, (IH Hr). simpl. now rewrite H2.
Qed.

Lemma is_ascii_app a b : is_ascii (a ++ b) = is_ascii a && is_ascii b.
Proof.
  induction a as [|c r IH]; simpl; [reflexivity|].
  now rewrite IH, andb_assoc.
Qed.

Lemma is_ascii_escape_char c : is_ascii (Json.escape_char c) = true.
Proof. destruct c as [[] [] [] [] [] [] [] []]; reflexivity. Qed.

Lemma is_ascii_escape s : is_ascii (Json.escape s) = true.
Proof.
  induction s as [|c r IH]; simpl; [reflexivity|].
  now rewrite is_ascii_app, is_ascii_escape_char, IH.
Qed.

Lemma is_ascii_dumps_str s : is_ascii (Json.dumps_str s) = true.
Proof.
  unfold Json.dumps_str. simpl. now rewrite is_ascii_app, is_ascii_escape.
Qed.

Lemma is_ascii_uint d : is_ascii (NilEmpty.string_of_uint d) = true.
Proof. induction d; simpl; auto. Qed.

Lemma is_ascii_str_of_int n : is_ascii (Py.str_of_int n) = true.
Proof.
  unfold Py.str_of_int. destruct n as [|p|p]; simpl; [reflexivity| |];
    unfold NilZero.string_of_uint;
    pose proof (is_ascii_uint (Pos.to_uint p)) as H;
    destruct (Pos.to_uint p); auto.
Qed.

Lemma is_ascii_join sep l :
  is_ascii sep = true -> forallb is_ascii l = true ->
  is_ascii (Py.join sep l) = true.
Proof.
  intros Hs. induction l as [|x l IH]; simpl; [reflexivity|].
  rewrite andb_true_iff. intros [Hx Hl]. destruct l as [|y l]; [exact Hx|].
  rewrite !is_ascii_app, Hx, Hs. simpl. now apply IH.
Qed.

Lemma is_ascii_dumps v : is_ascii (Json.dumps v) = true.
Proof.
  induction v as [| b | n | s | l IH | d IH] using value_ind.
  - reflexivity.
  - destruct b; reflexivity.
  - apply is_ascii_str_of_int.
  - apply is_ascii_dumps_str.
  - cbn [Json.dumps]. rewrite !is_ascii_app. simpl.
    rewrite andb_true_r. apply is_ascii_join; [reflexivity|].
    rewrite forallb_forall. intros t Ht. apply in_map_iff in Ht.
    destruct Ht as (x & <- & Hx). rewrite Forall_forall in IH. now apply IH.
  - cbn [Json.dumps]. rewrite !is_ascii_app. simpl.
    rewrite andb_true_r. apply is_ascii_join; [reflexivity|].
    rewrite forallb_forall. intros t Ht. apply in_map_iff in Ht.
    destruct Ht as (x & <- & Hx). rewrite Forall_forall in IH.
    cbv beta. cbn [is_ascii]. rewrite !is_ascii_app, is_ascii_escape.
    simpl. now apply IH.
Qed.

(** A padded segment holding the JSON text of a well-formed value decodes
    to the value. *)
Lemma decode_segment_dumps v :
  Json.value_wf v ->
  Jwt.decode_segment
    (text_of (urlsafe_b64encode (encode_utf8 (Json.dumps v))))
  = Some v.
Proof.
  intros W. unfold Jwt.decode_segment.
  rewrite bytes_of_text, b64decode_encode.
  rewrite decode_encode_utf8 by apply is_ascii_dumps.
  now rewrite loads_dumps.
Qed.

(* ------------------------------------------------------------------ *)

Lemma all_ascii_app a b : all_ascii (a ++ b) = all_ascii a && all_ascii b.
Proof. apply forallb_app. Qed.

Lemma no_dot_b64 b : no_dot (urlsafe_b64encode b) = true.
Proof. apply b64_ascii_no_dot. Qed.

Lemma all_ascii_b64 b : all_ascii (urlsafe_b64encode b) = true.
Proof. apply b64_ascii_no_dot. Qed.

Lemma forallb_unpadded (P : Byte.byte -> bool) b :
  forallb P b = true -> forallb P (unpadded b) = true.
Proof.
  induction b as [|x r IH]; simpl; [reflexivity|].
  rewrite andb_true_iff. intros [Hx Hr].
  destruct (is_pad x); simpl; [reflexivity|]. now rewrite Hx, IH.
Qed.

Lemma unpadded_multiple b :
  (length b mod 3 = 0)%nat ->
  unpadded (urlsafe_b64encode b) = urlsafe_b64encode b.
Proof.
  assert (G : forall n b, (length b <= n)%nat -> (length b mod 3 = 0)%nat ->
                unpadded (urlsafe_b64encode b) = urlsafe_b64encode b).
  { clear b. induction n as [|n IH]; intros b Hn Hm.
    - destruct b; [reflexivity|simpl in Hn; lia].
    - destruct b as [|x [|y [|z r]]]; try reflexivity;
        try (simpl in Hm; discriminate).
      destruct (sextet_facts x y) as (G1 & G2 & _ & _).
      destruct (sextet_facts y z) as (_ & _ & G3 & _).
      destruct (sextet_facts z z) as (_ & _ & _ & G4).
      cbn [urlsafe_b64encode unpadded].
      rewrite (good_not_pad _ G1), (good_not_pad _ G2),
        (good_not_pad _ G3), (good_not_pad _ G4).
      rewrite IH; [reflexivity|simpl in Hn; lia|].
      change (length (x :: y :: z :: r)) with (3 + length r)%nat in Hm.
      assert (E : ((3 + length r) mod 3 = length r mod 3)%nat).
      { rewrite Nat.add_comm. apply (Nat.Div0.mod_add (length r) 1 3). }
      now rewrite E in Hm. }
  apply (G (length b)). lia.
Qed.

Section Assertion.
Context {Pipeline CacheOptions : Type}.
Variable resolve_tenant :
  string -> list string -> option string -> result string.
Implicit Types (self : AadClient Pipeline CacheOptions).

Lemma headers_wf self certificate :
  Json.value_wf (VDict (assertion_headers self certificate)).
Proof.
  unfold assertion_headers. destruct (_is_adfs self); simpl;
    repeat split; repeat constructor; simpl; intuition discriminate.
Qed.

Lemma payload_wf self kw now jti payload :
  assertion_payload resolve_tenant self kw now jti = Ok payload ->
  Json.value_wf (VDict payload).
Proof.
  unfold assertion_payload.
  destruct (_get_token_url resolve_tenant self kw); simpl; [|discriminate].
  intros [= <-]. simpl.
  repeat split; repeat constructor; simpl; intuition discriminate.
Qed.

Lemma assertion_text self certificate kw now jti payload :
  assertion_payload resolve_tenant self kw now jti = Ok payload ->
  _get_client_certificate_assertion resolve_tenant self certificate kw now jti
  = Ok (three_segments
          (encode_utf8
             (Json.dumps (VDict (assertion_headers self certificate))))
          (encode_utf8 (Json.dumps (VDict payload)))
          (assertion_signature self certificate payload)).
Proof.
  intros Hp. unfold _get_client_certificate_assertion. rewrite Hp.
  cbn [bind]. fold (assertion_signature self certificate payload).
  rewrite decode_ascii_text.
  - f_equal. unfold dot, three_segments.
    rewrite !text_of_app, !append_assoc. reflexivity.
  - unfold dot. rewrite !all_ascii_app, !all_ascii_b64. reflexivity.
Qed.

Lemma assertion_payload_ok self certificate kw now jti jwt :
  _get_client_certificate_assertion resolve_tenant self certificate kw now jti
  = Ok jwt ->
  exists payload, assertion_payload resolve_tenant self kw now jti = Ok payload.
Proof.
  unfold _get_client_certificate_assertion.
  destruct (assertion_payload resolve_tenant self kw now jti);
    [eauto|discriminate].
Qed.

Lemma segments_of_three a b c :
  Jwt.segments (three_segments a b c)
  = [text_of (urlsafe_b64encode a); text_of (urlsafe_b64encode b);
     text_of (urlsafe_b64encode c)].
Proof.
  unfold Jwt.segments, three_segments.
  change (?x ++ "." ++ ?y) with (x ++ String "." y).
  rewrite split_on_text_dot by apply no_dot_b64.
  change (?x ++ "." ++ ?y) with (x ++ String "." y).
  rewrite split_on_text_dot, split_on_text by apply no_dot_b64.
  reflexivity.
Qed.


Lemma decoded_assertion self certificate kw now jti payload :
  assertion_payload resolve_tenant self kw now jti = Ok payload ->
  exists jwt,
    _get_client_certificate_assertion resolve_tenant self certificate kw
      now jti = Ok jwt
    /\ jwt = three_segments
               (encode_utf8
                  (Json.dumps (VDict (assertion_headers self certificate))))
               (encode_utf8 (Json.dumps (VDict payload)))
               (assertion_signature self certificate payload)
    /\ Jwt.header_of jwt = Some (VDict (assertion_headers self certificate))
    /\ Jwt.payload_of jwt = Some (VDict payload).
Proof.
  intros Hp.
  exists (three_segments
            (encode_utf8
               (Json.dumps (VDict (assertion_headers self certificate))))
            (encode_utf8 (Json.dumps (VDict payload)))
            (assertion_signature self certificate payload)).
  split; [exact (assertion_text self certificate kw now jti payload Hp)|].
  split; [reflexivity|].
  unfold Jwt.header_of, Jwt.payload_of. rewrite segments_of_three.
  split; apply decode_segment_dumps.
  - apply headers_wf.
  - eapply payload_wf; eassumption.
Qed.

End Assertion.

Lemma lower_char_adfs c b :
  In b ["a"; "d"; "f"; "s"]%char ->
  Ascii.eqb (Py.lower_char c) b = Ascii.eqb (ascii_fold c) (ascii_fold b).
Proof.
  intros [<-|[<-|[<-|[<-|[]]]]];
    destruct c as [[] [] [] [] [] [] [] []]; reflexivity.
Qed.

Lemma lower_is_adfs tenant :
  String.eqb (Py.lower tenant) "adfs" = eq_ignore_case tenant "adfs".
Proof.
  destruct tenant as [|c1 [|c2 [|c3 [|c4 [|c5 s]]]]];
    cbn [Py.lower String.eqb eq_ignore_case];
    rewrite <- ?lower_char_adfs by (simpl; auto);
    repeat match goal with
           | |- context [Ascii.eqb (Py.lower_char ?c) ?b] =>
               destruct (Ascii.eqb (Py.lower_char c) b)
           end; reflexivity.
Qed.

End AssertionFacts.


(* ===================================================================== *)
(** * Claims about the client assertion *)
(* ===================================================================== *)

Section AssertionSegments.
Import Base64 Bytes Base64Facts AssertionFacts.
Context {Pipeline CacheOptions : Type}.
Variable resolve_tenant :
  string -> list string -> option string -> result string.
Implicit Types (self : AadClient Pipeline CacheOptions).

(** C3, as amended. The assertion is three segments joined by dots: the
    base64url texts, with the padding of [urlsafe_b64encode] kept, of the
    UTF-8 JSON header, of the UTF-8 JSON payload, and of the signature of
    the first two joined by a dot. Each segment decodes back to what it
    encodes, header and payload to the very objects serialized. The
    compact serialization of RFC 7515 is the same three segments without
    their padding; the assertion is that serialization when the byte
    lengths of header, payload and signature are multiples of three. *)
Theorem client_certificate_assertion_segments
    self certificate kw now jti payload :
  assertion_payload resolve_tenant self kw now jti = Ok payload ->
  let header :=
    encode_utf8 (Json.dumps (VDict (assertion_headers self certificate))) in
  let claims := encode_utf8 (Json.dumps (VDict payload)) in
  let signature := assertion_signature self certificate payload in
  exists jwt,
    _get_client_certificate_assertion resolve_tenant self certificate kw
      now jti = Ok jwt
    /\ Jwt.segments jwt
       = [text_of (urlsafe_b64encode header);
          text_of (urlsafe_b64encode claims);
          text_of (urlsafe_b64encode signature)]
    /\ jwt = Py.join "." (Jwt.segments jwt)
    /\ map (fun s => urlsafe_b64decode (Jwt.bytes_of s)) (Jwt.segments jwt)
       = [Some header; Some claims; Some signature]
    /\ Jwt.header_of jwt = Some (VDict (assertion_headers self certificate))
    /\ Jwt.payload_of jwt = Some (VDict payload)
    /\ Jwt.compact (assertion_headers self certificate) payload signature
       = Ok (text_of
               (unpadded (urlsafe_b64encode header) ++ dot
                ++ unpadded (urlsafe_b64encode claims) ++ dot
                ++ unpadded (urlsafe_b64encode signature))%list)
    /\ ((length header mod 3 = 0)%nat ->
        (length claims mod 3 = 0)%nat ->
        (length signature mod 3 = 0)%nat ->
        Jwt.compact (assertion_headers self certificate) payload signature
        = Ok jwt).
Proof.
  intros Hp header claims signature.
  destruct (decoded_assertion resolve_tenant self certificate kw now jti
              payload Hp)
    as (jwt & Hjwt & -> & Hh & Hpl).
  fold header claims signature in Hjwt, Hh, Hpl |- *.
  assert (Hcompact :
    Jwt.compact (assertion_headers self certificate) payload signature
    = Ok (text_of
            (unpadded (urlsafe_b64encode header) ++ dot
             ++ unpadded (urlsafe_b64encode claims) ++ dot
             ++ unpadded (urlsafe_b64encode signature))%list)).
  { unfold Jwt.compact, Jwt.base64url. fold header claims.
    apply decode_ascii_text. unfold all_ascii.
    rewrite !forallb_app.
    rewrite !forallb_unpadded by apply all_ascii_b64. reflexivity. }
  exists (three_segments header claims signature).
  split; [exact Hjwt|].
  rewrite segments_of_three.
  split; [reflexivity|]. split; [reflexivity|].
  split; [cbn [map]; now rewrite !bytes_of_text, !b64decode_encode|].
  split; [exact Hh|]. split; [exact Hpl|]. split; [exact Hcompact|].
  intros H1 H2 H3. rewrite Hcompact.
  rewrite !unpadded_multiple by assumption.
  unfold three_segments, dot. rewrite !text_of_app, ?append_assoc.
  reflexivity.
Qed.

End AssertionSegments.

Section AssertionClaims.
Import AssertionFacts.
Context {Pipeline CacheOptions : Type}.
Variable normalize_authority : string -> result string.
Variable get_default_authority : string.
Variable _build_pipeline : option CacheOptions -> Pipeline.
Variable resolve_tenant :
  string -> list string -> option string -> result string.
Variable json_loads : string -> result value.
Implicit Types (self : AadClient Pipeline CacheOptions).

Lemma init_is_adfs
    tenant client authority cache cae_cache allowed options self :
  __init__ normalize_authority get_default_authority _build_pipeline
    tenant client authority cache cae_cache allowed options = Ok self ->
  _is_adfs self = eq_ignore_case tenant "adfs".
Proof.
  unfold __init__.
  destruct (match authority with
            | Some a => if String.eqb a "" then Ok get_default_authority
                        else normalize_authority a
            | None => Ok get_default_authority
            end); simpl; [|discriminate].
  intros [= <-]. simpl. apply lower_is_adfs.
Qed.

(** C4. For a client constructed for [tenant], whatever caches it holds
    by now, every assertion the signer produces decodes as follows: the
    payload has [aud] equal to the token endpoint URL the call
    constructs, and integers [nbf] and [exp] with [exp - nbf = 1800]; the
    header has [alg] [RS256] and the certificate's thumbprint under [x5t]
    when the tenant equals [adfs] up to case, and [alg] [PS256] and the
    SHA-256 thumbprint under [x5t#S256] otherwise. *)
Theorem client_certificate_assertion_claims
    tenant client authority cache cae_cache allowed options self0 c1 c2
    certificate kw now jti jwt :
  __init__ normalize_authority get_default_authority _build_pipeline
    tenant client authority cache cae_cache allowed options = Ok self0 ->
  let self := with_caches self0 c1 c2 in
  _get_client_certificate_assertion resolve_tenant self certificate kw
    now jti = Ok jwt ->
  exists aud nbf exp,
    _get_token_url resolve_tenant self kw = Ok aud
    /\ Jwt.member "aud" (Jwt.payload_of jwt) = Some (VStr aud)
    /\ Jwt.member "nbf" (Jwt.payload_of jwt) = Some (VInt nbf)
    /\ Jwt.member "exp" (Jwt.payload_of jwt) = Some (VInt exp)
    /\ exp - nbf = 1800
    /\ (eq_ignore_case tenant "adfs" = true ->
        Jwt.member "alg" (Jwt.header_of jwt) = Some (VStr "RS256")
        /\ Jwt.member "x5t" (Jwt.header_of jwt)
           = Some (VStr (thumbprint certificate)))
    /\ (eq_ignore_case tenant "adfs" = false ->
        Jwt.member "alg" (Jwt.header_of jwt) = Some (VStr "PS256")
        /\ Jwt.member "x5t#S256" (Jwt.header_of jwt)
           = Some (VStr (sha256_thumbprint certificate))).
Proof.
  intros Hinit self Hjwt.
  apply init_is_adfs in Hinit.
  assert (Hadfs : _is_adfs self = eq_ignore_case tenant "adfs")
    by exact Hinit.
  destruct (assertion_payload_ok resolve_tenant self certificate kw now jti
              jwt Hjwt) as (payload & Hp).
  destruct (decoded_assertion resolve_tenant self certificate kw now jti
              payload Hp) as (jwt' & Hjwt' & _ & Hh & Hpl).
  rewrite Hjwt in Hjwt'. injection Hjwt' as <-.
  rewrite Hh, Hpl. clear Hh Hpl Hjwt.
  unfold assertion_payload in Hp.
  destruct (_get_token_url resolve_tenant self kw) as [aud|];
    [|discriminate].
  simpl in Hp. injection Hp as <-.
  exists aud, now, (now + 60 * 30).
  split; [reflexivity|]. split; [reflexivity|]. split; [reflexivity|].
  split; [reflexivity|]. split; [lia|].
  unfold assertion_headers. rewrite Hadfs.
  split; intros ->; split; reflexivity.
Qed.


End AssertionClaims.


(* ===================================================================== *)
(** * Caching a response and looking it up *)
(* ===================================================================== *)

(** ** Integers as text *)

Lemma digits_after d : forall acc b,
  d <> Decimal.Nil \/ b = true ->
  Py.digits acc b (list_ascii_of_string (NilEmpty.string_of_uint d))
  = Some (horner acc d).
Proof.
  induction d; intros acc b H; simpl;
    try (apply IHd; now right).
  destruct H as [H| ->]; [congruence|reflexivity].
Qed.

Lemma digits_uint d acc :
  d <> Decimal.Nil ->
  Py.digits acc false (list_ascii_of_string (NilEmpty.string_of_uint d))
  = Some (horner acc d).
Proof. intros H. apply digits_after. now left. Qed.

Lemma uint_no_space d :
  forallb (fun c => negb (Py.int_space c))
    (list_ascii_of_string (NilEmpty.string_of_uint d)) = true.
Proof. induction d; simpl; auto. Qed.

Lemma strip_no_space l :
  forallb (fun c => negb (Py.int_space c)) l = true -> Py.strip l = l.
Proof.
  intros H. unfold Py.strip.
  assert (L : forall l, forallb (fun c => negb (Py.int_space c)) l = true ->
                        Py.lstrip l = l).
  { intros [|c r]; simpl; [reflexivity|].
    destruct (Py.int_space c); simpl; [discriminate|reflexivity]. }
  rewrite (L l H). rewrite L.
  - apply rev_involutive.
  - rewrite forallb_forall in *. intros x Hx. apply H.
    now apply in_rev.
Qed.

Lemma int_of_str_uint d :
  d <> Decimal.Nil ->
  Py.int_of_str (NilEmpty.string_of_uint d) = Some (horner 0 d).
Proof.
  intros H. unfold Py.int_of_str.
  rewrite strip_no_space by apply uint_no_space.
  rewrite <- (digits_uint d 0 H).
  destruct d; reflexivity.
Qed.

Lemma int_of_str_neg d :
  d <> Decimal.Nil ->
  Py.int_of_str (String "-" (NilEmpty.string_of_uint d))
  = Some (- horner 0 d).
Proof.
  intros H. unfold Py.int_of_str.
  rewrite strip_no_space by (simpl; apply uint_no_space).
  simpl. now rewrite digits_uint.
Qed.

Lemma to_uint_not_nil p : Pos.to_uint p <> Decimal.Nil.
Proof.
  pose proof (to_uint_head p) as H.
  destruct (Pos.to_uint p); try contradiction; discriminate.
Qed.

Lemma nilzero_uint d :
  d <> Decimal.Nil -> NilZero.string_of_uint d = NilEmpty.string_of_uint d.
Proof. destruct d; try reflexivity. congruence. Qed.

Lemma int_str_of_int n : Py.int (VStr (Py.str_of_int n)) = Ok n.
Proof.
  unfold Py.int, Py.str_of_int.
  destruct n as [|p|p]; [reflexivity| |];
    simpl Z.to_int; cbn [NilZero.string_of_int];
    rewrite nilzero_uint by apply to_uint_not_nil.
  - rewrite int_of_str_uint by apply to_uint_not_nil.
    now rewrite horner_to_uint.
  - rewrite int_of_str_neg by apply to_uint_not_nil.
    now rewrite horner_to_uint.
Qed.

(** ** Splitting and joining scopes *)

Lemma split_ws_word w : forall cur rest,
  forallb (fun c => negb (Py.isspace c)) (list_ascii_of_string w) = true ->
  Py.split_ws cur (w ++ rest)
  = Py.split_ws (rev (list_ascii_of_string w) ++ cur) rest.
Proof.
  induction w as [|c w IH]; intros cur rest H; [reflexivity|].
  simpl in H. apply andb_prop in H as [Hc Hw].
  apply negb_true_iff in Hc.
  cbn [append Py.split_ws list_ascii_of_string rev]. rewrite Hc.
  rewrite IH by assumption. now rewrite <- List.app_assoc.
Qed.

Lemma scope_chars s :
  is_scope s = true ->
  forallb (fun c => negb (Py.isspace c)) (list_ascii_of_string s) = true
  /\ rev (list_ascii_of_string s) <> [].
Proof.
  unfold is_scope. intros H. apply andb_prop in H as [Hn Hc].
  split; [exact Hc|].
  destruct s as [|c r]; [discriminate|]. simpl.
  intros E. apply (f_equal (@length ascii)) in E.
  rewrite length_app in E. simpl in E. lia.
Qed.

Lemma split_ws_scope s rest :
  is_scope s = true ->
  Py.split_ws [] (s ++ rest)
  = match rest with
    | EmptyString => [s]
    | String c r =>
        if Py.isspace c then s :: Py.split_ws [] r
        else Py.split_ws (c :: rev (list_ascii_of_string s)) r
    end.
Proof.
  intros H. destruct (scope_chars s H) as [Hc Hn].
  rewrite split_ws_word by assumption. rewrite List.app_nil_r.
  assert (E : string_of_list_ascii (rev (rev (list_ascii_of_string s))) = s)
    by (rewrite rev_involutive; apply string_of_list_ascii_of_string).
  destruct rest as [|c r]; simpl.
  - destruct (rev (list_ascii_of_string s)); [congruence|].
    now rewrite E.
  - destruct (Py.isspace c); [|reflexivity].
    destruct (rev (list_ascii_of_string s)); [congruence|].
    now rewrite E.
Qed.

Lemma split_join l :
  forallb is_scope l = true -> Py.split (Py.join " " l) = l.
Proof.
  unfold Py.split. induction l as [|p l IH]; intros H; [reflexivity|].
  simpl in H. apply andb_prop in H as [Hp Hl].
  destruct l as [|q r].
  - simpl. rewrite <- (append_empty_r p) at 1.
    now rewrite split_ws_scope.
  - change (Py.join " " (p :: q :: r))
      with (p ++ String " " (Py.join " " (q :: r))).
    rewrite split_ws_scope by assumption.
    change (Py.isspace " ") with true. cbv iota.
    now rewrite IH.
Qed.

Lemma in_insert_sorted x s l :
  In x (TokenCache.insert_sorted s l) <-> x = s \/ In x l.
Proof.
  induction l as [|y l IH]; simpl.
  - intuition.
  - destruct (String.leb s y); simpl; [intuition|].
    rewrite IH. intuition.
Qed.

Lemma in_sorted x l : In x (TokenCache.sorted l) <-> In x l.
Proof.
  unfold TokenCache.sorted. induction l as [|y l IH]; simpl; [tauto|].
  rewrite in_insert_sorted, IH. intuition.
Qed.

Lemma forallb_sorted (P : string -> bool) l :
  forallb P l = true -> forallb P (TokenCache.sorted l) = true.
Proof.
  rewrite !forallb_forall. intros H x Hx. apply H. now apply in_sorted.
Qed.

Lemma mem_str_in s l : In s l -> TokenCache.mem_str s l = true.
Proof.
  intros H. unfold TokenCache.mem_str. apply existsb_exists.
  exists s. split; [exact H|apply String.eqb_refl].
Qed.

(** The scopes of a request are among the targets of the entry filed for
    them. *)
Lemma scopes_in_target scopes :
  forallb is_scope scopes = true ->
  forallb (fun s =>
             TokenCache.mem_str s
               (Py.split (Py.join " " (TokenCache.sorted scopes))))
    scopes = true.
Proof.
  intros H. rewrite split_join by now apply forallb_sorted.
  apply forallb_forall. intros s Hs. apply mem_str_in.
  now apply in_sorted.
Qed.

(** ** The store *)

Lemma expired_skip now e l :
  expired_at now e = true ->
  first_valid_token (e :: l) now = first_valid_token l now.
Proof.
  unfold expired_at. cbn [first_valid_token]. unfold Dict.item.
  destruct (Dict.get "expires_on" e) as [v|]; [|discriminate].
  cbn [bind].
  destruct (Py.int v) as [n|]; [|discriminate]. cbn [bind].
  destruct (n >? now); simpl; [discriminate|reflexivity].
Qed.

(** The lookup over a table into which an entry has just been filed. *)
Lemma lookup_after_set key e scopes query now r : forall tb,
  TokenCache.is_matching scopes query e = true ->
  (forall rest, first_valid_token (e :: rest) now = r) ->
  others_expired key scopes query now tb = true ->
  first_valid_token
    (filter (TokenCache.is_matching scopes query)
       (map snd (Assoc.set key e tb))) now
  = r.
Proof.
  intros tb Hm Hv. induction tb as [|[k1 e1] tb IH]; intros Ho.
  - simpl. rewrite Hm. apply Hv.
  - simpl in Ho. apply andb_prop in Ho as [H1 Ho].
    cbn [Assoc.set]. destruct (String.eqb key k1); simpl in H1 |- *.
    + rewrite Hm. apply Hv.
    + destruct (TokenCache.is_matching scopes query e1); simpl in H1.
      * rewrite expired_skip by assumption. now apply IH.
      * now apply IH.
Qed.

Section Store.
Variable canonicalize : string -> string * string.
Variable home_account_id : dict -> value.

Lemma add_access_tokens c ev now c' :
  TokenCache.add canonicalize home_account_id c ev now = Ok c' ->
  exists at_entry,
    TokenCache.access_token_entry canonicalize home_account_id ev now
    = Ok at_entry
    /\ TokenCache.access_tokens c'
       = match at_entry with
         | Some e =>
             Assoc.set (TokenCache.key_of TokenCache.ACCESS_TOKEN e) e
               (TokenCache.access_tokens c)
         | None => TokenCache.access_tokens c
         end.
Proof.
  unfold TokenCache.add.
  destruct (TokenCache.access_token_entry _ _ ev now) as [at_entry|];
    [|discriminate].
  simpl. intros [= <-]. exists at_entry. split; [reflexivity|].
  destruct (TokenCache.refresh_token_entry _ _ ev now);
    destruct at_entry; reflexivity.
Qed.

End Store.

Section Entry.
Variable canonicalize : string -> string * string.
Variable home_account_id : dict -> value.

Lemma entry_lookup ev now e :
  TokenCache.access_token_entry canonicalize home_account_id ev now
  = Ok (Some e) ->
  let response := TokenCache.ev_response ev in
  exists ei,
    stored_expires_in response now = Ok ei
    /\ Dict.get "client_id" e = Some (VStr (TokenCache.ev_client_id ev))
    /\ Dict.get "realm" e
       = Some (VStr (snd (canonicalize (TokenCache.ev_token_endpoint ev))))
    /\ TokenCache.field "target" e
       = Py.join " " (TokenCache.sorted (TokenCache.ev_scope ev))
    /\ forall rest now',
         (now + ei >? now') = true ->
         first_valid_token (e :: rest) now'
         = Ok (Some
                 {| token := Dict.get_default "access_token" VNone response;
                    expires_on := now + ei;
                    token_type :=
                      Dict.get_default "token_type" (VStr "Bearer") response;
                    refresh_on :=
                      match Dict.get "refresh_in" response with
                      | Some r =>
                          match Py.int r with
                          | Ok n => Some (now + n)
                          | Raise _ => None
                          end
                      | None => None
                      end |}).
Proof.
  unfold TokenCache.access_token_entry, stored_expires_in.
  destruct (canonicalize (TokenCache.ev_token_endpoint ev))
    as [environment realm].
  destruct (Py.truthy _); [|discriminate].
  destruct (if Py.truthy _ then _ else _) as [d|]; [|discriminate].
  cbn [bind].
  destruct (Py.int (Dict.get_default "expires_in" _ _)) as [ei|];
    [|discriminate].
  cbn [bind].
  destruct (Py.int (Dict.get_default "ext_expires_in" _ _)) as [xi|];
    [|discriminate].
  cbn [bind]. intros H. exists ei. split; [reflexivity|].
  destruct (Dict.get "refresh_in" (TokenCache.ev_response ev))
    as [[| b | n | | |]|] eqn:R; try discriminate;
    injection H as <-; rewrite ?R;
    (split; [reflexivity|]); (split; [reflexivity|]);
    (split; [reflexivity|]);
    intros rest now' Hv;
    cbn [first_valid_token]; unfold Dict.item;
    cbn [Assoc.get Assoc.set String.eqb Ascii.eqb Bool.eqb bind];
    rewrite int_str_of_int; cbn [bind]; rewrite Hv;
    rewrite ?int_str_of_int; reflexivity.
Qed.

End Entry.

Section EntryMore.
Variable canonicalize : string -> string * string.
Variable home_account_id : dict -> value.

Lemma entry_none ev now :
  TokenCache.access_token_entry canonicalize home_account_id ev now
  = Ok None ->
  Py.truthy (Dict.get_default "access_token" VNone (TokenCache.ev_response ev))
  = false.
Proof.
  unfold TokenCache.access_token_entry.
  destruct (canonicalize (TokenCache.ev_token_endpoint ev))
    as [environment realm].
  destruct (Py.truthy _); [|reflexivity].
  destruct (if Py.truthy _ then _ else _) as [d|]; [|discriminate].
  cbn [bind].
  destruct (Py.int (Dict.get_default "expires_in" _ _)) as [ei|];
    [|discriminate].
  cbn [bind].
  destruct (Py.int (Dict.get_default "ext_expires_in" _ _)) as [xi|];
    [|discriminate].
  cbn [bind].
  destruct (Dict.get "refresh_in" (TokenCache.ev_response ev))
    as [[| b | n | | |]|]; discriminate.
Qed.

Lemma entry_matching ev now e scopes tenant :
  TokenCache.access_token_entry canonicalize home_account_id ev now
  = Ok (Some e) ->
  TokenCache.ev_scope ev = scopes ->
  forallb is_scope scopes = true ->
  snd (canonicalize (TokenCache.ev_token_endpoint ev)) = tenant ->
  TokenCache.is_matching scopes
    (lookup_query (TokenCache.ev_client_id ev) tenant) e = true.
Proof.
  intros H Hs Hsc Ht.
  destruct (entry_lookup canonicalize home_account_id ev now e H)
    as (ei & _ & Hcid & Hrealm & Htarget & _).
  unfold TokenCache.is_matching, TokenCache.is_subdict_of, lookup_query,
    TokenCache.target_matches.
  cbn [forallb fst snd]. rewrite Hcid, Hrealm, Htarget, Hs, Ht.
  cbn [py_eq]. rewrite !String.eqb_refl. cbn [andb].
  now apply scopes_in_target.
Qed.

End EntryMore.

(** With agreeing expiry fields, the store files the token with the
    expiry [_process_response] returns. *)
Lemma stored_expiry content request_time eo ei :
  computed_expires_on content request_time = Ok eo ->
  consistent_expiry content request_time = true ->
  stored_expires_in content request_time = Ok ei ->
  request_time + ei = eo.
Proof.
  unfold computed_expires_on, consistent_expiry, stored_expires_in,
    Dict.get_default.
  destruct (Dict.get "expires_on" content) as [e|];
    destruct (Dict.get "expires_in" content) as [i|].
  - intros He. rewrite He.
    destruct (Py.int i) as [b|]; [|discriminate].
    intros Hc%Z.eqb_eq.
    destruct (Py.truthy e); cbn [bind]; intros [= <-]; lia.
  - intros He -> . rewrite He. cbn [bind Py.int]. intros [= <-]. lia.
  - destruct (Py.int i) as [b|]; [|discriminate]. cbn [bind Py.truthy].
    intros [= <-] _ [= <-]. reflexivity.
  - cbn [Py.int bind]. discriminate.
Qed.

(** The expiry fields survive the bookkeeping of [_process_response]. *)
Lemma expiry_fields_kept (c c' : dict) request_time :
  Dict.get "expires_on" c' = Dict.get "expires_on" c ->
  Dict.get "expires_in" c' = Dict.get "expires_in" c ->
  computed_expires_on c' request_time = computed_expires_on c request_time
  /\ consistent_expiry c' request_time = consistent_expiry c request_time
  /\ stored_expires_in c' request_time = stored_expires_in c request_time.
Proof.
  unfold computed_expires_on, consistent_expiry, stored_expires_in,
    Dict.get_default.
  now intros -> ->.
Qed.

Lemma get_with_refresh_in k content ei :
  k <> "refresh_in" ->
  Dict.get k (with_refresh_in content ei) = Dict.get k content.
Proof.
  intros H. unfold with_refresh_in.
  destruct (negb _ && _); [|reflexivity].
  now apply AssocFacts.get_set_other.
Qed.

Lemma refresh_grant_access_tokens form now s :
  TokenCache.access_tokens (p_cache (snd (process_refresh_grant form now s)))
  = TokenCache.access_tokens (p_cache s).
Proof.
  destruct (is_refresh_grant form) eqn:G.
  - destruct (Dict.get "refresh_token" form) as [old|] eqn:F.
    + rewrite (refresh_grant_run form now s G F). cbv zeta.
      assert (E : TokenCache.access_tokens
                    (evicted (p_cache s) (p_content s) old)
                  = TokenCache.access_tokens (p_cache s)).
      { unfold evicted. destruct (reports_invalid_grant _); [|reflexivity].
        apply StoreFacts.remove_rt_access_tokens. }
      destruct (Dict.get "refresh_token" (p_content s)); [|exact E].
      destruct (TokenCache.search _ _ _ _) as [|e [|e' l]]; exact E.
    + destruct (refresh_grant_key_error form now s F) as [-> | ->];
        reflexivity.
  - now rewrite refresh_grant_other_grant.
Qed.

Lemma refresh_grant_get form now s k :
  k <> "refresh_token" ->
  Dict.get k (p_content (snd (process_refresh_grant form now s)))
  = Dict.get k (p_content s).
Proof.
  intros H.
  destruct (refresh_grant_content form now s) as [-> | ->];
    [reflexivity|].
  now apply AssocFacts.get_del_other.
Qed.

Section CacheRoundTrip.
Context {Pipeline CacheOptions HttpResponse : Type}.
Variable resolve_tenant :
  string -> list string -> option string -> result string.
Variable _load_persistent_cache : CacheOptions -> bool -> TokenCache.t.
Variable deserialize_from_http_generics : HttpResponse -> result dict.
Variable canonicalize : string -> string * string.
Variable home_account_id : dict -> value.
Implicit Types (self : AadClient Pipeline CacheOptions)
  (response : PipelineResponse HttpResponse).

Local Abbreviation process_response :=
  (_process_response _load_persistent_cache deserialize_from_http_generics
     canonicalize home_account_id).
Local Abbreviation content_of :=
  (response_content deserialize_from_http_generics).

Lemma get_cache_attributes self kw :
  let self1 := snd (_get_cache _load_persistent_cache self kw) in
  _tenant_id self1 = _tenant_id self
  /\ _additionally_allowed_tenants self1 = _additionally_allowed_tenants self
  /\ _client_id self1 = _client_id self.
Proof.
  unfold _get_cache, _initialize_cache.
  destruct (if enable_cae kw then _cae_cache self else _cache self);
    simpl; auto.
Qed.

Lemma get_cache_set_cache self kw c :
  _get_cache _load_persistent_cache (set_cache self (enable_cae kw) c) kw
  = (c, set_cache self (enable_cae kw) c).
Proof. unfold _get_cache, set_cache. now destruct (enable_cae kw). Qed.

(** C9, as amended. When [_process_response] succeeds on a response
    whose access token is true and whose expiry fields agree, for a
    request whose form names the scopes [scopes], each a non-empty text
    free of white space, joined by single spaces, and whose URL has the
    resolved tenant as its realm, and when every entry the cache held
    before, other than the one filed under the key of the new token, that
    matches the lookup is past its expiry at the time of the lookup, then
    [get_cached_access_token] with the same scopes and options returns
    the very token [_process_response] returned, provided it expires
    after the time of the lookup. *)
Theorem process_response_then_cached
    self response request_time kw now now' tok tenant scopes content :
  let request := http_request response in
  let out := process_response self response request_time kw now in
  content_of response = Ok content ->
  out_result out = Ok tok ->
  Py.truthy (token tok) = true ->
  consistent_expiry content request_time = true ->
  Dict.get "scope" (body request) = Some (VStr (Py.join " " scopes)) ->
  forallb is_scope scopes = true ->
  resolve_tenant (_tenant_id self) (_additionally_allowed_tenants self)
    (tenant_id kw) = Ok tenant ->
  snd (canonicalize (url request)) = tenant ->
  others_expired
    (access_token_key canonicalize home_account_id (_client_id self)
       request (out_content out) scopes request_time)
    scopes (lookup_query (_client_id self) tenant) now'
    (TokenCache.access_tokens
       (selected_cache _load_persistent_cache self kw)) = true ->
  now' < expires_on tok ->
  fst (get_cached_access_token resolve_tenant _load_persistent_cache
         (out_self out) scopes kw now')
  = Ok (Some tok).
Proof.
  intros request out Hc Hok Htruthy Hcons Hscope Hsc Hten Hrealm Hothers
    Hvalid.
  subst out. rewrite (process_response_run _ _ _ _ _ _ _ _ _ Hc) in *.
  cbv zeta in *. cbn [out_result out_self out_content] in *.
  destruct (get_cache_attributes self kw) as (Ht1 & Ha1 & Hc1).
  cbv zeta in Ht1, Ha1, Hc1.
  set (self1 := snd (_get_cache _load_persistent_cache self kw)) in *.
  set (cache := selected_cache _load_persistent_cache self kw) in *.
  rewrite process_split in *.
  pose proof (refresh_grant_access_tokens (body request) now
                {| p_cache := cache; p_content := content |}) as Htb.
  pose proof (fun k H => refresh_grant_get (body request) now
                {| p_cache := cache; p_content := content |} k H) as Hget.
  fold request in Hok, Hothers |- *.
  destruct (process_refresh_grant (body request) now
              {| p_cache := cache; p_content := content |})
    as [[[]|x] s1]; [|discriminate].
  cbn [snd p_cache p_content] in Htb, Hget.
  destruct (process_tail canonicalize home_account_id self1 request
              request_time s1) as [r s'] eqn:Htail.
  cbn [fst snd] in *. subst r.
  apply tail_ok in Htail
    as (_ & eo & ei & scope & Heo & _ & Hc' & Htok & Hat & Htt & Hro
        & Hrs & Hadd).
  assert (scope = scopes) as ->.
  { unfold request_scopes, Dict.item in Hrs. rewrite Hscope in Hrs.
    cbn [bind] in Hrs. injection Hrs as <-. now apply split_join. }
  rewrite Hc1 in Hadd.
  apply add_access_tokens in Hadd as (at_entry & Hentry & Hnew).
  assert (Haccess :
    Dict.get_default "access_token" VNone (p_content s') = token tok)
    by (unfold Dict.get_default; now rewrite Hat).
  destruct at_entry as [e|];
    [|apply entry_none in Hentry; cbn [TokenCache.ev_response cache_event]
        in Hentry; congruence].
  unfold access_token_key in Hothers. rewrite Hentry in Hothers.
  pose proof (entry_matching canonicalize home_account_id _ _ e scopes
                tenant Hentry eq_refl Hsc Hrealm) as Hmatch.
  destruct (entry_lookup canonicalize home_account_id _ _ e Hentry)
    as (ei' & Hstored & _ & _ & _ & Hfirst).
  cbn [TokenCache.ev_response TokenCache.ev_client_id cache_event]
    in Hstored, Hfirst, Hmatch.
  assert (Hkept :
    Dict.get "expires_on" (p_content s') = Dict.get "expires_on" content
    /\ Dict.get "expires_in" (p_content s') = Dict.get "expires_in" content).
  { rewrite Hc', !get_with_refresh_in, !Hget by discriminate. auto. }
  destruct Hkept as [Hk1 Hk2].
  destruct (expiry_fields_kept content (p_content s') request_time Hk1 Hk2)
    as (_ & _ & Hs').
  assert (Hk3 :
    Dict.get "expires_on" (p_content s1) = Dict.get "expires_on" content
    /\ Dict.get "expires_in" (p_content s1) = Dict.get "expires_in" content)
    by (rewrite !Hget by discriminate; auto).
  destruct Hk3 as [Hk3 Hk4].
  destruct (expiry_fields_kept content (p_content s1) request_time Hk3 Hk4)
    as (Heo' & _ & _).
  rewrite Heo' in Heo. rewrite Hs' in Hstored.
  pose proof (stored_expiry content request_time eo ei' Heo Hcons Hstored)
    as Hsame.
  unfold get_cached_access_token.
  cbn [_tenant_id _additionally_allowed_tenants set_cache].
  rewrite Ht1, Ha1, Hten.
  change {| _authority := _authority self1;
            _tenant_id := _tenant_id self1;
            _client_id := _client_id self1;
            _additionally_allowed_tenants :=
              _additionally_allowed_tenants self1;
            _pipeline := _pipeline self1;
            _cache := if enable_cae kw then _cache self1
                      else Some (p_cache s');
            _cae_cache := if enable_cae kw then Some (p_cache s')
                          else _cae_cache self1;
            _cache_options := _cache_options self1;
            _custom_cache := _custom_cache self1;
            _is_adfs := _is_adfs self1 |}
    with (set_cache self1 (enable_cae kw) (p_cache s')).
  rewrite get_cache_set_cache. cbn [fst _client_id set_cache].
  rewrite Hc1. unfold TokenCache.search. cbn [TokenCache.entries].
  rewrite Hnew, Htb.
  apply lookup_after_set; [exact Hmatch| |exact Hothers].
  intros rest. rewrite Hfirst by (apply Z.gtb_lt; lia).
  rewrite Haccess, Hsame, <- Htok, <- Htt.
  destruct tok as [t eo' tt ro]. cbn in Hro |- *. rewrite Hro.
  reflexivity.
Qed.

End CacheRoundTrip.


(* ===================================================================== *)
(** * The request builders and the signer *)
(* ===================================================================== *)

Section BuilderFacts.
Context {Pipeline CacheOptions : Type}.
Variable resolve_tenant :
  string -> list string -> option string -> result string.
Variable json_loads : string -> result value.
Implicit Types (self : AadClient Pipeline CacheOptions).

Lemma post_spec self data kw request :
  _post resolve_tenant self data kw = Ok request ->
  method request = "POST"
  /\ _get_token_url resolve_tenant self kw = Ok (url request)
  /\ headers request = [("Content-Type", "application/x-www-form-urlencoded")]
  /\ body request = data.
Proof.
  unfold _post.
  destruct (_get_token_url resolve_tenant self kw); simpl; [|discriminate].
  now intros [= <-].
Qed.

(** The form once the claims step has run. *)
Lemma with_claims_spec kw data data' :
  with_claims json_loads kw data = Ok data' ->
  exists merged,
    _merge_claims_challenge_and_capabilities json_loads
      (if enable_cae kw then ["CP1"] else []) (claims kw) = Ok merged
    /\ data'
       = match merged with
         | Some c => if String.eqb c "" then data
                     else Dict.set "claims" (VStr c) data
         | None => data
         end.
Proof.
  unfold with_claims.
  destruct (_merge_claims_challenge_and_capabilities _ _ _) as [merged|];
    [|discriminate].
  simpl. intros H. exists merged. split; [reflexivity|].
  destruct merged as [c|]; [destruct (String.eqb c "")|]; congruence.
Qed.

Lemma with_claims_get kw data data' k :
  with_claims json_loads kw data = Ok data' ->
  k <> "claims" -> Dict.get k data' = Dict.get k data.
Proof.
  intros H N. apply with_claims_spec in H as (merged & _ & ->).
  destruct merged as [c|]; [destruct (String.eqb c "")|]; try reflexivity.
  now apply AssocFacts.get_set_other.
Qed.

Lemma with_secret_get secret data k :
  k <> "client_secret" ->
  Dict.get k (with_secret secret data) = Dict.get k data.
Proof.
  intros N. unfold with_secret.
  destruct secret as [s|]; [destruct (String.eqb s "")|]; try reflexivity.
  now apply AssocFacts.get_set_other.
Qed.

Lemma with_client_credential_get self credential now jti data data' k :
  with_client_credential resolve_tenant self credential now jti data
  = Ok data' ->
  k <> "client_secret" -> k <> "client_assertion" ->
  k <> "client_assertion_type" ->
  Dict.get k data' = Dict.get k data.
Proof.
  unfold with_client_credential. intros H N1 N2 N3.
  destruct credential as [secret|certificate|func].
  - injection H as <-. now apply AssocFacts.get_set_other.
  - destruct (_get_client_certificate_assertion _ _ _ _ _ _);
      [|discriminate].
    simpl in H. injection H as <-.
    now rewrite !AssocFacts.get_set_other.
  - injection H as <-. now rewrite !AssocFacts.get_set_other.
Qed.

Lemma jwt_assertion_request_spec self scopes assertion kw request :
  _get_jwt_assertion_request resolve_tenant json_loads self scopes assertion
    kw = Ok request ->
  exists data,
    with_claims json_loads kw
      [("client_assertion", VStr assertion);
       ("client_assertion_type", VStr JWT_BEARER_ASSERTION);
       ("client_id", VStr (_client_id self));
       ("grant_type", VStr "client_credentials");
       ("scope", VStr (Py.join " " scopes))] = Ok data
    /\ _post resolve_tenant self data kw = Ok request.
Proof.
  unfold _get_jwt_assertion_request.
  destruct (with_claims json_loads kw _) as [data|]; [|discriminate].
  simpl. eauto.
Qed.

(** The form a builder posts, as far as the fields go that every
    request has. *)
Lemma builds_form self scopes kw grant request :
  builds resolve_tenant json_loads self scopes kw grant request ->
  exists data,
    _post resolve_tenant self data kw = Ok request
    /\ Dict.get "client_id" data = Some (VStr (_client_id self))
    /\ Dict.get "scope" data = Some (VStr (Py.join " " scopes))
    /\ Dict.get "grant_type" data = Some (VStr grant)
    /\ (grant = "refresh_token" -> Dict.mem "refresh_token" data = true).
Proof.
  intros H.
  destruct H as [code redirect_uri secret request H
                |assertion request H
                |certificate now jti request H
                |secret request H
                |credential user_assertion now jti request H
                |refresh_token request H
                |credential refresh_token now jti request H].
  - unfold _get_auth_code_request in H.
    destruct (with_claims json_loads kw _) as [data|] eqn:C;
      [|discriminate].
    cbn [bind] in H. eexists. split; [exact H|].
    rewrite !with_secret_get by discriminate.
    rewrite !(with_claims_get _ _ _ _ C) by discriminate.
    repeat split; try reflexivity. discriminate.
  - apply jwt_assertion_request_spec in H as (data & C & H).
    eexists. split; [exact H|].
    rewrite !(with_claims_get _ _ _ _ C) by discriminate.
    repeat split; try reflexivity. discriminate.
  - unfold _get_client_certificate_request in H.
    destruct (_get_client_certificate_assertion _ _ _ _ _ _)
      as [assertion|]; [|discriminate].
    cbn [bind] in H.
    apply jwt_assertion_request_spec in H as (data & C & H).
    eexists. split; [exact H|].
    rewrite !(with_claims_get _ _ _ _ C) by discriminate.
    repeat split; try reflexivity. discriminate.
  - unfold _get_client_secret_request in H.
    destruct (with_claims json_loads kw _) as [data|] eqn:C;
      [|discriminate].
    cbn [bind] in H. eexists. split; [exact H|].
    rewrite !(with_claims_get _ _ _ _ C) by discriminate.
    repeat split; try reflexivity. discriminate.
  - unfold _get_on_behalf_of_request in H.
    destruct (with_claims json_loads kw _) as [data|] eqn:C;
      [|discriminate].
    cbn [bind] in H.
    destruct (with_client_credential _ _ _ _ _ _) as [data'|] eqn:K;
      [|discriminate].
    cbn [bind] in H. eexists. split; [exact H|].
    rewrite !(with_client_credential_get _ _ _ _ _ _ _ K) by discriminate.
    rewrite !(with_claims_get _ _ _ _ C) by discriminate.
    repeat split; try reflexivity. discriminate.
  - unfold _get_refresh_token_request in H.
    destruct (with_claims json_loads kw _) as [data|] eqn:C;
      [|discriminate].
    cbn [bind] in H. eexists. split; [exact H|]. unfold Assoc.mem.
    rewrite !(with_claims_get _ _ _ _ C) by discriminate.
    rewrite !with_secret_get by discriminate.
    repeat split; reflexivity.
  - unfold _get_refresh_token_on_behalf_of_request in H.
    destruct (with_claims json_loads kw _) as [data|] eqn:C;
      [|discriminate].
    cbn [bind] in H.
    destruct (with_client_credential _ _ _ _ _ _) as [data'|] eqn:K;
      [|discriminate].
    cbn [bind] in H. eexists. split; [exact H|]. unfold Assoc.mem.
    rewrite !(with_client_credential_get _ _ _ _ _ _ _ K) by discriminate.
    rewrite !(with_claims_get _ _ _ _ C) by discriminate.
    repeat split; reflexivity.
Qed.

(** X1. Every request a builder returns is a POST to the token endpoint
    of the call, declared as a URL-encoded form, whose form names the
    client, the scopes joined by spaces, and the builder's grant type. *)
Theorem request_shape self scopes kw grant request :
  builds resolve_tenant json_loads self scopes kw grant request ->
  method request = "POST"
  /\ _get_token_url resolve_tenant self kw = Ok (url request)
  /\ headers request
     = [("Content-Type", "application/x-www-form-urlencoded")]
  /\ Dict.get "client_id" (body request) = Some (VStr (_client_id self))
  /\ Dict.get "scope" (body request) = Some (VStr (Py.join " " scopes))
  /\ Dict.get "grant_type" (body request) = Some (VStr grant).
Proof.
  intros H.
  destruct (builds_form _ _ _ _ _ H) as (data & P & G1 & G2 & G3 & _).
  apply post_spec in P as (P1 & P2 & P3 & ->). auto 10.
Qed.

(** X19. What the builders make, [_process_response] can read: the form
    of every request is usable (a refresh-token grant names its refresh
    token, and only the two refresh-token builders make one), and the
    scopes the cache write reads off it are the scopes the builder was
    given, when these are non-empty and free of white space. *)
Theorem request_processable self scopes kw grant request :
  builds resolve_tenant json_loads self scopes kw grant request ->
  form_ok (body request)
  /\ is_refresh_grant (body request) = String.eqb grant "refresh_token"
  /\ request_scopes (body request) = Ok (Py.split (Py.join " " scopes))
  /\ (forallb is_scope scopes = true ->
      request_scopes (body request) = Ok scopes).
Proof.
  intros H.
  destruct (builds_form _ _ _ _ _ H) as (data & P & _ & G2 & G3 & G4).
  apply post_spec in P as (_ & _ & _ & ->).
  assert (R : is_refresh_grant data = String.eqb grant "refresh_token").
  { unfold is_refresh_grant, Dict.get_default. now rewrite G3. }
  assert (S : request_scopes data = Ok (Py.split (Py.join " " scopes))).
  { unfold request_scopes, Dict.item. now rewrite G2. }
  split; [|split; [exact R|split; [exact S|]]].
  - unfold form_ok. rewrite R. intros E. apply G4.
    now apply String.eqb_eq.
  - intros W. rewrite S. now rewrite split_join.
Qed.

(** What the claims step leaves under [claims]. *)
Lemma with_optional_field kw data data' :
  with_claims json_loads kw data = Ok data' ->
  Dict.get "claims" data = None ->
  exists merged,
    _merge_claims_challenge_and_capabilities json_loads
      (if enable_cae kw then ["CP1"] else []) (claims kw) = Ok merged
    /\ Dict.get "claims" data' = optional_field merged.
Proof.
  intros H N. apply with_claims_spec in H as (merged & M & ->).
  exists merged. split; [exact M|]. unfold optional_field.
  destruct merged as [c|]; [destruct (String.eqb c "")|]; auto.
  apply AssocFacts.get_set_same.
Qed.

Lemma builds_claims self scopes kw grant request :
  builds resolve_tenant json_loads self scopes kw grant request ->
  exists merged,
    _merge_claims_challenge_and_capabilities json_loads
      (if enable_cae kw then ["CP1"] else []) (claims kw) = Ok merged
    /\ Dict.get "claims" (body request) = optional_field merged.
Proof.
  intros H.
  assert (G : exists data0 data,
             with_claims json_loads kw data0 = Ok data
             /\ Dict.get "claims" data0 = None
             /\ Dict.get "claims" (body request) = Dict.get "claims" data).
  { destruct H as [code redirect_uri secret request H
                  |assertion request H
                  |certificate now jti request H
                  |secret request H
                  |credential user_assertion now jti request H
                  |refresh_token request H
                  |credential refresh_token now jti request H].
    - unfold _get_auth_code_request in H.
      destruct (with_claims json_loads kw _) as [data|] eqn:C;
        [|discriminate].
      cbn [bind] in H. apply post_spec in H as (_ & _ & _ & ->).
      eexists. exists data. split; [exact C|]. split; [reflexivity|].
      now apply with_secret_get.
    - apply jwt_assertion_request_spec in H as (data & C & H).
      apply post_spec in H as (_ & _ & _ & ->).
      eexists. exists data. split; [exact C|]. split; reflexivity.
    - unfold _get_client_certificate_request in H.
      destruct (_get_client_certificate_assertion _ _ _ _ _ _)
        as [assertion|]; [|discriminate].
      cbn [bind] in H.
      apply jwt_assertion_request_spec in H as (data & C & H).
      apply post_spec in H as (_ & _ & _ & ->).
      eexists. exists data. split; [exact C|]. split; reflexivity.
    - unfold _get_client_secret_request in H.
      destruct (with_claims json_loads kw _) as [data|] eqn:C;
        [|discriminate].
      cbn [bind] in H. apply post_spec in H as (_ & _ & _ & ->).
      eexists. exists data. split; [exact C|]. split; reflexivity.
    - unfold _get_on_behalf_of_request in H.
      destruct (with_claims json_loads kw _) as [data|] eqn:C;
        [|discriminate].
      cbn [bind] in H.
      destruct (with_client_credential _ _ _ _ _ _) as [data'|] eqn:K;
        [|discriminate].
      cbn [bind] in H. apply post_spec in H as (_ & _ & _ & ->).
      eexists. exists data. split; [exact C|]. split; [reflexivity|].
      now apply (with_client_credential_get _ _ _ _ _ _ _ K).
    - unfold _get_refresh_token_request in H.
      destruct (with_claims json_loads kw _) as [data|] eqn:C;
        [|discriminate].
      cbn [bind] in H. apply post_spec in H as (_ & _ & _ & ->).
      eexists. exists data. split; [exact C|]. split; [|reflexivity].
      now rewrite with_secret_get.
    - unfold _get_refresh_token_on_behalf_of_request in H.
      destruct (with_claims json_loads kw _) as [data|] eqn:C;
        [|discriminate].
      cbn [bind] in H.
      destruct (with_client_credential _ _ _ _ _ _) as [data'|] eqn:K;
        [|discriminate].
      cbn [bind] in H. apply post_spec in H as (_ & _ & _ & ->).
      eexists. exists data. split; [exact C|]. split; [reflexivity|].
      now apply (with_client_credential_get _ _ _ _ _ _ _ K). }
  destruct G as (data0 & data & C & N & ->).
  now apply (with_optional_field kw data0).
Qed.

(** X2. The [claims] field of every request a builder returns.  Without
    [enable_cae] it is the claims challenge of the call, word for word
    and unparsed, and is left out when that is absent or empty.  With
    [enable_cae] it is always there and not empty, and without a
    challenge it announces [CP1] alone. *)
Theorem request_claims self scopes kw grant request :
  builds resolve_tenant json_loads self scopes kw grant request ->
  (enable_cae kw = false ->
   Dict.get "claims" (body request) = optional_field (claims kw))
  /\ (enable_cae kw = true ->
      (exists c, Dict.get "claims" (body request) = Some (VStr c)
                 /\ c <> "")
      /\ (optional_field (claims kw) = None ->
          Dict.get "claims" (body request) = Some (VStr cp1_claims))).
Proof.
  intros H. destruct (builds_claims _ _ _ _ _ H) as (merged & M & ->).
  split; intros E; rewrite E in M.
  - simpl in M. now injection M as <-.
  - unfold _merge_claims_challenge_and_capabilities in M.
    split.
    + destruct (match claims kw with
                | Some s => if String.eqb s "" then Ok (VDict [])
                            else json_loads s
                | None => Ok (VDict [])
                end) as [[| | | |l|d]|]; try discriminate.
      cbn [bind] in M.
      destruct (Dict.get "access_token" d) as [[| | | | |a]|];
        try discriminate; injection M as <-;
        unfold optional_field; cbn [String.eqb];
        (eexists; split; [reflexivity|discriminate]).
    + intros N. unfold optional_field in N.
      assert (C : match claims kw with
                  | Some s => if String.eqb s "" then Ok (VDict [])
                              else json_loads s
                  | None => Ok (VDict [])
                  end = Ok (VDict [])).
      { destruct (claims kw) as [s|]; [|reflexivity].
        destruct (String.eqb s ""); [reflexivity|discriminate]. }
      rewrite C in M. simpl in M. injection M as <-. reflexivity.
Qed.

(** X3. The credential fields of the two on-behalf-of requests.  A secret
    goes under [client_secret], even when it is empty, and no assertion
    is written; a certificate or an assertion callable give
    [client_assertion] with the JWT-bearer assertion type, and no
    [client_secret]. *)
Theorem on_behalf_of_credential
    self scopes credential kw now jti request :
  (exists user_assertion,
     _get_on_behalf_of_request resolve_tenant json_loads self scopes
       credential user_assertion kw now jti = Ok request)
  \/ (exists refresh_token,
        _get_refresh_token_on_behalf_of_request resolve_tenant json_loads
          self scopes credential refresh_token kw now jti = Ok request) ->
  match credential with
  | CredSecret secret =>
      Dict.get "client_secret" (body request) = Some (VStr secret)
      /\ Dict.get "client_assertion" (body request) = None
      /\ Dict.get "client_assertion_type" (body request) = None
  | CredCertificate certificate =>
      Dict.get "client_secret" (body request) = None
      /\ Dict.get "client_assertion_type" (body request)
         = Some (VStr JWT_BEARER_ASSERTION)
      /\ exists jwt,
           _get_client_certificate_assertion resolve_tenant self certificate
             no_kwargs now jti = Ok jwt
           /\ Dict.get "client_assertion" (body request) = Some (VStr jwt)
  | CredAssertion func =>
      Dict.get "client_secret" (body request) = None
      /\ Dict.get "client_assertion_type" (body request)
         = Some (VStr JWT_BEARER_ASSERTION)
      /\ Dict.get "client_assertion" (body request) = Some (VStr (func tt))
  end.
Proof.
  intros H.
  assert (G : exists data0 data,
             with_claims json_loads kw data0 = Ok data
             /\ Dict.get "client_secret" data0 = None
             /\ Dict.get "client_assertion" data0 = None
             /\ Dict.get "client_assertion_type" data0 = None
             /\ exists data',
                  with_client_credential resolve_tenant self credential now
                    jti data = Ok data'
                  /\ body request = data').
  { destruct H as [[user_assertion H]|[refresh_token H]];
      [unfold _get_on_behalf_of_request in H
      |unfold _get_refresh_token_on_behalf_of_request in H];
      (destruct (with_claims json_loads kw _) as [data|] eqn:C;
         [|discriminate];
       cbn [bind] in H;
       destruct (with_client_credential _ _ _ _ _ _) as [data'|] eqn:K;
         [|discriminate];
       cbn [bind] in H; apply post_spec in H as (_ & _ & _ & ->);
       eexists; exists data; split; [exact C|];
       repeat (split; [reflexivity|]);
       exists data'; split; [exact K|reflexivity]). }
  destruct G as (data0 & data & C & N1 & N2 & N3 & data' & K & ->).
  rewrite <- (with_claims_get _ _ _ "client_secret" C) in N1
    by discriminate.
  rewrite <- (with_claims_get _ _ _ "client_assertion" C) in N2
    by discriminate.
  rewrite <- (with_claims_get _ _ _ "client_assertion_type" C) in N3
    by discriminate.
  unfold with_client_credential in K.
  destruct credential as [secret|certificate|func].
  - injection K as <-.
    rewrite AssocFacts.get_set_same,
      !AssocFacts.get_set_other by discriminate.
    auto.
  - destruct (_get_client_certificate_assertion _ _ _ _ _ _) as [jwt|];
      [|discriminate].
    cbn [bind] in K. injection K as <-.
    rewrite AssocFacts.get_set_same,
      !AssocFacts.get_set_other by discriminate.
    split; [exact N1|]. split; [reflexivity|].
    exists jwt. split; [reflexivity|].
    apply AssocFacts.get_set_same.
  - injection K as <-.
    rewrite AssocFacts.get_set_same,
      !AssocFacts.get_set_other by discriminate.
    split; [exact N1|]. split; [reflexivity|].
    apply AssocFacts.get_set_same.
Qed.

(** X4. The [client_secret] field of the other requests.  The
    authorization-code request and the refresh-token request carry the
    secret they are given (the latter as a keyword argument), and leave
    the field out when it is absent or empty; the client-secret request
    always carries its secret; the assertion and certificate requests
    never carry one. *)
Theorem request_client_secret self scopes kw request :
  (forall code redirect_uri client_secret,
     _get_auth_code_request resolve_tenant json_loads self scopes code
       redirect_uri client_secret kw = Ok request ->
     Dict.get "client_secret" (body request) = optional_field client_secret)
  /\ (forall refresh_token,
        _get_refresh_token_request resolve_tenant json_loads self scopes
          refresh_token kw = Ok request ->
        Dict.get "client_secret" (body request)
        = optional_field (client_secret kw))
  /\ (forall secret,
        _get_client_secret_request resolve_tenant json_loads self scopes
          secret kw = Ok request ->
        Dict.get "client_secret" (body request) = Some (VStr secret))
  /\ (forall assertion,
        _get_jwt_assertion_request resolve_tenant json_loads self scopes
          assertion kw = Ok request ->
        Dict.get "client_secret" (body request) = None)
  /\ (forall certificate now jti,
        _get_client_certificate_request resolve_tenant json_loads self
          scopes certificate kw now jti = Ok request ->
        Dict.get "client_secret" (body request) = None).
Proof.
  assert (S : forall secret data,
             Dict.get "client_secret" data = None ->
             Dict.get "client_secret" (with_secret secret data)
             = optional_field secret).
  { intros secret data N. unfold with_secret, optional_field.
    destruct secret as [s|]; [destruct (String.eqb s "")|]; auto.
    apply AssocFacts.get_set_same. }
  repeat split.
  - intros code redirect_uri secret H.
    unfold _get_auth_code_request in H.
    destruct (with_claims json_loads kw _) as [data|] eqn:C;
      [|discriminate].
    cbn [bind] in H. apply post_spec in H as (_ & _ & _ & ->).
    apply S. now rewrite (with_claims_get _ _ _ _ C) by discriminate.
  - intros refresh_token H.
    unfold _get_refresh_token_request in H.
    destruct (with_claims json_loads kw _) as [data|] eqn:C;
      [|discriminate].
    cbn [bind] in H. apply post_spec in H as (_ & _ & _ & ->).
    rewrite (with_claims_get _ _ _ _ C) by discriminate. now apply S.
  - intros secret H.
    unfold _get_client_secret_request in H.
    destruct (with_claims json_loads kw _) as [data|] eqn:C;
      [|discriminate].
    cbn [bind] in H. apply post_spec in H as (_ & _ & _ & ->).
    now rewrite (with_claims_get _ _ _ _ C) by discriminate.
  - intros assertion H.
    apply jwt_assertion_request_spec in H as (data & C & H).
    apply post_spec in H as (_ & _ & _ & ->).
    now rewrite (with_claims_get _ _ _ _ C) by discriminate.
  - intros certificate now jti H.
    unfold _get_client_certificate_request in H.
    destruct (_get_client_certificate_assertion _ _ _ _ _ _)
      as [assertion|]; [|discriminate].
    cbn [bind] in H.
    apply jwt_assertion_request_spec in H as (data & C & H).
    apply post_spec in H as (_ & _ & _ & ->).
    now rewrite (with_claims_get _ _ _ _ C) by discriminate.
Qed.

(** X5. The client-certificate request signs for the endpoint it is sent
    to: its [client_assertion] is the assertion the signer makes with the
    keyword arguments of the call, of the JWT-bearer type, and the [aud]
    claim of that assertion is the URL of the request. *)
Theorem client_certificate_request_audience
    self scopes certificate kw now jti request :
  _get_client_certificate_request resolve_tenant json_loads self scopes
    certificate kw now jti = Ok request ->
  exists jwt,
    _get_client_certificate_assertion resolve_tenant self certificate kw
      now jti = Ok jwt
    /\ Dict.get "client_assertion" (body request) = Some (VStr jwt)
    /\ Dict.get "client_assertion_type" (body request)
       = Some (VStr JWT_BEARER_ASSERTION)
    /\ Jwt.member "aud" (Jwt.payload_of jwt) = Some (VStr (url request)).
Proof.
  unfold _get_client_certificate_request. intros H.
  destruct (_get_client_certificate_assertion _ _ _ _ _ _)
    as [jwt|] eqn:J; [|discriminate].
  cbn [bind] in H.
  apply jwt_assertion_request_spec in H as (data & C & H).
  apply post_spec in H as (_ & U & _ & ->).
  exists jwt. split; [reflexivity|].
  rewrite !(with_claims_get _ _ _ _ C) by discriminate.
  split; [reflexivity|]. split; [reflexivity|].
  destruct (AssertionFacts.assertion_payload_ok _ _ _ _ _ _ _ J)
    as (payload & P).
  destruct (AssertionFacts.decoded_assertion _ _ certificate _ _ _ _ P)
    as (jwt' & J' & _ & _ & Hp).
  rewrite J in J'. injection J' as <-. rewrite Hp.
  unfold assertion_payload in P. rewrite U in P. cbn [bind] in P.
  now injection P as <-.
Qed.

End BuilderFacts.

Section SignerFacts.
Context {Pipeline CacheOptions : Type}.
Variable resolve_tenant :
  string -> list string -> option string -> result string.
Implicit Types (self : AadClient Pipeline CacheOptions).

(** X6. The signer fails only when the token endpoint cannot be
    resolved, and then with the error of that step; whatever bytes the
    certificate signs with, the final decoding never fails. *)
Theorem client_certificate_assertion_total
    self certificate kw now jti :
  match _get_token_url resolve_tenant self kw with
  | Ok _ =>
      exists jwt,
        _get_client_certificate_assertion resolve_tenant self certificate
          kw now jti = Ok jwt
  | Raise e =>
      _get_client_certificate_assertion resolve_tenant self certificate kw
        now jti = Raise e
  end.
Proof.
  destruct (_get_token_url resolve_tenant self kw) as [aud|e] eqn:U.
  - assert (P : assertion_payload resolve_tenant self kw now jti
                = Ok [("jti", VStr jti); ("aud", VStr aud);
                      ("iss", VStr (_client_id self));
                      ("sub", VStr (_client_id self));
                      ("nbf", VInt now); ("exp", VInt (now + 60 * 30))])
      by (unfold assertion_payload; now rewrite U).
    destruct (AssertionFacts.decoded_assertion _ _ certificate _ _ _ _ P)
      as (jwt & J & _).
    now exists jwt.
  - unfold _get_client_certificate_assertion, assertion_payload.
    now rewrite U.
Qed.

(** X7. An assertion names the client as issuer and subject, carries the
    identifier drawn for it and the time of signing as [nbf], and
    declares the type [JWT]; its payload has these claims, [aud] and
    [exp], and no other. *)
Theorem client_certificate_assertion_identity
    self certificate kw now jti jwt :
  _get_client_certificate_assertion resolve_tenant self certificate kw now
    jti = Ok jwt ->
  Jwt.member "iss" (Jwt.payload_of jwt) = Some (VStr (_client_id self))
  /\ Jwt.member "sub" (Jwt.payload_of jwt) = Some (VStr (_client_id self))
  /\ Jwt.member "jti" (Jwt.payload_of jwt) = Some (VStr jti)
  /\ Jwt.member "nbf" (Jwt.payload_of jwt) = Some (VInt now)
  /\ Jwt.member "typ" (Jwt.header_of jwt) = Some (VStr "JWT")
  /\ (exists payload,
        Jwt.payload_of jwt = Some (VDict payload)
        /\ Assoc.keys payload = ["jti"; "aud"; "iss"; "sub"; "nbf"; "exp"])
  /\ (exists header,
        Jwt.header_of jwt = Some (VDict header)
        /\ length header = 3%nat).
Proof.
  intros J.
  destruct (AssertionFacts.assertion_payload_ok _ _ _ _ _ _ _ J)
    as (payload & P).
  destruct (AssertionFacts.decoded_assertion _ _ certificate _ _ _ _ P)
    as (jwt' & J' & _ & Hh & Hp).
  rewrite J in J'. injection J' as <-. rewrite Hh, Hp.
  unfold assertion_payload in P.
  destruct (_get_token_url resolve_tenant self kw) as [aud|];
    [|discriminate].
  cbn [bind] in P. injection P as <-.
  repeat (split; [reflexivity|]).
  split.
  - unfold assertion_headers. now destruct (_is_adfs self).
  - split.
    + eexists. split; reflexivity.
    + eexists. split; [reflexivity|].
      unfold assertion_headers. now destruct (_is_adfs self).
Qed.

End SignerFacts.


(* ===================================================================== *)
(** * The caches of a client *)
(* ===================================================================== *)

Section CacheFacts.
Context {Pipeline CacheOptions HttpResponse : Type}.
Variable resolve_tenant :
  string -> list string -> option string -> result string.
Variable _load_persistent_cache : CacheOptions -> bool -> TokenCache.t.
Variable deserialize_from_http_generics : HttpResponse -> result dict.
Variable canonicalize : string -> string * string.
Variable home_account_id : dict -> value.
Implicit Types (self : AadClient Pipeline CacheOptions)
  (response : PipelineResponse HttpResponse).

Local Abbreviation process_response :=
  (_process_response _load_persistent_cache deserialize_from_http_generics
     canonicalize home_account_id).
Local Abbreviation get_cache := (_get_cache _load_persistent_cache).

(** X8. [_get_cache] creates a cache at most once.  A cache the client
    holds for the kind asked is returned and the client is left as it
    is; otherwise the cache is loaded from the persistence options, or
    made empty without them, and kept.  Asking again returns the same
    cache and changes nothing, and the cache of the other kind, like
    every other attribute, is never touched. *)
Theorem get_cache_once self kw :
  let held := if enable_cae kw then _cae_cache self else _cache self in
  let cache := fst (get_cache self kw) in
  let self1 := snd (get_cache self kw) in
  cache
  = match held, _cache_options self with
    | Some c, _ => c
    | None, Some options => _load_persistent_cache options (enable_cae kw)
    | None, None => TokenCache.empty
    end
  /\ self1 = set_cache self (enable_cae kw) cache
  /\ (held <> None -> self1 = self)
  /\ get_cache self1 kw = (cache, self1)
  /\ (if enable_cae kw then _cache self1 = _cache self
      else _cae_cache self1 = _cae_cache self).
Proof.
  unfold _get_cache, _initialize_cache, set_cache.
  destruct self as [a t c al p c1 c2 o cc ad]. cbn.
  destruct (enable_cae kw); cbn.
  - destruct c2 as [x|]; cbn.
    + repeat split; auto.
    + destruct o; cbn; repeat split; auto; congruence.
  - destruct c1 as [x|]; cbn.
    + repeat split; auto.
    + destruct o; cbn; repeat split; auto; congruence.
Qed.

Lemma first_valid_token_sound l now tok :
  first_valid_token l now = Ok (Some tok) ->
  exists entry e,
    In entry l
    /\ Dict.get "expires_on" entry = Some e
    /\ Py.int e = Ok (expires_on tok)
    /\ now < expires_on tok
    /\ Dict.get "secret" entry = Some (token tok)
    /\ token_type tok
       = Dict.get_default "token_type" (VStr "Bearer") entry.
Proof.
  induction l as [|entry l IH]; [discriminate|].
  cbn [first_valid_token]. unfold Dict.item.
  destruct (Dict.get "expires_on" entry) as [e|] eqn:E; [|discriminate].
  cbn [bind]. destruct (Py.int e) as [n|] eqn:N; [|discriminate].
  cbn [bind]. destruct (n >? now) eqn:V.
  - destruct (match Dict.get "refresh_on" entry with
              | Some r => do n0 <- Py.int r; Ok (Some n0)
              | None => Ok None
              end) as [ro|]; [|discriminate].
    cbn [bind].
    destruct (Dict.get "secret" entry) as [secret|] eqn:S; [|discriminate].
    cbn [bind]. intros [= <-]. exists entry, e. cbn.
    repeat split; auto. apply Z.gtb_lt in V. lia.
  - intros H. destruct (IH H) as (entry' & e' & Hin & R).
    exists entry', e'. split; [now right|exact R].
Qed.

Lemma first_valid_token_expired l now :
  forallb (expired_at now) l = true -> first_valid_token l now = Ok None.
Proof.
  induction l as [|entry l IH]; [reflexivity|].
  cbn [forallb]. intros [H1 H2]%andb_prop.
  rewrite expired_skip by assumption. now apply IH.
Qed.

(** X9. A token the lookup returns is never expired and never made up:
    it is read off an access-token entry of the selected cache that is
    filed for the client and the resolved tenant and whose targets
    include every scope asked for, and it expires after the time of the
    lookup. *)
Theorem cached_access_token_sound self scopes kw now tok :
  fst (get_cached_access_token resolve_tenant _load_persistent_cache self
         scopes kw now) = Ok (Some tok) ->
  exists tenant entry,
    resolve_tenant (_tenant_id self) (_additionally_allowed_tenants self)
      (tenant_id kw) = Ok tenant
    /\ In entry
         (map snd
            (TokenCache.access_tokens
               (selected_cache _load_persistent_cache self kw)))
    /\ Dict.get "client_id" entry = Some (VStr (_client_id self))
    /\ Dict.get "realm" entry = Some (VStr tenant)
    /\ (forall s, In s scopes ->
          In s (Py.split (TokenCache.field "target" entry)))
    /\ Dict.get "secret" entry = Some (token tok)
    /\ now < expires_on tok.
Proof.
  unfold get_cached_access_token, selected_cache.
  destruct (resolve_tenant _ _ _) as [tenant|]; [|discriminate].
  pose proof (get_cache_client_id _load_persistent_cache self kw) as Hc.
  destruct (_get_cache _load_persistent_cache self kw) as [cache self1].
  cbn [fst snd] in *. intros H.
  apply first_valid_token_sound in H
    as (entry & e & Hin & _ & _ & Hv & Hs & _).
  unfold TokenCache.search in Hin. apply filter_In in Hin as [Hin Hm].
  exists tenant, entry. split; [reflexivity|]. split; [exact Hin|].
  unfold TokenCache.is_matching, TokenCache.is_subdict_of in Hm.
  cbn [forallb fst snd] in Hm. rewrite Hc in Hm.
  apply andb_prop in Hm as [Hq Ht].
  apply andb_prop in Hq as [Hq1 Hq2].
  apply andb_prop in Hq2 as [Hq2 _].
  assert (Q : forall k s,
             match Dict.get k entry with
             | Some v => py_eq v (VStr s)
             | None => false
             end = true ->
             Dict.get k entry = Some (VStr s)).
  { intros k s. destruct (Dict.get k entry) as [[| | |s'| |]|];
      try discriminate.
    cbn [py_eq]. now intros ->%String.eqb_eq. }
  split; [now apply Q|]. split; [now apply Q|].
  split; [|split; [exact Hs|exact Hv]].
  intros s Hs'. unfold TokenCache.target_matches in Ht.
  rewrite forallb_forall in Ht. specialize (Ht s Hs').
  unfold TokenCache.mem_str in Ht. apply existsb_exists in Ht
    as (x & Hx & ->%String.eqb_eq).
  exact Hx.
Qed.

(** X10. The lookup finds nothing when every entry it matches is past
    its expiry, and in particular when it matches none; it fails with
    the error of [resolve_tenant] when the tenant asked for is refused,
    and then creates no cache. *)
Theorem cached_access_token_miss self scopes kw now :
  match resolve_tenant (_tenant_id self) (_additionally_allowed_tenants self)
          (tenant_id kw) with
  | Ok tenant =>
      forallb (expired_at now)
        (TokenCache.search (selected_cache _load_persistent_cache self kw)
           TokenCache.ACCESS_TOKEN scopes
           (lookup_query (_client_id self) tenant)) = true ->
      fst (get_cached_access_token resolve_tenant _load_persistent_cache
             self scopes kw now) = Ok None
  | Raise e =>
      get_cached_access_token resolve_tenant _load_persistent_cache self
        scopes kw now = (Raise e, self)
  end.
Proof.
  unfold get_cached_access_token, selected_cache.
  destruct (resolve_tenant _ _ _) as [tenant|]; [|reflexivity].
  pose proof (get_cache_client_id _load_persistent_cache self kw) as Hc.
  destruct (_get_cache _load_persistent_cache self kw) as [cache self1].
  cbn [fst snd] in *. rewrite Hc. intros H.
  now apply first_valid_token_expired.
Qed.

Lemma get_cache_other self kw :
  other_cache kw (snd (get_cache self kw)) = other_cache kw self.
Proof.
  unfold other_cache, _get_cache, _initialize_cache, set_cache.
  destruct (enable_cae kw);
    [destruct (_cae_cache self)|destruct (_cache self)]; reflexivity.
Qed.

Lemma set_cache_other self kw c :
  other_cache kw (set_cache self (enable_cae kw) c) = other_cache kw self.
Proof. unfold other_cache, set_cache. now destruct (enable_cae kw). Qed.

Lemma process_response_other self response request_time kw now :
  other_cache kw (out_self (process_response self response request_time kw
                              now))
  = other_cache kw self.
Proof.
  unfold _process_response.
  destruct (response_content _ response) as [content|]; [|reflexivity].
  pose proof (get_cache_other self kw) as H.
  destruct (_get_cache _load_persistent_cache self kw) as [cache self1].
  cbn [snd] in H.
  destruct (process _ _ _ _ _ _ _) as [r s]. cbn [out_self].
  now rewrite set_cache_other.
Qed.

(** X12. A token obtained with [enable_cae] is not served to a lookup
    made without it: on a client that holds no ordinary cache and has no
    persistence options, whatever response is processed with
    [enable_cae], the lookup without it finds nothing. *)
Theorem cae_token_not_served
    self response request_time kw now scopes kw' now' tenant :
  _cache self = None ->
  _cache_options self = None ->
  enable_cae kw = true ->
  enable_cae kw' = false ->
  resolve_tenant (_tenant_id self) (_additionally_allowed_tenants self)
    (tenant_id kw') = Ok tenant ->
  fst (get_cached_access_token resolve_tenant _load_persistent_cache
         (out_self (process_response self response request_time kw now))
         scopes kw' now')
  = Ok None.
Proof.
  intros Hc Ho Hk Hk' Ht.
  pose proof (process_response_other self response request_time kw now)
    as H.
  unfold other_cache in H. rewrite Hk in H. rewrite Hc in H.
  set (self' := out_self _) in *.
  assert (A : _tenant_id self' = _tenant_id self
              /\ _additionally_allowed_tenants self'
                 = _additionally_allowed_tenants self
              /\ _cache_options self' = _cache_options self).
  { subst self'. unfold _process_response.
    destruct (response_content _ response) as [content|]; [|auto].
    unfold _get_cache, _initialize_cache.
    destruct (if enable_cae kw then _cae_cache self else _cache self);
      cbn; destruct (process _ _ _ _ _ _ _); cbn; auto. }
  destruct A as (A1 & A2 & A3).
  unfold get_cached_access_token. rewrite A1, A2, Ht.
  unfold _get_cache, _initialize_cache. rewrite Hk', H, A3, Ho.
  reflexivity.
Qed.

End CacheFacts.


(* ===================================================================== *)
(** * Response processing: what is cached and what is returned *)
(* ===================================================================== *)

Lemma in_set_same V k (v : V) l : In (k, v) (Assoc.set k v l).
Proof.
  induction l as [|[k' v'] l IH]; cbn; [now left|].
  destruct (String.eqb k k'); cbn; auto.
Qed.

Section StoreRefresh.
Variable canonicalize : string -> string * string.
Variable home_account_id : dict -> value.

Lemma refresh_entry ev now r :
  Dict.get "refresh_token" (TokenCache.ev_response ev) = Some r ->
  Py.truthy r = true ->
  exists e,
    TokenCache.refresh_token_entry canonicalize home_account_id ev now
    = Some e
    /\ Dict.get "secret" e = Some r
    /\ TokenCache.field "target" e
       = Py.join " " (TokenCache.sorted (TokenCache.ev_scope ev)).
Proof.
  intros G T. unfold TokenCache.refresh_token_entry, Dict.get_default.
  rewrite G, T.
  destruct (canonicalize (TokenCache.ev_token_endpoint ev)) as [env realm].
  destruct (Dict.get "foci" (TokenCache.ev_response ev)) as [f|];
    eexists; (split; [reflexivity|]); split; reflexivity.
Qed.

End StoreRefresh.

Section ProcessMore.
Context {Pipeline CacheOptions HttpResponse : Type}.
Variable _load_persistent_cache : CacheOptions -> bool -> TokenCache.t.
Variable deserialize_from_http_generics : HttpResponse -> result dict.
Variable canonicalize : string -> string * string.
Variable home_account_id : dict -> value.
Implicit Types (self : AadClient Pipeline CacheOptions)
  (response : PipelineResponse HttpResponse).

Local Abbreviation process_response :=
  (_process_response _load_persistent_cache deserialize_from_http_generics
     canonicalize home_account_id).
Local Abbreviation content_of :=
  (response_content deserialize_from_http_generics).

(** X13. A refresh token that comes with a successful response to a
    request of another grant is kept for later: when the scopes of the
    request are non-empty texts free of white space, joined by single
    spaces in the form, the refresh-token lookup for these scopes then
    returns an entry that holds it. *)
Theorem refresh_token_cached
    self response request_time kw now tok content scopes r :
  let request := http_request response in
  let out := process_response self response request_time kw now in
  content_of response = Ok content ->
  is_refresh_grant (body request) = false ->
  out_result out = Ok tok ->
  Dict.get "refresh_token" content = Some r ->
  Py.truthy r = true ->
  Dict.get "scope" (body request) = Some (VStr (Py.join " " scopes)) ->
  forallb is_scope scopes = true ->
  exists entry,
    In entry
      (fst (get_cached_refresh_tokens _load_persistent_cache (out_self out)
              scopes kw))
    /\ Dict.get "secret" entry = Some r.
Proof.
  intros request out Hc G Hok Hr Ht Hscope Hsc.
  subst out. rewrite (process_response_run _ _ _ _ _ _ _ _ _ Hc) in *.
  cbv zeta in *. cbn [out_result out_self out_content] in *.
  set (self1 := snd (_get_cache _load_persistent_cache self kw)) in *.
  set (cache := selected_cache _load_persistent_cache self kw) in *.
  rewrite process_split in *. fold request in Hok |- *.
  rewrite (refresh_grant_other_grant _ now _ G) in *.
  destruct (process_tail canonicalize home_account_id self1 request
              request_time {| p_cache := cache; p_content := content |})
    as [res s'] eqn:Htail.
  cbn [fst snd] in *. subst res.
  apply tail_ok in Htail
    as (_ & eo & ei & scope & _ & _ & Hc' & _ & _ & _ & _ & Hrs & Hadd).
  cbn [p_content p_cache] in *.
  assert (scope = scopes) as ->.
  { unfold request_scopes, Dict.item in Hrs. rewrite Hscope in Hrs.
    cbn [bind] in Hrs. injection Hrs as <-. now apply split_join. }
  apply add_refresh_tokens in Hadd.
  destruct (refresh_entry canonicalize home_account_id
              (cache_event (_client_id self1) request (p_content s') scopes)
              request_time r)
    as (e & He & Hsecret & Htarget); [|exact Ht|].
  { cbn [TokenCache.ev_response cache_event].
    rewrite Hc', get_with_refresh_in by discriminate. exact Hr. }
  rewrite He in Hadd. cbn [TokenCache.ev_scope cache_event] in Htarget.
  exists e. split; [|exact Hsecret].
  unfold get_cached_refresh_tokens.
  change {| _authority := _authority self1;
            _tenant_id := _tenant_id self1;
            _client_id := _client_id self1;
            _additionally_allowed_tenants :=
              _additionally_allowed_tenants self1;
            _pipeline := _pipeline self1;
            _cache := if enable_cae kw then _cache self1
                      else Some (p_cache s');
            _cae_cache := if enable_cae kw then Some (p_cache s')
                          else _cae_cache self1;
            _cache_options := _cache_options self1;
            _custom_cache := _custom_cache self1;
            _is_adfs := _is_adfs self1 |}
    with (set_cache self1 (enable_cae kw) (p_cache s')).
  rewrite get_cache_set_cache. cbn [fst].
  unfold TokenCache.search. cbn [TokenCache.entries]. rewrite Hadd.
  apply filter_In. split.
  - apply in_map_iff. eexists. split; [|apply in_set_same]. reflexivity.
  - unfold TokenCache.is_matching, TokenCache.is_subdict_of,
      TokenCache.target_matches.
    cbn [forallb andb]. rewrite Htarget. now apply scopes_in_target.
Qed.

(** X14. Caching is the last step: a call of [_process_response] that
    fails, for whatever reason, leaves the access tokens of the cache as
    they were, and leaves the whole cache as it was unless the request
    was a refresh-token grant. *)
Theorem process_response_failure self response request_time kw now e :
  let out := process_response self response request_time kw now in
  out_result out = Raise e ->
  TokenCache.access_tokens
    (selected_cache _load_persistent_cache (out_self out) kw)
  = TokenCache.access_tokens (selected_cache _load_persistent_cache self kw)
  /\ (is_refresh_grant (body (http_request response)) = false ->
      selected_cache _load_persistent_cache (out_self out) kw
      = selected_cache _load_persistent_cache self kw).
Proof.
  intros out Hr. subst out.
  destruct (content_of response) as [content|x] eqn:Hc.
  - rewrite (process_response_run _ _ _ _ _ _ _ _ _ Hc) in *.
    cbv zeta in *. cbn [out_result out_self] in *.
    rewrite selected_cache_set_cache.
    set (self1 := snd (_get_cache _load_persistent_cache self kw)) in *.
    set (cache := selected_cache _load_persistent_cache self kw) in *.
    rewrite process_split in *.
    pose proof (refresh_grant_access_tokens (body (http_request response))
                  now {| p_cache := cache; p_content := content |}) as Htb.
    pose proof (refresh_grant_other_grant (body (http_request response))
                  now {| p_cache := cache; p_content := content |}) as Hog.
    destruct (process_refresh_grant (body (http_request response)) now
                {| p_cache := cache; p_content := content |})
      as [[[]|x] s1].
    + destruct (process_tail canonicalize home_account_id self1
                  (http_request response) request_time s1)
        as [res s'] eqn:Htail.
      cbn [fst snd p_cache] in *. subst res.
      apply tail_raise_cache in Htail. rewrite Htail.
      split; [exact Htb|].
      intros G. specialize (Hog G). now injection Hog as ->.
    + cbn [fst snd p_cache] in *. split; [exact Htb|].
      intros G. specialize (Hog G). discriminate.
  - unfold _process_response. rewrite Hc. cbn [out_self]. auto.
Qed.

Lemma process_response_success
    self response request_time kw now content tok :
  content_of response = Ok content ->
  out_result (process_response self response request_time kw now) = Ok tok ->
  exists c1 ei,
    (forall k, k <> "refresh_token" -> Dict.get k c1 = Dict.get k content)
    /\ Dict.mem "error" c1 = false
    /\ computed_expires_on c1 request_time = Ok (expires_on tok)
    /\ computed_expires_in c1 request_time = Ok ei
    /\ Dict.get "access_token" (with_refresh_in c1 ei) = Some (token tok)
    /\ token_type tok
       = Dict.get_default "token_type" (VStr "Bearer")
           (with_refresh_in c1 ei)
    /\ refresh_on tok
       = match Dict.get "refresh_in" (with_refresh_in c1 ei) with
         | Some r =>
             match Py.int r with
             | Ok n => Some (request_time + n)
             | Raise _ => None
             end
         | None => None
         end.
Proof.
  intros Hc Hok.
  rewrite (process_response_run _ _ _ _ _ _ _ _ _ Hc) in Hok.
  cbv zeta in Hok. cbn [out_result] in Hok.
  set (self1 := snd (_get_cache _load_persistent_cache self kw)) in *.
  set (cache := selected_cache _load_persistent_cache self kw) in *.
  rewrite process_split in Hok.
  pose proof (fun k H => refresh_grant_get (body (http_request response))
                now {| p_cache := cache; p_content := content |} k H)
    as Hget.
  destruct (process_refresh_grant (body (http_request response)) now
              {| p_cache := cache; p_content := content |})
    as [[[]|x] s1]; [|discriminate].
  destruct (process_tail canonicalize home_account_id self1
              (http_request response) request_time s1)
    as [res s'] eqn:Htail.
  cbn [fst snd p_content] in *. subst res.
  apply tail_ok in Htail
    as (Herr & eo & ei & scope & Heo & Hei & Hc' & Htok & Hat & Htt & Hro
        & _).
  exists (p_content s1), ei. rewrite <- Hc'. subst eo.
  repeat split; assumption.
Qed.

(** X15. The token of a successful call.  The response has no [error];
    the token is its [access_token], of the type it names or [Bearer]
    when it names none; and it expires when [expires_on] says if the
    response has that field, whatever [expires_in] says, and otherwise
    [expires_in] seconds after the request. *)
Theorem process_response_token
    self response request_time kw now content tok :
  content_of response = Ok content ->
  out_result (process_response self response request_time kw now) = Ok tok ->
  Dict.mem "error" content = false
  /\ Dict.get "access_token" content = Some (token tok)
  /\ token_type tok = Dict.get_default "token_type" (VStr "Bearer") content
  /\ match Dict.get "expires_on" content with
     | Some e => Py.int e = Ok (expires_on tok)
     | None =>
         exists i n,
           Dict.get "expires_in" content = Some i
           /\ Py.int i = Ok n
           /\ expires_on tok = request_time + n
     end.
Proof.
  intros Hc Hok.
  destruct (process_response_success _ _ _ _ _ _ _ Hc Hok)
    as (c1 & ei & Hget & Herr & Heo & _ & Hat & Htt & _).
  rewrite get_with_refresh_in in Hat by discriminate.
  unfold Dict.get_default in Htt.
  rewrite get_with_refresh_in in Htt by discriminate.
  unfold Assoc.mem in Herr |- *. unfold Dict.get_default.
  rewrite Hget in Herr, Hat, Htt by discriminate.
  split; [exact Herr|]. split; [exact Hat|]. split; [exact Htt|].
  unfold computed_expires_on, Dict.get_default in Heo.
  rewrite !Hget in Heo by discriminate.
  destruct (Dict.get "expires_on" content) as [e|]; [exact Heo|].
  destruct (Dict.get "expires_in" content) as [i|];
    [|cbn in Heo; discriminate].
  destruct (Py.int i) as [n|] eqn:N; [|discriminate].
  cbn [bind] in Heo. injection Heo as <-. now exists i, n.
Qed.

(** X16. When a successful response gives its expiry one way only and no
    [refresh_in], the token is to be refreshed half-way between the
    request and the expiry if those are at least two hours apart, and
    has no refresh time otherwise; a refresh time set this way is at
    least an hour after the request and before the expiry. *)
Theorem process_response_refresh_on
    self response request_time kw now content tok :
  content_of response = Ok content ->
  out_result (process_response self response request_time kw now) = Ok tok ->
  Dict.mem "refresh_in" content = false ->
  Dict.mem "expires_on" content && Dict.mem "expires_in" content = false ->
  let lifetime := expires_on tok - request_time in
  refresh_on tok
  = (if 7200 <=? lifetime then Some (request_time + lifetime / 2) else None)
  /\ (forall r, refresh_on tok = Some r ->
        request_time + 3600 <= r < expires_on tok).
Proof.
  intros Hc Hok Hri Hone lifetime.
  destruct (process_response_success _ _ _ _ _ _ _ Hc Hok)
    as (c1 & ei & Hget & _ & Heo & Hei & _ & _ & Hro).
  assert (Hl : ei = lifetime).
  { unfold computed_expires_in, computed_expires_on, Dict.get_default,
      Assoc.mem in *.
    rewrite !Hget in Heo, Hei by discriminate.
    destruct (Dict.get "expires_on" content) as [e|].
    - destruct (Dict.get "expires_in" content) as [i|]; [discriminate|].
      rewrite Heo in Hei. cbn in Hei. now injection Hei as <-.
    - destruct (Dict.get "expires_in" content) as [i|];
        [|cbn in Heo; discriminate].
      destruct (Py.int i) as [n|] eqn:N; [|discriminate].
      cbn [bind] in Heo, Hei. injection Heo as Heo.
      destruct (Py.truthy i).
      + rewrite N in Hei. injection Hei as <-. subst lifetime. lia.
      + cbn in Hei. injection Hei as <-. subst lifetime. lia. }
  assert (Hr : refresh_on tok
               = if 7200 <=? lifetime
                 then Some (request_time + lifetime / 2) else None).
  { rewrite Hro. unfold with_refresh_in, Assoc.mem in *.
    rewrite Hget by discriminate.
    destruct (Dict.get "refresh_in" content) eqn:R; [discriminate|].
    cbn [negb andb]. rewrite Hl.
    replace (lifetime >=? 7200) with (7200 <=? lifetime)
      by (rewrite Z.geb_leb; reflexivity).
    destruct (7200 <=? lifetime).
    - rewrite AssocFacts.get_set_same. reflexivity.
    - rewrite Hget, R by discriminate. reflexivity. }
  split; [exact Hr|].
  intros r. rewrite Hr. destruct (7200 <=? lifetime) eqn:L; [|discriminate].
  intros [= <-]. apply Z.leb_le in L.
  assert (3600 <= lifetime / 2) by (apply Z.div_le_lower_bound; lia).
  assert (lifetime / 2 < lifetime) by (apply Z.div_lt; lia).
  subst lifetime. lia.
Qed.

End ProcessMore.


(* ===================================================================== *)
(** * The module-level helpers *)
(* ===================================================================== *)

Lemma set_set_same V k (v w : V) d :
  Assoc.set k v (Assoc.set k w d) = Assoc.set k v d.
Proof.
  induction d as [|[k' x] d IH]; cbn.
  - now rewrite String.eqb_refl.
  - destruct (String.eqb k k') eqn:E; cbn; rewrite ?String.eqb_refl, ?E;
      congruence.
Qed.

Lemma mem_set V k k' (v : V) d :
  Assoc.mem k (Assoc.set k' v d) = String.eqb k k' || Assoc.mem k d.
Proof.
  destruct (String.eqb k k') eqn:E.
  - apply String.eqb_eq in E. subst. apply AssocFacts.mem_set_same.
  - apply AssocFacts.mem_set_other. now apply String.eqb_neq.
Qed.

Lemma set_get_same V k (v : V) d :
  Assoc.get k d = Some v -> Assoc.set k v d = d.
Proof.
  induction d as [|[k' x] d IH]; cbn; [discriminate|].
  destruct (String.eqb k k') eqn:E.
  - apply String.eqb_eq in E. subst. now intros [= ->].
  - intros H. now rewrite IH.
Qed.

Lemma scrub_get_secret k content :
  k = "access_token" \/ k = "refresh_token" ->
  Dict.get k (_scrub_secrets content)
  = if Dict.mem k content then Some (VStr "***") else None.
Proof.
  intros K.
  assert (M : masked k (_scrub_secrets content))
    by (destruct K as [-> | ->];
        [apply scrub_masked_access_token
        |apply scrub_masked_refresh_token]).
  rewrite <- (@scrub_mem k content). unfold masked, Assoc.mem in *.
  destruct M as [-> | ->]; reflexivity.
Qed.

(** X17. Scrubbing masks the two secrets and nothing else: the response
    keeps its keys in their order, every other field keeps its value,
    [access_token] and [refresh_token] read [***] when they are there
    and are not added when they are not, and scrubbing twice is
    scrubbing once. *)
Theorem scrub_secrets_spec content :
  Assoc.keys (_scrub_secrets content) = Assoc.keys content
  /\ (forall k, k <> "access_token" -> k <> "refresh_token" ->
        Dict.get k (_scrub_secrets content) = Dict.get k content)
  /\ (forall k, k = "access_token" \/ k = "refresh_token" ->
        Dict.get k (_scrub_secrets content)
        = if Dict.mem k content then Some (VStr "***") else None)
  /\ _scrub_secrets (_scrub_secrets content) = _scrub_secrets content.
Proof.
  split; [|split; [|split]].
  - unfold _scrub_secrets, Assoc.keys. cbn [fold_left].
    destruct (Dict.mem "access_token" content) eqn:A.
    + rewrite mem_set. cbn [String.eqb Ascii.eqb Bool.eqb orb].
      destruct (Dict.mem "refresh_token" content) eqn:R;
        rewrite ?keys_set, ?mem_set, ?A, ?R; reflexivity.
    + destruct (Dict.mem "refresh_token" content) eqn:R;
        rewrite ?keys_set, ?R; reflexivity.
  - intros k N1 N2. now apply scrub_get_other.
  - intros k K. now apply scrub_get_secret.
  - set (d := _scrub_secrets content).
    assert (S : forall k x, k = "access_token" \/ k = "refresh_token" ->
                 Dict.get k x
                 = (if Dict.mem k x then Some (VStr "***") else None) ->
                 (if Dict.mem k x then Dict.set k (VStr "***") x else x)
                 = x).
    { intros k x K G. destruct (Dict.mem k x); [|reflexivity].
      now apply set_get_same. }
    assert (G : forall k, k = "access_token" \/ k = "refresh_token" ->
                 Dict.get k d
                 = if Dict.mem k d then Some (VStr "***") else None).
    { intros k K. subst d. rewrite scrub_mem. now apply scrub_get_secret. }
    unfold _scrub_secrets at 1. cbn [fold_left].
    rewrite (S "access_token" d) by auto.
    now rewrite (S "refresh_token" d) by auto.
Qed.

Section MergeTwice.
Variable json_loads : string -> result value.
Hypothesis loads_inverts_dumps :
  forall v, Json.value_wf v -> json_loads (Json.dumps v) = Ok v.

Local Abbreviation merge :=
  (_merge_claims_challenge_and_capabilities json_loads).

(** X18. Merging is idempotent: when [json.loads] reads back what
    [json.dumps] writes, merging the capabilities into the text a merge
    returned gives that same text. *)
Theorem merge_claims_idempotent capabilities claims_challenge d text :
  challenge_object json_loads claims_challenge = Some d ->
  Json.value_wf (VDict d) ->
  merge capabilities claims_challenge = Ok (Some text) ->
  merge capabilities (Some text) = Ok (Some text).
Proof.
  intros Hd W H.
  destruct capabilities as [|c caps]; [reflexivity|].
  unfold _merge_claims_challenge_and_capabilities in H.
  assert (L : match claims_challenge with
              | Some s => if String.eqb s "" then Ok (VDict [])
                          else json_loads s
              | None => Ok (VDict [])
              end = Ok (VDict d)).
  { unfold challenge_object in Hd.
    destruct claims_challenge as [s|]; [|now injection Hd as <-].
    destruct (String.eqb s ""); [now injection Hd as <-|].
    destruct (json_loads s) as [[| | | | |d']|]; try discriminate.
    now injection Hd as <-. }
  rewrite L in H. cbn [bind] in H.
  set (cv := VDict [("values", VList (map VStr (c :: caps)))]) in *.
  assert (Wc : Json.value_wf cv) by apply (wf_capability_values (c :: caps)).
  assert (F : exists d0 a,
             Json.value_wf (VDict d0) /\ Json.value_wf (VDict a)
             /\ text
                = Json.dumps
                    (VDict (Dict.set "access_token"
                              (VDict (Dict.set "xms_cc" cv a)) d0))).
  { destruct (Dict.get "access_token" d) as [[| | | | |a]|] eqn:A;
      try discriminate; injection H as <-.
    - exists d, a. split; [exact W|]. split; [|reflexivity].
      exact (wf_get _ _ _ W A).
    - exists (Dict.set "access_token" (VDict []) d), [].
      split; [|split; [|reflexivity]].
      + apply wf_set; [exact W|]. apply wf_dict. split; constructor.
      + apply wf_dict. split; constructor. }
  destruct F as (d0 & a & W0 & Wa & ->).
  set (a' := Dict.set "xms_cc" cv a).
  set (d' := Dict.set "access_token" (VDict a') d0).
  assert (Wa' : Json.value_wf (VDict a')) by now apply wf_set.
  assert (Wd' : Json.value_wf (VDict d')) by now apply wf_set.
  unfold _merge_claims_challenge_and_capabilities.
  replace (String.eqb (Json.dumps (VDict d')) "") with false
    by reflexivity.
  rewrite (loads_inverts_dumps _ Wd'). cbn [bind].
  assert (G : Dict.get "access_token" d' = Some (VDict a'))
    by apply AssocFacts.get_set_same.
  rewrite G. fold cv.
  unfold a' at 1. rewrite set_set_same. fold a'.
  unfold d' at 1. rewrite set_set_same. reflexivity.
Qed.

End MergeTwice.

(* ===================================================================== *)
(** * The properties on concrete runs *)
(* ===================================================================== *)

Lemma process_response_refresh_in_witness :
  (response_content (fun _ : unit => Raise JSONDecodeError)
     Sample.two_hour_response = Ok Sample.two_hour_content
   /\ out_result
        (Sample.process_response (Sample.client "contoso")
           Sample.two_hour_response Sample.request_time no_kwargs
           Sample.request_time)
      = Ok Sample.two_hour_token
   /\ Dict.mem "refresh_in" Sample.two_hour_content = false
   /\ computed_expires_in Sample.two_hour_content Sample.request_time
      = Ok 7200)
  /\ refresh_on Sample.two_hour_token = Some (Sample.request_time + 3600).
Proof.
  assert (H : response_content (fun _ : unit => Raise JSONDecodeError)
                Sample.two_hour_response = Ok Sample.two_hour_content
              /\ out_result
                   (Sample.process_response (Sample.client "contoso")
                      Sample.two_hour_response Sample.request_time no_kwargs
                      Sample.request_time)
                 = Ok Sample.two_hour_token
              /\ Dict.mem "refresh_in" Sample.two_hour_content = false
              /\ computed_expires_in Sample.two_hour_content
                   Sample.request_time
                 = Ok 7200).
  { repeat split; vm_compute; reflexivity. }
  split; [exact H|].
  destruct H as (Hc & Hok & Hri & Hlife).
  apply (proj1 (proj2
           (@process_response_refresh_in unit unit unit
              (fun _ _ => TokenCache.empty) (fun _ => Raise JSONDecodeError)
              Sample.canonicalize Sample.home_account_id
              (Sample.client "contoso") Sample.two_hour_response
              Sample.request_time no_kwargs Sample.request_time
              Sample.two_hour_content Sample.two_hour_token 7200
              Hc Hok Hri Hlife))).
  reflexivity.
Defined.

(** The claim of C7 as worded fails: a response without expiry whose
    access token is repeated by another field fails with a message that
    shows the token. *)
Lemma authentication_error_message_counterexample :
  Dict.get "access_token" Sample.no_expiry_content
  = Some (VStr "s3cr3t-t0k3n")
  /\ exists message,
       out_result
         (Sample.process_response (Sample.client "contoso")
            Sample.no_expiry_response Sample.request_time no_kwargs
            Sample.request_time)
       = Raise (ClientAuthenticationError message)
       /\ Py.contains "s3cr3t-t0k3n" message = true.
Proof.
  split; [reflexivity|].
  eexists. split; vm_compute; reflexivity.
Qed.

Lemma process_response_authentication_error_witness :
  (response_content (fun _ : unit => Raise JSONDecodeError)
     Sample.no_expiry_response = Ok Sample.no_expiry_content
   /\ form_ok (body (http_request Sample.no_expiry_response)))
  /\ is_auth_error
       (out_result
          (Sample.process_response (Sample.client "contoso")
             Sample.no_expiry_response Sample.request_time no_kwargs
             Sample.request_time))
     = true.
Proof.
  assert (H : response_content (fun _ : unit => Raise JSONDecodeError)
                Sample.no_expiry_response = Ok Sample.no_expiry_content
              /\ form_ok (body (http_request Sample.no_expiry_response))).
  { split; [reflexivity|]. intros H. vm_compute in H. discriminate. }
  split; [exact H|].
  destruct H as (Hc & W).
  exact (proj1
           (@process_response_authentication_error unit unit unit
              (fun _ _ => TokenCache.empty) (fun _ => Raise JSONDecodeError)
              Sample.canonicalize Sample.home_account_id
              (Sample.client "contoso") Sample.no_expiry_response
              Sample.request_time no_kwargs Sample.request_time
              Sample.no_expiry_content Hc W)).
Defined.

Lemma rotating_cache_wf :
  TokenCache.table_wf TokenCache.REFRESH_TOKEN
    (TokenCache.refresh_tokens
       (selected_cache (fun _ _ => TokenCache.empty) Sample.rotating_client
          no_kwargs)).
Proof.
  split.
  - repeat constructor. intros [].
  - repeat constructor.
Defined.



(** The claim of C2 as worded fails on a cache that holds the refresh
    token under a key that is not the key of its entry: the search finds
    the entry, the eviction removes what is filed under the entry's own
    key, which is nothing, and the entry is still in the cache
    afterwards. *)
Lemma invalid_grant_counterexample :
  let out :=
    Sample.process_response Sample.misfiled_client
      (Sample.refresh_response Sample.invalid_grant_content)
      Sample.request_time no_kwargs Sample.request_time in
  let cache' :=
    selected_cache (fun _ _ => TokenCache.empty) (out_self out) no_kwargs in
  is_refresh_grant (body (http_request
                            (Sample.refresh_response
                               Sample.invalid_grant_content))) = true
  /\ reports_invalid_grant Sample.invalid_grant_content = true
  /\ rt_matching
       (selected_cache (fun _ _ => TokenCache.empty) Sample.misfiled_client
          no_kwargs)
       (VStr "old-rt")
     = [Sample.old_entry]
  /\ is_auth_error (out_result out) = true
  /\ rt_matching cache' (VStr "old-rt") = [Sample.old_entry].
Proof. repeat split; vm_compute; reflexivity. Qed.

Lemma process_response_invalid_grant_witness :
  let self := Sample.rotating_client in
  let response := Sample.refresh_response Sample.invalid_grant_content in
  let out :=
    Sample.process_response self response Sample.request_time no_kwargs
      Sample.request_time in
  (response_content (fun _ : unit => Raise JSONDecodeError) response
   = Ok Sample.invalid_grant_content
   /\ is_refresh_grant (body (http_request response)) = true
   /\ Dict.get "refresh_token" (body (http_request response))
      = Some (VStr "old-rt")
   /\ reports_invalid_grant Sample.invalid_grant_content = true)
  /\ rt_matching
       (selected_cache (fun _ _ => TokenCache.empty) (out_self out) no_kwargs)
       (VStr "old-rt")
     = [].
Proof.
  intros self response out.
  assert (H : response_content (fun _ : unit => Raise JSONDecodeError)
                response
              = Ok Sample.invalid_grant_content
              /\ is_refresh_grant (body (http_request response)) = true
              /\ Dict.get "refresh_token" (body (http_request response))
                 = Some (VStr "old-rt")
              /\ reports_invalid_grant Sample.invalid_grant_content = true).
  { repeat split; vm_compute; reflexivity. }
  split; [exact H|].
  destruct H as (Hc & G & F & Hinv).
  exact (proj1 (proj2
           (@process_response_invalid_grant unit unit unit
              (fun _ _ => TokenCache.empty) (fun _ => Raise JSONDecodeError)
              Sample.canonicalize Sample.home_account_id
              self response Sample.request_time no_kwargs
              Sample.request_time Sample.invalid_grant_content
              (VStr "old-rt") Hc G F Hinv rotating_cache_wf))).
Defined.

Lemma getstate_setstate_witness :
  Sample.init None None = Ok (Sample.client "contoso")
  /\ Assoc.mem "_cache"
       (__getstate__
          (with_caches (Sample.client "contoso") (Some TokenCache.empty) None))
     = false.
Proof.
  assert (H : Sample.init None None = Ok (Sample.client "contoso"))
    by reflexivity.
  split; [exact H|].
  exact (proj1
           (@getstate_setstate unit unit (fun a => Ok a) Sample.authority
              (fun _ => tt) "contoso" "8f2b7a54-1c1d-4b8e-9d51-3f6c2a7e4b10"
              None None None (Some ["fabrikam"]) None
              (Sample.client "contoso") (Some TokenCache.empty) None H)).
Defined.

Lemma getstate_mixed_ownership_witness :
  exists self0,
    Sample.init (Some (Sample.rt_cache [Sample.old_entry])) None = Ok self0
    /\ _cae_cache self0 = None
    /\ Assoc.get "_cae_cache"
         (__getstate__
            (snd (_get_cache (fun (_ : unit) (_ : bool) => TokenCache.empty)
                    self0
                    {| enable_cae := true; tenant_id := None;
                       claims := None; client_secret := None |})))
       = Some (ACache unit unit (Some TokenCache.empty)).
Proof.
  destruct (Sample.init (Some (Sample.rt_cache [Sample.old_entry])) None)
    as [self0|e] eqn:H; [|vm_compute in H; discriminate].
  exists self0. split; [reflexivity|].
  destruct (@getstate_mixed_ownership unit unit (fun a => Ok a)
              Sample.authority (fun _ => tt)
              (fun _ _ => TokenCache.empty)
              "contoso" "8f2b7a54-1c1d-4b8e-9d51-3f6c2a7e4b10" None
              (Sample.rt_cache [Sample.old_entry]) (Some ["fabrikam"]) None
              {| enable_cae := true; tenant_id := None; claims := None;
                 client_secret := None |}
              self0 H)
    as (N & C & _ & G & _).
  cbv zeta in C, G. rewrite C in G.
  split; [exact N|exact G].
Defined.

(** The claim of C5 as worded fails twice: the empty string is no JSON
    text, yet it is merged as if absent; and a well-formed JSON text
    whose [access_token] is [null], or which is an array, makes the merge
    fail with an [AttributeError]. *)
Lemma merge_claims_counterexample :
  Json.loads "" = Raise JSONDecodeError
  /\ _merge_claims_challenge_and_capabilities Json.loads ["CP1"] (Some "")
     = Ok (Some (Json.dumps
                   (VDict [("access_token",
                            VDict [("xms_cc", capability_values ["CP1"])])])))
  /\ Json.loads Sample.null_access_token_text
     = Ok (VDict [("access_token", VNone)])
  /\ _merge_claims_challenge_and_capabilities Json.loads ["CP1"]
       (Some Sample.null_access_token_text)
     = Raise AttributeError
  /\ Json.loads "[]" = Ok (VList [])
  /\ _merge_claims_challenge_and_capabilities Json.loads ["CP1"] (Some "[]")
     = Raise AttributeError.
Proof. repeat split; vm_compute; reflexivity. Qed.

Lemma merge_claims_challenge_and_capabilities_witness :
  (["CP1"] <> []
   /\ challenge_object Json.loads (Some Sample.challenge_text)
      = Some Sample.challenge
   /\ Json.value_wf (VDict Sample.challenge)
   /\ access_token_claims Sample.challenge
      = Some [("nbf",
               VDict [("essential", VBool true);
                      ("value", VStr "1700000000")])])
  /\ exists text d' a',
       _merge_claims_challenge_and_capabilities Json.loads ["CP1"]
         (Some Sample.challenge_text) = Ok (Some text)
       /\ Json.loads text = Ok (VDict d')
       /\ Dict.get "access_token" d' = Some (VDict a')
       /\ Jwt.member "values" (Dict.get "xms_cc" a')
          = Some (VList [VStr "CP1"])
       /\ Dict.get "nbf" a'
          = Some (VDict [("essential", VBool true);
                         ("value", VStr "1700000000")]).
Proof.
  assert (H : ["CP1"] <> []
              /\ challenge_object Json.loads (Some Sample.challenge_text)
                 = Some Sample.challenge
              /\ Json.value_wf (VDict Sample.challenge)
              /\ access_token_claims Sample.challenge
                 = Some [("nbf",
                          VDict [("essential", VBool true);
                                 ("value", VStr "1700000000")])]).
  { split; [discriminate|]. split; [vm_compute; reflexivity|].
    split; [|reflexivity].
    simpl. repeat split; repeat constructor; simpl; intuition discriminate. }
  split; [exact H|].
  destruct H as (Hcaps & Hobj & Wd & Ha).
  destruct (proj2 (proj2 (merge_claims_challenge_and_capabilities Json.loads
                            ["CP1"] (Some Sample.challenge_text)) Hcaps)
              _ _ Hobj Wd Ha)
    as (text & d' & a' & Hm & Hl & Hat & _ & Hv & _ & Hk).
  exists text, d', a'. repeat split; try assumption.
  rewrite Hk by discriminate. reflexivity.
Defined.
(** The claim of C3 as worded fails: for the client of tenant
    [fabrikam] the payload is 250 bytes long and the signature 256, so
    that the second and third segments of the assertion end in padding,
    which the compact serialization of RFC 7515 leaves out. *)
Lemma client_certificate_assertion_counterexample :
  exists jwt payload compact,
    _get_client_certificate_assertion Sample.resolve_tenant
      (Sample.client "fabrikam") Sample.certificate no_kwargs
      Sample.request_time Sample.jti = Ok jwt
    /\ assertion_payload Sample.resolve_tenant (Sample.client "fabrikam")
         no_kwargs Sample.request_time Sample.jti = Ok payload
    /\ Jwt.compact
         (assertion_headers (Sample.client "fabrikam") Sample.certificate)
         payload
         (assertion_signature (Sample.client "fabrikam") Sample.certificate
            payload)
       = Ok compact
    /\ map (Py.contains "=") (Jwt.segments jwt) = [false; true; true]
    /\ Py.contains "=" compact = false
    /\ jwt <> compact.
Proof.
  eexists. eexists. eexists.
  split; [vm_compute; reflexivity|].
  split; [vm_compute; reflexivity|].
  split; [vm_compute; reflexivity|].
  split; [vm_compute; reflexivity|].
  split; [vm_compute; reflexivity|].
  intros H.
  apply (f_equal (Py.contains "=")) in H. vm_compute in H. discriminate.
Qed.

Lemma client_certificate_assertion_segments_witness :
  assertion_payload Sample.resolve_tenant (Sample.client "contoso")
    no_kwargs Sample.request_time Sample.jti
  = Ok [("jti", VStr Sample.jti);
        ("aud", VStr (Sample.endpoint "contoso"));
        ("iss", VStr "8f2b7a54-1c1d-4b8e-9d51-3f6c2a7e4b10");
        ("sub", VStr "8f2b7a54-1c1d-4b8e-9d51-3f6c2a7e4b10");
        ("nbf", VInt 1700000000);
        ("exp", VInt 1700001800)]
  /\ exists jwt,
       _get_client_certificate_assertion Sample.resolve_tenant
         (Sample.client "contoso") Sample.certificate no_kwargs
         Sample.request_time Sample.jti = Ok jwt
       /\ jwt = Py.join "." (Jwt.segments jwt)
       /\ length (Jwt.segments jwt) = 3%nat
       /\ Jwt.member "exp" (Jwt.payload_of jwt) = Some (VInt 1700001800).
Proof.
  assert (H : assertion_payload Sample.resolve_tenant
                (Sample.client "contoso") no_kwargs Sample.request_time
                Sample.jti
              = Ok [("jti", VStr Sample.jti);
                    ("aud", VStr (Sample.endpoint "contoso"));
                    ("iss", VStr "8f2b7a54-1c1d-4b8e-9d51-3f6c2a7e4b10");
                    ("sub", VStr "8f2b7a54-1c1d-4b8e-9d51-3f6c2a7e4b10");
                    ("nbf", VInt 1700000000);
                    ("exp", VInt 1700001800)])
    by reflexivity.
  split; [exact H|].
  destruct (@client_certificate_assertion_segments unit unit
              Sample.resolve_tenant (Sample.client "contoso")
              Sample.certificate no_kwargs Sample.request_time Sample.jti
              _ H)
    as (jwt & Hjwt & Hseg & Hjoin & _ & _ & Hpl & _).
  exists jwt. split; [exact Hjwt|]. split; [exact Hjoin|].
  split; [now rewrite Hseg|]. now rewrite Hpl.
Defined.

Lemma client_certificate_assertion_claims_witness :
  (__init__ (fun a => Ok a) Sample.authority (fun _ : option unit => tt)
     "ADFS" "8f2b7a54-1c1d-4b8e-9d51-3f6c2a7e4b10" None None None
     (Some ["fabrikam"]) None
   = Ok (Sample.client "ADFS")
   /\ exists jwt,
        _get_client_certificate_assertion Sample.resolve_tenant
          (with_caches (Sample.client "ADFS") None None) Sample.certificate
          no_kwargs Sample.request_time Sample.jti = Ok jwt)
  /\ exists jwt,
       _get_client_certificate_assertion Sample.resolve_tenant
         (with_caches (Sample.client "ADFS") None None) Sample.certificate
         no_kwargs Sample.request_time Sample.jti = Ok jwt
       /\ Jwt.member "aud" (Jwt.payload_of jwt)
          = Some (VStr (Sample.endpoint "ADFS"))
       /\ Jwt.member "alg" (Jwt.header_of jwt) = Some (VStr "RS256")
       /\ Jwt.member "x5t" (Jwt.header_of jwt)
          = Some (VStr (thumbprint Sample.certificate)).
Proof.
  assert (Hinit :
    __init__ (fun a => Ok a) Sample.authority (fun _ : option unit => tt)
      "ADFS" "8f2b7a54-1c1d-4b8e-9d51-3f6c2a7e4b10" None None None
     (Some ["fabrikam"]) None
    = Ok (Sample.client "ADFS")) by (vm_compute; reflexivity).
  destruct (_get_client_certificate_assertion Sample.resolve_tenant
              (with_caches (Sample.client "ADFS") None None)
              Sample.certificate no_kwargs Sample.request_time Sample.jti)
    as [jwt|e] eqn:Hjwt; [|vm_compute in Hjwt; discriminate].
  split; [split; [exact Hinit|now exists jwt]|].
  exists jwt. split; [reflexivity|].
  destruct (@client_certificate_assertion_claims unit unit
              (fun a => Ok a) Sample.authority (fun _ => tt)
              Sample.resolve_tenant
              "ADFS" "8f2b7a54-1c1d-4b8e-9d51-3f6c2a7e4b10" None None None
              (Some ["fabrikam"]) None (Sample.client "ADFS") None None
              Sample.certificate no_kwargs Sample.request_time Sample.jti
              jwt Hinit Hjwt)
    as (aud & nbf & exp & Hurl & Haud & _ & _ & _ & Hadfs & _).
  destruct (Hadfs eq_refl) as [Halg Hx5t].
  split; [|split; [exact Halg|exact Hx5t]].
  rewrite Haud. vm_compute in Hurl. injection Hurl as <-. reflexivity.
Defined.


(** The claim of C9 as worded fails four times.  When the cache holds a
    token for more scopes that is still good, the lookup for the scope of
    a response just cached returns that older token.  When a response
    gives [expires_in] and an [expires_on] that is not [expires_in] after
    the request, the token cached expires when [expires_in] says, the
    token returned when [expires_on] says.  When a scope has a space in
    it, the token is filed for its two halves and the lookup for the
    scope as given finds nothing.  And a response whose access token is
    the empty text yields a token but files none. *)
Lemma cached_token_counterexample :
  (out_result
     (Sample.process_response Sample.wide_client Sample.two_hour_response
        Sample.request_time no_kwargs Sample.request_time)
   = Ok Sample.two_hour_token
   /\ Sample.request_time + 1 < expires_on Sample.two_hour_token
   /\ Sample.cached_access_token
        (out_self
           (Sample.process_response Sample.wide_client Sample.two_hour_response
              Sample.request_time no_kwargs Sample.request_time))
        [Sample.vault_scope] no_kwargs (Sample.request_time + 1)
      = Ok (Some Sample.wide_token)
   /\ Sample.wide_token <> Sample.two_hour_token)
  /\ (exists returned cached,
        out_result
          (Sample.process_response (Sample.client "contoso")
             Sample.both_expiries_response Sample.request_time no_kwargs
             Sample.request_time)
        = Ok returned
        /\ Sample.request_time + 1 < expires_on returned
        /\ Sample.cached_access_token
             (out_self
                (Sample.process_response (Sample.client "contoso")
                   Sample.both_expiries_response Sample.request_time
                   no_kwargs Sample.request_time))
             [Sample.vault_scope] no_kwargs (Sample.request_time + 1)
           = Ok (Some cached)
        /\ expires_on returned = 1700003605
        /\ expires_on cached = 1700003599)
  /\ (Dict.get "scope" (body (http_request Sample.spaced_response))
      = Some (VStr (Py.join " " [Sample.spaced_scope]))
      /\ out_result
           (Sample.process_response (Sample.client "contoso")
              Sample.spaced_response Sample.request_time no_kwargs
              Sample.request_time)
         = Ok Sample.two_hour_token
      /\ Sample.cached_access_token
           (out_self
              (Sample.process_response (Sample.client "contoso")
                 Sample.spaced_response Sample.request_time no_kwargs
                 Sample.request_time))
           [Sample.spaced_scope] no_kwargs (Sample.request_time + 1)
         = Ok None)
  /\ (exists returned,
        out_result
          (Sample.process_response (Sample.client "contoso")
             Sample.empty_token_response Sample.request_time no_kwargs
             Sample.request_time)
        = Ok returned
        /\ Sample.request_time + 1 < expires_on returned
        /\ Sample.cached_access_token
             (out_self
                (Sample.process_response (Sample.client "contoso")
                   Sample.empty_token_response Sample.request_time
                   no_kwargs Sample.request_time))
             [Sample.vault_scope] no_kwargs (Sample.request_time + 1)
           = Ok None).
Proof.
  split; [|split; [|split]].
  - split; [vm_compute; reflexivity|].
    split; [vm_compute; reflexivity|].
    split; [vm_compute; reflexivity|].
    discriminate.
  - eexists. eexists.
    split; [vm_compute; reflexivity|].
    split; [vm_compute; reflexivity|].
    split; [vm_compute; reflexivity|].
    split; reflexivity.
  - repeat split; vm_compute; reflexivity.
  - eexists. repeat split; vm_compute; reflexivity.
Qed.

Lemma process_response_then_cached_witness :
  (response_content (fun _ : unit => Raise JSONDecodeError)
     Sample.two_hour_response = Ok Sample.two_hour_content
   /\ out_result
        (Sample.process_response Sample.renewing_client Sample.two_hour_response
           Sample.request_time no_kwargs Sample.request_time)
      = Ok Sample.two_hour_token
   /\ Py.truthy (token Sample.two_hour_token) = true
   /\ consistent_expiry Sample.two_hour_content Sample.request_time = true
   /\ Dict.get "scope" (body (http_request Sample.two_hour_response))
      = Some (VStr (Py.join " " [Sample.vault_scope]))
   /\ forallb is_scope [Sample.vault_scope] = true
   /\ Sample.resolve_tenant (_tenant_id Sample.renewing_client)
        (_additionally_allowed_tenants Sample.renewing_client) (tenant_id no_kwargs)
      = Ok "contoso"
   /\ snd (Sample.canonicalize (url (http_request Sample.two_hour_response)))
      = "contoso"
   /\ others_expired
        (access_token_key Sample.canonicalize Sample.home_account_id
           (_client_id Sample.renewing_client)
           (http_request Sample.two_hour_response)
           (out_content
              (Sample.process_response Sample.renewing_client
                 Sample.two_hour_response Sample.request_time no_kwargs
                 Sample.request_time))
           [Sample.vault_scope] Sample.request_time)
        [Sample.vault_scope] (lookup_query (_client_id Sample.renewing_client) "contoso")
        (Sample.request_time + 1)
        (TokenCache.access_tokens
           (selected_cache (fun (_ : unit) (_ : bool) => TokenCache.empty)
              Sample.renewing_client no_kwargs))
      = true
   /\ Sample.request_time + 1 < expires_on Sample.two_hour_token)
  /\ Sample.cached_access_token Sample.renewing_client [Sample.vault_scope] no_kwargs
       (Sample.request_time + 1)
     = Ok (Some {| token := VStr "b2xkLXRva2Vu";
                   expires_on := 1700000300;
                   token_type := VStr "Bearer";
                   refresh_on := None |})
  /\ Sample.cached_access_token
       (out_self
          (Sample.process_response Sample.renewing_client Sample.two_hour_response
             Sample.request_time no_kwargs Sample.request_time))
       [Sample.vault_scope] no_kwargs (Sample.request_time + 1)
     = Ok (Some Sample.two_hour_token).
Proof.
  assert (H : response_content (fun _ : unit => Raise JSONDecodeError)
     Sample.two_hour_response = Ok Sample.two_hour_content
   /\ out_result
        (Sample.process_response Sample.renewing_client Sample.two_hour_response
           Sample.request_time no_kwargs Sample.request_time)
      = Ok Sample.two_hour_token
   /\ Py.truthy (token Sample.two_hour_token) = true
   /\ consistent_expiry Sample.two_hour_content Sample.request_time = true
   /\ Dict.get "scope" (body (http_request Sample.two_hour_response))
      = Some (VStr (Py.join " " [Sample.vault_scope]))
   /\ forallb is_scope [Sample.vault_scope] = true
   /\ Sample.resolve_tenant (_tenant_id Sample.renewing_client)
        (_additionally_allowed_tenants Sample.renewing_client) (tenant_id no_kwargs)
      = Ok "contoso"
   /\ snd (Sample.canonicalize (url (http_request Sample.two_hour_response)))
      = "contoso"
   /\ others_expired
        (access_token_key Sample.canonicalize Sample.home_account_id
           (_client_id Sample.renewing_client)
           (http_request Sample.two_hour_response)
           (out_content
              (Sample.process_response Sample.renewing_client
                 Sample.two_hour_response Sample.request_time no_kwargs
                 Sample.request_time))
           [Sample.vault_scope] Sample.request_time)
        [Sample.vault_scope] (lookup_query (_client_id Sample.renewing_client) "contoso")
        (Sample.request_time + 1)
        (TokenCache.access_tokens
           (selected_cache (fun (_ : unit) (_ : bool) => TokenCache.empty)
              Sample.renewing_client no_kwargs))
      = true
   /\ Sample.request_time + 1 < expires_on Sample.two_hour_token).
  { repeat split; vm_compute; reflexivity. }
  split; [exact H|]. split; [vm_compute; reflexivity|].
  destruct H as (H1 & H2 & H3 & H4 & H5 & H6 & H7 & H8 & H9 & H10).
  exact (@process_response_then_cached unit unit unit
           Sample.resolve_tenant (fun _ _ => TokenCache.empty)
           (fun _ => Raise JSONDecodeError) Sample.canonicalize
           Sample.home_account_id Sample.renewing_client Sample.two_hour_response
           Sample.request_time no_kwargs Sample.request_time
           (Sample.request_time + 1) Sample.two_hour_token "contoso"
           [Sample.vault_scope] Sample.two_hour_content
           H1 H2 H3 H4 H5 H6 H7 H8 H9 H10).
Defined.


(* ===================================================================== *)
(** * Further properties on concrete runs *)
(* ===================================================================== *)

Lemma request_shape_witness :
  exists request,
    _get_refresh_token_request Sample.resolve_tenant Json.loads
      (Sample.client "contoso") [Sample.vault_scope] "old-rt" no_kwargs
    = Ok request
    /\ method request = "POST"
    /\ url request = Sample.endpoint "contoso"
    /\ Dict.get "grant_type" (body request) = Some (VStr "refresh_token").
Proof.
  destruct (_get_refresh_token_request Sample.resolve_tenant Json.loads
              (Sample.client "contoso") [Sample.vault_scope] "old-rt"
              no_kwargs) as [request|e] eqn:H;
    [|vm_compute in H; discriminate].
  destruct (request_shape Sample.resolve_tenant Json.loads
              (Sample.client "contoso") [Sample.vault_scope] no_kwargs
              "refresh_token" request
              (builds_refresh_token _ _ _ _ _ "old-rt" request H))
    as (M & U & _ & _ & _ & G).
  exists request. split; [reflexivity|]. split; [exact M|].
  split; [|exact G].
  vm_compute in U. injection U as U. symmetry. exact U.
Defined.

Lemma request_processable_witness :
  exists request,
    _get_refresh_token_request Sample.resolve_tenant Json.loads
      (Sample.client "contoso") [Sample.vault_scope] "old-rt" no_kwargs
    = Ok request
    /\ form_ok (body request)
    /\ request_scopes (body request) = Ok [Sample.vault_scope].
Proof.
  destruct (_get_refresh_token_request Sample.resolve_tenant Json.loads
              (Sample.client "contoso") [Sample.vault_scope] "old-rt"
              no_kwargs) as [request|e] eqn:H;
    [|vm_compute in H; discriminate].
  destruct (request_processable Sample.resolve_tenant Json.loads
              (Sample.client "contoso") [Sample.vault_scope] no_kwargs
              "refresh_token" request
              (builds_refresh_token _ _ _ _ _ "old-rt" request H))
    as (F & _ & _ & S).
  exists request. split; [reflexivity|]. split; [exact F|].
  apply S. reflexivity.
Defined.

Lemma request_claims_witness :
  exists request,
    _get_client_secret_request Sample.resolve_tenant Json.loads
      (Sample.client "contoso") [Sample.vault_scope] "hunter2"
      {| enable_cae := true; tenant_id := None; claims := None;
         client_secret := None |}
    = Ok request
    /\ Dict.get "claims" (body request) = Some (VStr cp1_claims).
Proof.
  destruct (_get_client_secret_request Sample.resolve_tenant Json.loads
              (Sample.client "contoso") [Sample.vault_scope] "hunter2"
              {| enable_cae := true; tenant_id := None; claims := None;
                 client_secret := None |}) as [request|e] eqn:H;
    [|vm_compute in H; discriminate].
  exists request. split; [reflexivity|].
  exact (proj2 (proj2 (request_claims Sample.resolve_tenant Json.loads
                         (Sample.client "contoso") [Sample.vault_scope]
                         {| enable_cae := true; tenant_id := None;
                            claims := None; client_secret := None |}
                         "client_credentials" request
                         (builds_client_secret _ _ _ _ _ "hunter2" request
                            H))
                  eq_refl) eq_refl).
Defined.

Lemma on_behalf_of_credential_witness :
  exists request,
    _get_on_behalf_of_request Sample.resolve_tenant Json.loads
      (Sample.client "contoso") [Sample.vault_scope] (CredSecret "hunter2")
      "eyJ0eXAiOiJKV1QifQ.e30.c2ln" no_kwargs Sample.request_time
      Sample.jti
    = Ok request
    /\ Dict.get "client_secret" (body request) = Some (VStr "hunter2")
    /\ Dict.get "client_assertion" (body request) = None.
Proof.
  destruct (_get_on_behalf_of_request Sample.resolve_tenant Json.loads
              (Sample.client "contoso") [Sample.vault_scope]
              (CredSecret "hunter2") "eyJ0eXAiOiJKV1QifQ.e30.c2ln"
              no_kwargs Sample.request_time Sample.jti)
    as [request|e] eqn:H; [|vm_compute in H; discriminate].
  destruct (on_behalf_of_credential Sample.resolve_tenant Json.loads
              (Sample.client "contoso") [Sample.vault_scope]
              (CredSecret "hunter2") no_kwargs Sample.request_time
              Sample.jti request
              (or_introl (ex_intro _ "eyJ0eXAiOiJKV1QifQ.e30.c2ln" H)))
    as (S & A & _).
  exists request. auto.
Defined.

Lemma request_client_secret_witness :
  exists request,
    _get_auth_code_request Sample.resolve_tenant Json.loads
      (Sample.client "contoso") [Sample.vault_scope] "0.AXoA-code"
      "http://localhost:8400" (Some "") no_kwargs
    = Ok request
    /\ Dict.get "client_secret" (body request) = None.
Proof.
  destruct (_get_auth_code_request Sample.resolve_tenant Json.loads
              (Sample.client "contoso") [Sample.vault_scope] "0.AXoA-code"
              "http://localhost:8400" (Some "") no_kwargs)
    as [request|e] eqn:H; [|vm_compute in H; discriminate].
  exists request. split; [reflexivity|].
  exact (proj1 (request_client_secret Sample.resolve_tenant Json.loads
                  (Sample.client "contoso") [Sample.vault_scope] no_kwargs
                  request)
           "0.AXoA-code" "http://localhost:8400" (Some "") H).
Defined.

Lemma client_certificate_request_audience_witness :
  exists request jwt,
    _get_client_certificate_request Sample.resolve_tenant Json.loads
      (Sample.client "contoso") [Sample.vault_scope] Sample.certificate
      {| enable_cae := false; tenant_id := Some "fabrikam"; claims := None;
         client_secret := None |}
      Sample.request_time Sample.jti
    = Ok request
    /\ Dict.get "client_assertion" (body request) = Some (VStr jwt)
    /\ Jwt.member "aud" (Jwt.payload_of jwt) = Some (VStr (url request))
    /\ url request = Sample.endpoint "fabrikam".
Proof.
  destruct (_get_client_certificate_request Sample.resolve_tenant Json.loads
              (Sample.client "contoso") [Sample.vault_scope]
              Sample.certificate
              {| enable_cae := false; tenant_id := Some "fabrikam";
                 claims := None; client_secret := None |}
              Sample.request_time Sample.jti)
    as [request|e] eqn:H; [|vm_compute in H; discriminate].
  destruct (client_certificate_request_audience Sample.resolve_tenant
              Json.loads (Sample.client "contoso") [Sample.vault_scope]
              Sample.certificate
              {| enable_cae := false; tenant_id := Some "fabrikam";
                 claims := None; client_secret := None |}
              Sample.request_time Sample.jti request H)
    as (jwt & _ & A & _ & U).
  exists request, jwt. split; [reflexivity|]. split; [exact A|].
  split; [exact U|].
  vm_compute in H. injection H as <-. reflexivity.
Defined.

Lemma client_certificate_assertion_identity_witness :
  exists jwt,
    _get_client_certificate_assertion Sample.resolve_tenant
      (Sample.client "contoso") Sample.certificate no_kwargs
      Sample.request_time Sample.jti = Ok jwt
    /\ Jwt.member "iss" (Jwt.payload_of jwt)
       = Some (VStr "8f2b7a54-1c1d-4b8e-9d51-3f6c2a7e4b10")
    /\ Jwt.member "jti" (Jwt.payload_of jwt) = Some (VStr Sample.jti).
Proof.
  destruct (_get_client_certificate_assertion Sample.resolve_tenant
              (Sample.client "contoso") Sample.certificate no_kwargs
              Sample.request_time Sample.jti)
    as [jwt|e] eqn:H; [|vm_compute in H; discriminate].
  destruct (client_certificate_assertion_identity Sample.resolve_tenant
              (Sample.client "contoso") Sample.certificate no_kwargs
              Sample.request_time Sample.jti jwt H)
    as (I & _ & J & _).
  exists jwt. auto.
Defined.

Lemma cached_access_token_sound_witness :
  Sample.cached_access_token Sample.renewing_client [Sample.vault_scope]
    no_kwargs (Sample.request_time + 1)
  = Ok (Some {| token := VStr "b2xkLXRva2Vu";
                expires_on := 1700000300;
                token_type := VStr "Bearer";
                refresh_on := None |})
  /\ exists entry,
       In entry
         (map snd
            (TokenCache.access_tokens
               (selected_cache (fun (_ : unit) (_ : bool) => TokenCache.empty)
                  Sample.renewing_client no_kwargs)))
       /\ Dict.get "realm" entry = Some (VStr "contoso")
       /\ Dict.get "secret" entry = Some (VStr "b2xkLXRva2Vu").
Proof.
  assert (H : Sample.cached_access_token Sample.renewing_client
                [Sample.vault_scope] no_kwargs (Sample.request_time + 1)
              = Ok (Some {| token := VStr "b2xkLXRva2Vu";
                            expires_on := 1700000300;
                            token_type := VStr "Bearer";
                            refresh_on := None |}))
    by (vm_compute; reflexivity).
  split; [exact H|].
  destruct (cached_access_token_sound Sample.resolve_tenant
              (fun _ _ => TokenCache.empty) Sample.renewing_client
              [Sample.vault_scope] no_kwargs (Sample.request_time + 1) _ H)
    as (tenant & entry & T & I & _ & R & _ & S & _).
  exists entry. split; [exact I|]. split; [|exact S].
  vm_compute in T. injection T as <-. exact R.
Defined.

Lemma cached_access_token_miss_witness :
  forallb (expired_at (Sample.request_time + 1))
    (TokenCache.search
       (selected_cache (fun (_ : unit) (_ : bool) => TokenCache.empty)
          Sample.renewing_client no_kwargs)
       TokenCache.ACCESS_TOKEN
       [Sample.vault_scope; "https://vault.azure.net/user_impersonation"]
       (lookup_query (_client_id Sample.renewing_client) "contoso"))
  = true
  /\ Sample.cached_access_token Sample.renewing_client
       [Sample.vault_scope; "https://vault.azure.net/user_impersonation"]
       no_kwargs (Sample.request_time + 1)
     = Ok None.
Proof.
  assert (H : forallb (expired_at (Sample.request_time + 1))
                (TokenCache.search
                   (selected_cache
                      (fun (_ : unit) (_ : bool) => TokenCache.empty)
                      Sample.renewing_client no_kwargs)
                   TokenCache.ACCESS_TOKEN
                   [Sample.vault_scope;
                    "https://vault.azure.net/user_impersonation"]
                   (lookup_query (_client_id Sample.renewing_client)
                      "contoso"))
              = true) by (vm_compute; reflexivity).
  split; [exact H|].
  exact (cached_access_token_miss Sample.resolve_tenant
           (fun _ _ => TokenCache.empty) Sample.renewing_client
           [Sample.vault_scope; "https://vault.azure.net/user_impersonation"]
           no_kwargs (Sample.request_time + 1) H).
Defined.

Lemma cae_token_not_served_witness :
  out_result
    (Sample.process_response (Sample.client "contoso")
       Sample.two_hour_response Sample.request_time
       {| enable_cae := true; tenant_id := None; claims := None;
          client_secret := None |}
       Sample.request_time)
  = Ok Sample.two_hour_token
  /\ Sample.cached_access_token
       (out_self
          (Sample.process_response (Sample.client "contoso")
             Sample.two_hour_response Sample.request_time
             {| enable_cae := true; tenant_id := None; claims := None;
                client_secret := None |}
             Sample.request_time))
       [Sample.vault_scope] no_kwargs (Sample.request_time + 1)
     = Ok None.
Proof.
  split; [vm_compute; reflexivity|].
  exact (cae_token_not_served Sample.resolve_tenant
           (fun _ _ => TokenCache.empty) (fun _ => Raise JSONDecodeError)
           Sample.canonicalize Sample.home_account_id
           (Sample.client "contoso") Sample.two_hour_response
           Sample.request_time
           {| enable_cae := true; tenant_id := None; claims := None;
              client_secret := None |}
           Sample.request_time [Sample.vault_scope] no_kwargs
           (Sample.request_time + 1) "contoso"
           eq_refl eq_refl eq_refl eq_refl eq_refl).
Defined.

Lemma refresh_token_cached_witness :
  let response :=
    Sample.response "contoso"
      [("client_id", VStr "8f2b7a54-1c1d-4b8e-9d51-3f6c2a7e4b10");
       ("code", VStr "0.AXoA-code");
       ("grant_type", VStr "authorization_code");
       ("redirect_uri", VStr "http://localhost:8400");
       ("scope", VStr Sample.vault_scope)]
      Sample.rotated_content in
  let out :=
    Sample.process_response (Sample.client "contoso") response
      Sample.request_time no_kwargs Sample.request_time in
  (is_refresh_grant (body (http_request response)) = false
   /\ exists tok, out_result out = Ok tok)
  /\ exists entry,
       In entry
         (fst (get_cached_refresh_tokens (fun _ _ => TokenCache.empty)
                 (out_self out) [Sample.vault_scope] no_kwargs))
       /\ Dict.get "secret" entry = Some (VStr "new-rt").
Proof.
  intros response out.
  destruct (out_result out) as [tok|e] eqn:H;
    [|vm_compute in H; discriminate].
  split; [split; [reflexivity|now exists tok]|].
  exact (refresh_token_cached (fun _ _ => TokenCache.empty)
           (fun _ => Raise JSONDecodeError) Sample.canonicalize
           Sample.home_account_id (Sample.client "contoso") response
           Sample.request_time no_kwargs Sample.request_time tok
           Sample.rotated_content [Sample.vault_scope] (VStr "new-rt")
           eq_refl eq_refl H eq_refl eq_refl eq_refl eq_refl).
Defined.

Lemma process_response_failure_witness :
  let out :=
    Sample.process_response Sample.renewing_client
      Sample.no_expiry_response Sample.request_time no_kwargs
      Sample.request_time in
  is_auth_error (out_result out) = true
  /\ selected_cache (fun _ _ => TokenCache.empty) (out_self out) no_kwargs
     = selected_cache (fun _ _ => TokenCache.empty) Sample.renewing_client
         no_kwargs.
Proof.
  intros out.
  destruct (out_result out) as [tok|e] eqn:H;
    [vm_compute in H; discriminate|].
  split; [vm_compute in H; injection H as <-; reflexivity|].
  exact (proj2 (process_response_failure (fun _ _ => TokenCache.empty)
                  (fun _ => Raise JSONDecodeError) Sample.canonicalize
                  Sample.home_account_id Sample.renewing_client
                  Sample.no_expiry_response Sample.request_time no_kwargs
                  Sample.request_time e H)
           eq_refl).
Defined.

Lemma process_response_token_witness :
  (response_content (fun _ : unit => Raise JSONDecodeError)
     Sample.both_expiries_response = Ok Sample.both_expiries_content
   /\ exists tok,
        out_result
          (Sample.process_response (Sample.client "contoso")
             Sample.both_expiries_response Sample.request_time no_kwargs
             Sample.request_time) = Ok tok)
  /\ exists tok,
       out_result
         (Sample.process_response (Sample.client "contoso")
            Sample.both_expiries_response Sample.request_time no_kwargs
            Sample.request_time) = Ok tok
       /\ Py.int (VStr "1700003605") = Ok (expires_on tok)
       /\ token tok = VStr "eyJ0eXAiOiJKV1QifQ.e30.c2ln".
Proof.
  destruct (out_result
              (Sample.process_response (Sample.client "contoso")
                 Sample.both_expiries_response Sample.request_time
                 no_kwargs Sample.request_time)) as [tok|e] eqn:H;
    [|vm_compute in H; discriminate].
  split; [split; [reflexivity|now exists tok]|].
  destruct (process_response_token (fun _ _ => TokenCache.empty)
              (fun _ => Raise JSONDecodeError) Sample.canonicalize
              Sample.home_account_id (Sample.client "contoso")
              Sample.both_expiries_response Sample.request_time no_kwargs
              Sample.request_time Sample.both_expiries_content tok
              eq_refl H)
    as (_ & A & _ & E).
  exists tok. split; [reflexivity|]. split; [exact E|].
  cbn in A. now injection A as <-.
Defined.

Lemma process_response_refresh_on_witness :
  (response_content (fun _ : unit => Raise JSONDecodeError)
     Sample.two_hour_response = Ok Sample.two_hour_content
   /\ out_result
        (Sample.process_response (Sample.client "contoso")
           Sample.two_hour_response Sample.request_time no_kwargs
           Sample.request_time) = Ok Sample.two_hour_token
   /\ Dict.mem "refresh_in" Sample.two_hour_content = false
   /\ Dict.mem "expires_on" Sample.two_hour_content
      && Dict.mem "expires_in" Sample.two_hour_content = false)
  /\ Sample.request_time + 3600 <= 1700003600
     < expires_on Sample.two_hour_token.
Proof.
  assert (H : response_content (fun _ : unit => Raise JSONDecodeError)
                Sample.two_hour_response = Ok Sample.two_hour_content
              /\ out_result
                   (Sample.process_response (Sample.client "contoso")
                      Sample.two_hour_response Sample.request_time
                      no_kwargs Sample.request_time)
                 = Ok Sample.two_hour_token
              /\ Dict.mem "refresh_in" Sample.two_hour_content = false
              /\ Dict.mem "expires_on" Sample.two_hour_content
                 && Dict.mem "expires_in" Sample.two_hour_content = false).
  { repeat split; vm_compute; reflexivity. }
  split; [exact H|]. destruct H as (H1 & H2 & H3 & H4).
  exact (proj2 (process_response_refresh_on (fun _ _ => TokenCache.empty)
                  (fun _ => Raise JSONDecodeError) Sample.canonicalize
                  Sample.home_account_id (Sample.client "contoso")
                  Sample.two_hour_response Sample.request_time no_kwargs
                  Sample.request_time Sample.two_hour_content
                  Sample.two_hour_token H1 H2 H3 H4)
           1700003600 eq_refl).
Defined.

Lemma merge_claims_idempotent_witness :
  exists text,
    _merge_claims_challenge_and_capabilities Json.loads ["CP1"]
      (Some Sample.challenge_text) = Ok (Some text)
    /\ _merge_claims_challenge_and_capabilities Json.loads ["CP1"]
         (Some text) = Ok (Some text).
Proof.
  destruct (_merge_claims_challenge_and_capabilities Json.loads ["CP1"]
              (Some Sample.challenge_text)) as [[text|]|e] eqn:H;
    [|vm_compute in H; discriminate|vm_compute in H; discriminate].
  exists text. split; [reflexivity|].
  refine (merge_claims_idempotent Json.loads loads_dumps ["CP1"]
            (Some Sample.challenge_text) Sample.challenge text _ _ H).
  - vm_compute. reflexivity.
  - simpl. repeat split; repeat constructor; simpl; intuition discriminate.
Defined.
